(** * Auto Dark Titlebar

    A shallow embedding of [mods/asteski-auto-dark-titlebar.wh.cpp].

    The mod runs inside a host process and talks to three outside parties:
    the Win32 window manager and registry, the DWM compositor, and the
    Windhawk framework.  Everything the mod can observe of them is gathered
    in a [System] record; everything the mod can change is the DWM store
    (the immersive-dark-mode attribute and the frame redraws of each window),
    the Z order and the active window, which its redraw call touches, and its
    own three globals.  Each function of the source is a computation
    in a small state-and-trace monad: it threads the [State] and records, in
    call order, every call that leaves the mod. *)

From stdpp Require Import gmap list strings.
From Stdlib Require Import ZArith Lia.

Local Open Scope Z_scope.

(** ** Win32 vocabulary *)

(** Handles, pointers and the C integer types are integers; [0] is the null
    handle, the null pointer and [FALSE]. *)
Abbreviation HWND := Z (only parsing).
Abbreviation BOOL := Z (only parsing).
Abbreviation HRESULT := Z (only parsing).
Abbreviation WCHAR := Z (only parsing).

Definition TRUE : BOOL := 1.
Definition FALSE : BOOL := 0.

(** Constants of the Windows SDK headers ([winuser.h], [winerror.h],
    [minwindef.h]); [DWMWA_USE_IMMERSIVE_DARK_MODE] is defined by the mod. *)
Definition ERROR_SUCCESS : Z := 0.
Definition MAX_PATH : Z := 260.
Definition GWL_STYLE : Z := -16.
Definition GWL_EXSTYLE : Z := -20.
Definition WS_BORDER : Z := 0x00800000.
Definition WS_DLGFRAME : Z := 0x00400000.
Definition WS_CAPTION : Z := 0x00C00000.
Definition WS_CHILD : Z := 0x40000000.
Definition WS_EX_TOOLWINDOW : Z := 0x00000080.
Definition WS_EX_TOPMOST : Z := 0x00000008.
Definition WM_SETTINGCHANGE : Z := 0x001A.
Definition WM_DWMCOLORIZATIONCOLORCHANGED : Z := 0x0320.
Definition DWMWA_USE_IMMERSIVE_DARK_MODE : Z := 20.
Definition SWP_NOSIZE : Z := 0x0001.
Definition SWP_NOMOVE : Z := 0x0002.
Definition SWP_NOZORDER : Z := 0x0004.
Definition SWP_NOACTIVATE : Z := 0x0010.
Definition SWP_FRAMECHANGED : Z := 0x0020.
Definition SWP_NOOWNERZORDER : Z := 0x0200.
Definition E_HANDLE : HRESULT := -2147024890.

(** [SUCCEEDED(hr)] is [hr >= 0] on the signed 32-bit [HRESULT]. *)
Definition SUCCEEDED (hr : HRESULT) : bool := 0 <=? hr.

(** An [int] kept in 32 bits, two's complement. *)
Definition wrap32 (z : Z) : Z := (z + 2 ^ 31) mod 2 ^ 32 - 2 ^ 31.

(** A wide string literal, one code unit per character. *)
Definition WSTR (s : string) : list WCHAR :=
  (λ a, Z.of_N (Ascii.N_of_ascii a)) <$> String.list_ascii_of_string s.

(** ** The world outside the mod *)

(** What the window manager knows of one live window. *)
Record Window := {
  wnd_style : Z;          (* GetWindowLongW(h, GWL_STYLE) *)
  wnd_exstyle : Z;        (* GetWindowLongW(h, GWL_EXSTYLE) *)
  wnd_parent : HWND;      (* GetAncestor(h, GA_PARENT) *)
  wnd_thread : Z;         (* GetWindowThreadProcessId(h, _), 0 on failure *)
  wnd_pid : Z             (* the process id it stores on success *)
}.

(** How [GetProcAddress] is asked for a symbol. *)
Inductive ProcName :=
| ByOrdinal (n : Z)
| ByName (name : string).

(** The two functions the mod asks the framework to intercept. *)
Inductive HookTarget :=
| HookDefWindowProcW
| HookNtUserCreateWindowEx.

(** What the system answers the mod.  Each field is the answer the
    corresponding call gives while the world stays as it is.  The mod's own
    calls change none of them but [sys_toplevel], the Z order. *)
Record System := {
  sys_windows : gmap Z Window;           (* live windows, by handle *)
  sys_toplevel : list HWND;              (* what EnumWindows walks: the Z order *)
  sys_desktop : HWND;                    (* GetDesktopWindow() *)
  sys_pid : Z;                           (* GetCurrentProcessId() *)
  sys_RegOpenKeyExW : Z;                 (* opening ...\Themes\Personalize *)
  sys_RegQueryValueExW : Z * Z;          (* status, DWORD of AppsUseLightTheme *)
  sys_GetModuleHandleW : string → Z;
  sys_GetProcAddress : Z → ProcName → Z;
  sys_call : Z → Z;                      (* value returned through a pointer *)
  sys_GetModuleFileNameW : Z * list WCHAR; (* length returned, buffer text *)
  sys_towlower : WCHAR → WCHAR;
  sys_DwmSetWindowAttribute : HWND → HRESULT;
  sys_Wh_SetFunctionHook : HookTarget → BOOL
}.

(** The world: what the system answers, the compositor's per-window store and
    the active window.  Of the system the mod's own calls can change one
    thing, the Z order [sys_toplevel], through [SetWindowPos]. *)
Record World := {
  sys : System;
  dark_attr : gmap Z Z;        (* DWMWA_USE_IMMERSIVE_DARK_MODE, once set *)
  frame_redraws : gmap Z nat;  (* SWP_FRAMECHANGED redraws requested *)
  active_window : HWND         (* the active window, 0 when there is none *)
}.

(** The mod's mutable statics. *)
Record Globals := {
  g_ShouldSystemUseDarkMode : Z;   (* function pointer, nullptr at start *)
  g_isDarkMode : BOOL;
  isExcluded : Z                   (* static local of IsProcessExcluded *)
}.

Record State := {
  world : World;
  globals : Globals
}.

Definition initial_globals : Globals :=
  {| g_ShouldSystemUseDarkMode := 0; g_isDarkMode := FALSE; isExcluded := -1 |}.

(** The window behind a handle; the null handle names none. *)
Definition window_at (y : System) (h : HWND) : option Window :=
  if h =? 0 then None else sys_windows y !! h.

(** The seventeen arguments of [NtUserCreateWindowEx], passed through. *)
Record CreateArgs := {
  dwExStyle : Z; pClassName : Z; pWindowName : Z; pWindowNameU : Z;
  dwStyle : Z; cx : Z; cy : Z; nWidth : Z; nHeight : Z;
  hWndParent : HWND; hMenu : Z; hInstance : Z; lpParam : Z;
  dwShowMode : Z; dwUnknown1 : Z; dwUnknown2 : Z; qwUnknown3 : Z
}.

(** ** Calls that leave the mod *)

Inductive LogArg :=
| ArgInt (n : Z)
| ArgPtr (p : Z)
| ArgWStr (s : list WCHAR)
| ArgText (s : string).

Inductive Event :=
| EvRegOpenKeyExW (status : Z)
| EvRegQueryValueExW (status value : Z)
| EvRegCloseKey
| EvGetModuleHandleW (name : string) (hmod : Z)
| EvGetProcAddress (hmod : Z) (name : ProcName) (addr : Z)
| EvCallPointer (addr result : Z)
| EvGetModuleFileNameW (len : Z)
| EvIsWindow (h : HWND) (r : BOOL)
| EvGetWindowLongW (h : HWND) (index r : Z)
| EvGetAncestor (h parent : HWND)
| EvGetDesktopWindow (h : HWND)
| EvGetWindowThreadProcessId (h : HWND) (thread pid : Z)
| EvGetCurrentProcessId (pid : Z)
| EvDwmSetWindowAttribute (h : HWND) (attr value : Z) (hr : HRESULT)
| EvSetWindowPos (h : HWND) (flags : Z)
| EvEnumWindows
| EvWh_Log (fmt : string) (args : list LogArg)
| EvWh_SetFunctionHook (target : HookTarget) (r : BOOL)
| EvDefWindowProc_orig (h : HWND) (msg wParam lParam result : Z)
| EvNtUserCreateWindowEx_orig (args : CreateArgs) (h : HWND).

(** ** The monad *)

Definition M (A : Type) : Type := State → A * State * list Event.

#[global] Instance M_ret : MRet M := λ A a s, (a, s, []).
#[global] Instance M_bind : MBind M := λ A B f m s,
  let '(a, s1, t1) := m s in
  let '(b, s2, t2) := f a s1 in
  (b, s2, t1 ++ t2).

Definition result {A} (m : M A) (s : State) : A := (m s).1.1.
Definition final {A} (m : M A) (s : State) : State := (m s).1.2.
Definition trace {A} (m : M A) (s : State) : list Event := (m s).2.

(** A call that only asks the system something. *)
Definition ask {A} (f : System → A) (ev : A → Event) : M A :=
  λ s, let a := f (sys (world s)) in (a, s, [ev a]).

(** A call whose answer is not used. *)
Definition emit (ev : Event) : M unit := λ s, (tt, s, [ev]).

(** Library code that reads the system without a call of its own. *)
Definition observe {A} (f : System → A) : M A :=
  λ s, (f (sys (world s)), s, []).

Definition get {A} (f : Globals → A) : M A := λ s, (f (globals s), s, []).
Definition put (f : Globals → Globals) : M unit :=
  λ s, (tt, {| world := world s; globals := f (globals s) |}, []).
Definition change (f : World → World) : M unit :=
  λ s, (tt, {| world := f (world s); globals := globals s |}, []).

Definition set_g_ShouldSystemUseDarkMode (p : Z) (g : Globals) : Globals :=
  {| g_ShouldSystemUseDarkMode := p;
     g_isDarkMode := g_isDarkMode g; isExcluded := isExcluded g |}.
Definition set_g_isDarkMode (b : BOOL) (g : Globals) : Globals :=
  {| g_ShouldSystemUseDarkMode := g_ShouldSystemUseDarkMode g;
     g_isDarkMode := b; isExcluded := isExcluded g |}.
Definition set_isExcluded (x : Z) (g : Globals) : Globals :=
  {| g_ShouldSystemUseDarkMode := g_ShouldSystemUseDarkMode g;
     g_isDarkMode := g_isDarkMode g; isExcluded := x |}.

Definition Wh_Log (fmt : string) (args : list LogArg) : M unit :=
  emit (EvWh_Log fmt args).

(** *** Registry, modules *)

Definition RegOpenKeyExW : M Z := ask sys_RegOpenKeyExW EvRegOpenKeyExW.
Definition RegQueryValueExW : M (Z * Z) :=
  ask sys_RegQueryValueExW (λ r, EvRegQueryValueExW r.1 r.2).
Definition RegCloseKey : M unit := emit EvRegCloseKey.
Definition GetModuleHandleW (name : string) : M Z :=
  ask (λ y, sys_GetModuleHandleW y name) (EvGetModuleHandleW name).
Definition GetProcAddress (hmod : Z) (name : ProcName) : M Z :=
  ask (λ y, sys_GetProcAddress y hmod name) (EvGetProcAddress hmod name).
Definition call_pointer (addr : Z) : M Z :=
  ask (λ y, sys_call y addr) (EvCallPointer addr).
Definition GetModuleFileNameW : M (Z * list WCHAR) :=
  ask sys_GetModuleFileNameW (λ r, EvGetModuleFileNameW r.1).
Definition GetCurrentProcessId : M Z := ask sys_pid EvGetCurrentProcessId.

(** ** The Theme Oracle *)

(** Lines 64-78: the uxtheme fallback of [IsSystemDarkMode]. *)
Definition uxtheme_fallback : M BOOL :=
  p ← get g_ShouldSystemUseDarkMode;
  (if p =? 0 then
     hUxtheme ← GetModuleHandleW "uxtheme.dll";
     if hUxtheme =? 0 then mret tt
     else
       addr ← GetProcAddress hUxtheme (ByOrdinal 138);
       put (set_g_ShouldSystemUseDarkMode addr)
   else mret tt);;
  p ← get g_ShouldSystemUseDarkMode;
  if p =? 0 then mret FALSE
  else
    r ← call_pointer p;
    mret (Z.b2z (negb (r =? 0))).

(** Lines 46-79. *)
Definition IsSystemDarkMode : M BOOL :=
  st ← RegOpenKeyExW;
  if st =? ERROR_SUCCESS then
    q ← RegQueryValueExW;
    if q.1 =? ERROR_SUCCESS then
      RegCloseKey;;
      mret (Z.b2z (q.2 =? 0))
    else
      RegCloseKey;;
      uxtheme_fallback
  else uxtheme_fallback.

(** ** The process-exclusion gate *)

(** The C string held in a buffer: the code units before the first NUL. *)
Fixpoint c_str (buf : list WCHAR) : list WCHAR :=
  match buf with
  | [] => []
  | c :: rest => if c =? 0 then [] else c :: c_str rest
  end.

(** [wcsrchr(s, c)]: the suffix of [s] that starts at the last [c]. *)
Fixpoint wcsrchr (s : list WCHAR) (c : WCHAR) : option (list WCHAR) :=
  match s with
  | [] => None
  | x :: rest =>
      match wcsrchr rest c with
      | Some t => Some t
      | None => if x =? c then Some (x :: rest) else None
      end
  end.

(** [wcscmp]: negative, zero or positive. *)
Fixpoint wcscmp (a b : list WCHAR) : Z :=
  match a, b with
  | [], [] => 0
  | [], _ :: _ => -1
  | _ :: _, [] => 1
  | x :: a', y :: b' =>
      if x =? y then wcscmp a' b' else if x <? y then -1 else 1
  end.

Definition excludedProcesses : list (list WCHAR) :=
  [WSTR "systemsettings.exe"; WSTR "applicationframehost.exe"].

(** Lines 115-124: the walk over [excludedProcesses] and what follows it. *)
Fixpoint IsProcessExcluded_scan (fileName : list WCHAR)
    (excluded : list (list WCHAR)) : M BOOL :=
  match excluded with
  | [] => put (set_isExcluded 0);; mret FALSE
  | e :: rest =>
      if wcscmp fileName e =? 0 then
        Wh_Log "Process excluded: %s" [ArgWStr fileName];;
        put (set_isExcluded 1);;
        mret TRUE
      else IsProcessExcluded_scan fileName rest
  end.

(** Lines 82-125. *)
Definition IsProcessExcluded : M BOOL :=
  x ← get isExcluded;
  if negb (x =? -1) then mret (Z.b2z (x =? 1))
  else
    r ← GetModuleFileNameW;
    if r.1 =? 0 then
      put (set_isExcluded 0);;
      mret FALSE
    else
      let exePath := c_str r.2 in
      let fileName :=
        match wcsrchr exePath 92 with
        | Some t => drop 1 t
        | None => exePath
        end in
      towlower ← observe sys_towlower;
      IsProcessExcluded_scan (towlower <$> fileName) excludedProcesses.

(** ** The Window Eligibility Filter *)

(** What the window manager answers about a handle. *)
Definition is_live (y : System) (h : HWND) : bool :=
  bool_decide (is_Some (window_at y h)).

Definition window_long (y : System) (h : HWND) (index : Z) : Z :=
  match window_at y h with
  | Some w =>
      if index =? GWL_STYLE then wnd_style w
      else if index =? GWL_EXSTYLE then wnd_exstyle w
      else 0
  | None => 0
  end.

Definition IsWindow (h : HWND) : M BOOL :=
  ask (λ y, Z.b2z (is_live y h)) (EvIsWindow h).

Definition GetWindowLongW (h : HWND) (index : Z) : M Z :=
  ask (λ y, window_long y h index) (EvGetWindowLongW h index).

(** Lines 128-149. *)
Definition IsWindowEligible (hWnd : HWND) : M BOOL :=
  if hWnd =? 0 then mret FALSE
  else
    live ← IsWindow hWnd;
    if live =? 0 then mret FALSE
    else
      style ← GetWindowLongW hWnd GWL_STYLE;
      styleEx ← GetWindowLongW hWnd GWL_EXSTYLE;
      if Z.land style WS_CAPTION =? 0 then mret FALSE
      else if negb (Z.land styleEx WS_EX_TOOLWINDOW =? 0) then mret FALSE
      else if negb (Z.land style WS_CHILD =? 0) then mret FALSE
      else mret TRUE.

(** ** The Styling Applicator *)

Definition set_dark_attr (h : HWND) (value : Z) (w : World) : World :=
  {| sys := sys w; dark_attr := <[h := value]> (dark_attr w);
     frame_redraws := frame_redraws w; active_window := active_window w |}.

Definition add_frame_redraw (h : HWND) (w : World) : World :=
  {| sys := sys w; dark_attr := dark_attr w;
     frame_redraws := <[h := S (default 0%nat (frame_redraws w !! h))]>
                        (frame_redraws w);
     active_window := active_window w |}.

(** The compositor answers with the system's [HRESULT] for a live window and
    with [E_HANDLE] for anything else; it stores the value only on success. *)
Definition dwm_result (y : System) (h : HWND) : HRESULT :=
  if is_live y h then sys_DwmSetWindowAttribute y h else E_HANDLE.

Definition DwmSetWindowAttribute (h : HWND) (attr value : Z) : M HRESULT :=
  λ s,
    let hr := dwm_result (sys (world s)) h in
    let w := if SUCCEEDED hr && (attr =? DWMWA_USE_IMMERSIVE_DARK_MODE)
             then set_dark_attr h value (world s) else world s in
    (hr, {| world := w; globals := globals s |},
     [EvDwmSetWindowAttribute h attr value hr]).

(** The Z order.  Topmost windows stay above all others, so a window that is
    raised goes to the top of its own group: the front of the list when it is
    topmost, and just below the topmost windows in front when it is not. *)
Definition is_topmost (y : System) (h : HWND) : bool :=
  negb (Z.land (window_long y h GWL_EXSTYLE) WS_EX_TOPMOST =? 0).

Fixpoint place_below (top : HWND → bool) (h : HWND) (hs : list HWND)
    : list HWND :=
  match hs with
  | [] => [h]
  | x :: rest => if top x then x :: place_below top h rest else h :: x :: rest
  end.

Definition raised (y : System) (h : HWND) : list HWND :=
  let hs := sys_toplevel y in
  if bool_decide (h ∈ hs) then
    let others := filter (λ x, x ≠ h) hs in
    if is_topmost y h then h :: others
    else place_below (is_topmost y) h others
  else hs.

Definition raise_window (h : HWND) (y : System) : System :=
  {| sys_windows := sys_windows y;
     sys_toplevel := raised y h;
     sys_desktop := sys_desktop y; sys_pid := sys_pid y;
     sys_RegOpenKeyExW := sys_RegOpenKeyExW y;
     sys_RegQueryValueExW := sys_RegQueryValueExW y;
     sys_GetModuleHandleW := sys_GetModuleHandleW y;
     sys_GetProcAddress := sys_GetProcAddress y;
     sys_call := sys_call y;
     sys_GetModuleFileNameW := sys_GetModuleFileNameW y;
     sys_towlower := sys_towlower y;
     sys_DwmSetWindowAttribute := sys_DwmSetWindowAttribute y;
     sys_Wh_SetFunctionHook := sys_Wh_SetFunctionHook y |}.

Definition to_top (h : HWND) (w : World) : World :=
  {| sys := raise_window h (sys w); dark_attr := dark_attr w;
     frame_redraws := frame_redraws w; active_window := active_window w |}.

Definition activate (h : HWND) (w : World) : World :=
  {| sys := raise_window h (sys w); dark_attr := dark_attr w;
     frame_redraws := frame_redraws w; active_window := h |}.

(** [SetWindowPos(h, nullptr, 0, 0, 0, 0, flags)] on a live window, as
    documented: with [SWP_FRAMECHANGED] the window redraws its frame; without
    [SWP_NOZORDER] it is placed at the top of the Z order ([hWndInsertAfter]
    is null, which is [HWND_TOP]); without [SWP_NOACTIVATE] it is activated
    and moved to the top of its group, topmost or not.  The world holds no
    position or size, so [SWP_NOMOVE] and [SWP_NOSIZE] select nothing in it.
    On a handle that is no window the call fails and changes nothing. *)
Definition SetWindowPos (h : HWND) (flags : Z) : M unit :=
  λ s,
    let live := is_live (sys (world s)) h in
    let w1 := if live && negb (Z.land flags SWP_FRAMECHANGED =? 0)
              then add_frame_redraw h (world s) else world s in
    let w2 := if live && (Z.land flags SWP_NOZORDER =? 0)
              then to_top h w1 else w1 in
    let w3 := if live && (Z.land flags SWP_NOACTIVATE =? 0)
              then activate h w2 else w2 in
    (tt, {| world := w3; globals := globals s |}, [EvSetWindowPos h flags]).

Definition redraw_flags : Z :=
  Z.lor SWP_FRAMECHANGED
    (Z.lor SWP_NOMOVE (Z.lor SWP_NOSIZE (Z.lor SWP_NOZORDER SWP_NOOWNERZORDER))).

(** Line 156: [useDarkMode ? TRUE : FALSE]. *)
Definition attr_value (useDarkMode : BOOL) : Z :=
  if useDarkMode =? 0 then FALSE else TRUE.

(** Lines 152-166. *)
Definition ApplyDarkMode (hWnd : HWND) (useDarkMode : BOOL) : M unit :=
  ok ← IsWindowEligible hWnd;
  if ok =? 0 then mret tt
  else
    let value := attr_value useDarkMode in
    hr ← DwmSetWindowAttribute hWnd DWMWA_USE_IMMERSIVE_DARK_MODE value;
    if SUCCEEDED hr then
      SetWindowPos hWnd redraw_flags;;
      Wh_Log "Applied dark mode (%d) to window: %p"
        [ArgInt useDarkMode; ArgPtr hWnd]
    else mret tt.

(** Lines 169-181. *)
Definition NewWindowShown (hWnd : HWND) : M unit :=
  ex ← IsProcessExcluded;
  if negb (ex =? 0) then mret tt
  else if hWnd =? 0 then mret tt
  else
    live ← IsWindow hWnd;
    if live =? 0 then mret tt
    else
      ok ← IsWindowEligible hWnd;
      if ok =? 0 then mret tt
      else
        dark ← get g_isDarkMode;
        Wh_Log "New window detected: %p, applying dark mode: %d"
          [ArgPtr hWnd; ArgInt dark];;
        dark ← get g_isDarkMode;
        ApplyDarkMode hWnd dark.

Definition parent_of (y : System) (h : HWND) : HWND :=
  match window_at y h with
  | Some w => wnd_parent w
  | None => 0
  end.

(** The thread id returned and the process id left in [dwProcessId], which
    the caller initialised to 0 and a failed call does not write. *)
Definition thread_process_id (y : System) (h : HWND) : Z * Z :=
  match window_at y h with
  | Some w => if wnd_thread w =? 0 then (0, 0) else (wnd_thread w, wnd_pid w)
  | None => (0, 0)
  end.

(** [GetAncestor(h, GA_PARENT)]. *)
Definition GetAncestor_parent (h : HWND) : M HWND :=
  ask (λ y, parent_of y h) (EvGetAncestor h).

Definition GetDesktopWindow : M HWND := ask sys_desktop EvGetDesktopWindow.

Definition GetWindowThreadProcessId (h : HWND) : M (Z * Z) :=
  ask (λ y, thread_process_id y h)
    (λ r, EvGetWindowThreadProcessId h r.1 r.2).

(** Lines 184-200.  [lParam] carries the [BOOL] widened to [LPARAM]; the
    callback narrows it back to 32 bits. *)
Definition EnumWindowsProc (hWnd : HWND) (lParam : Z) : M BOOL :=
  let useDarkMode := wrap32 lParam in
  hParentWnd ← GetAncestor_parent hWnd;
  not_top ← (if hParentWnd =? 0 then mret false
             else
               d ← GetDesktopWindow;
               mret (negb (hParentWnd =? d)));
  if (not_top : bool) then mret TRUE
  else
    r ← GetWindowThreadProcessId hWnd;
    foreign ← (if r.1 =? 0 then mret true
               else
                 me ← GetCurrentProcessId;
                 mret (negb (r.2 =? me)));
    if (foreign : bool) then mret TRUE
    else
      ApplyDarkMode hWnd useDarkMode;;
      mret TRUE.

(** [EnumWindows]: the callback runs on each top-level window in turn and
    stops the walk by returning [FALSE]. *)
Fixpoint EnumWindows_walk (lpEnumFunc : HWND → Z → M BOOL)
    (hs : list HWND) (lParam : Z) : M BOOL :=
  match hs with
  | [] => mret TRUE
  | h :: rest =>
      r ← lpEnumFunc h lParam;
      if r =? 0 then mret FALSE else EnumWindows_walk lpEnumFunc rest lParam
  end.

Definition EnumWindows (lpEnumFunc : HWND → Z → M BOOL) (lParam : Z) : M BOOL :=
  hs ← ask sys_toplevel (λ _, EvEnumWindows);
  EnumWindows_walk lpEnumFunc hs lParam.

(** Lines 203-205. *)
Definition ApplyToAllWindows (useDarkMode : BOOL) : M unit :=
  EnumWindows EnumWindowsProc useDarkMode;;
  mret tt.

(** ** The Interception Layer *)

Definition is_theme_message (Msg : Z) : bool :=
  (Msg =? WM_DWMCOLORIZATIONCOLORCHANGED) || (Msg =? WM_SETTINGCHANGE).

(** Lines 213-224: what [DefWindowProc_hook] does before it delegates. *)
Definition theme_change_check (Msg : Z) : M unit :=
  ex ← IsProcessExcluded;
  if (ex =? 0) && is_theme_message Msg then
    newDarkMode ← IsSystemDarkMode;
    cached ← get g_isDarkMode;
    if negb (newDarkMode =? cached) then
      put (set_g_isDarkMode newDarkMode);;
      pid ← GetCurrentProcessId;
      Wh_Log "[Process %d] Theme changed to %s mode"
        [ArgInt pid;
         ArgText (if newDarkMode =? 0 then "LIGHT" else "DARK")];;
      dark ← get g_isDarkMode;
      ApplyToAllWindows dark
    else mret tt
  else mret tt.

Section Interception.

(** The implementations the two hooks replace.  They belong to the system:
    they may change the world in any way and return any value. *)
Variable DefWindowProcW : HWND → Z → Z → Z → World → Z * World.
Variable NtUserCreateWindowEx : CreateArgs → World → HWND * World.

(** Calls through the trampolines the framework stored in
    [DefWindowProc_orig] and [NtUserCreateWindowEx_orig]. *)
Definition DefWindowProc_orig (hWnd : HWND) (Msg wParam lParam : Z) : M Z :=
  λ s,
    let '(r, w) := DefWindowProcW hWnd Msg wParam lParam (world s) in
    (r, {| world := w; globals := globals s |},
     [EvDefWindowProc_orig hWnd Msg wParam lParam r]).

Definition NtUserCreateWindowEx_orig (args : CreateArgs) : M HWND :=
  λ s,
    let '(h, w) := NtUserCreateWindowEx args (world s) in
    (h, {| world := w; globals := globals s |},
     [EvNtUserCreateWindowEx_orig args h]).

(** Lines 211-227. *)
Definition DefWindowProc_hook (hWnd : HWND) (Msg wParam lParam : Z) : M Z :=
  theme_change_check Msg;;
  DefWindowProc_orig hWnd Msg wParam lParam.

(** Lines 238-255. *)
Definition NtUserCreateWindowEx_hook (args : CreateArgs) : M HWND :=
  hWnd ← NtUserCreateWindowEx_orig args;
  (if negb (hWnd =? 0) then NewWindowShown hWnd else mret tt);;
  mret hWnd.

End Interception.

(** ** Lifecycle callbacks *)

Definition Wh_SetFunctionHook (target : HookTarget) : M BOOL :=
  ask (λ y, sys_Wh_SetFunctionHook y target) (EvWh_SetFunctionHook target).

Definition log_pid (fmt : string) : M unit :=
  pid ← GetCurrentProcessId;
  Wh_Log fmt [ArgInt pid].

Definition banner : string := "=======================================".

(** Lines 282-305: the second half of [Wh_ModInit]. *)
Definition hook_window_creation : M BOOL :=
  hWin32u ← GetModuleHandleW "win32u.dll";
  if hWin32u =? 0 then
    log_pid "[Process %d] WARNING: Failed to get win32u.dll";;
    mret TRUE
  else
    pNtUserCreateWindowEx ← GetProcAddress hWin32u (ByName "NtUserCreateWindowEx");
    if pNtUserCreateWindowEx =? 0 then
      log_pid "[Process %d] WARNING: Failed to get NtUserCreateWindowEx";;
      mret TRUE
    else
      ok ← Wh_SetFunctionHook HookNtUserCreateWindowEx;
      (if ok =? 0
       then log_pid "[Process %d] ERROR: Failed to hook NtUserCreateWindowEx"
       else log_pid "[Process %d] Successfully hooked NtUserCreateWindowEx");;
      log_pid "[Process %d] Initialization complete";;
      Wh_Log banner [];;
      mret TRUE.

(** Lines 258-306. *)
Definition Wh_ModInit : M BOOL :=
  Wh_Log banner [];;
  log_pid "[Process %d] Initializing Auto Dark Titlebar mod";;
  ex ← IsProcessExcluded;
  if negb (ex =? 0) then
    log_pid "[Process %d] Process is excluded, skipping initialization";;
    Wh_Log banner [];;
    mret TRUE
  else
    dark ← IsSystemDarkMode;
    put (set_g_isDarkMode dark);;
    pid ← GetCurrentProcessId;
    dark ← get g_isDarkMode;
    Wh_Log "[Process %d] Initial theme mode: %s"
      [ArgInt pid; ArgText (if dark =? 0 then "LIGHT" else "DARK")];;
    ok ← Wh_SetFunctionHook HookDefWindowProcW;
    (if ok =? 0
     then log_pid "[Process %d] ERROR: Failed to hook DefWindowProcW"
     else log_pid "[Process %d] Successfully hooked DefWindowProcW");;
    hook_window_creation.

(** Lines 309-317. *)
Definition Wh_ModAfterInit : M unit :=
  ex ← IsProcessExcluded;
  if negb (ex =? 0) then mret tt
  else
    log_pid "[Process %d] Applying dark mode to existing windows...";;
    dark ← get g_isDarkMode;
    ApplyToAllWindows dark;;
    log_pid "[Process %d] Finished applying to existing windows".

(** Lines 320-331. *)
Definition Wh_ModUninit : M unit :=
  ex ← IsProcessExcluded;
  if negb (ex =? 0) then mret tt
  else
    log_pid "[Process %d] Uninitializing Auto Dark Titlebar mod";;
    ApplyToAllWindows FALSE;;
    log_pid "[Process %d] Cleanup complete".

(** ** The process as a sequence of entries *)

(** [n] calls of a function in a row. *)
Fixpoint repeat_call {A} (n : nat) (m : M A) : M unit :=
  match n with
  | O => mret tt
  | S k => m;; repeat_call k m
  end.

Section Lifetime.

Variable DefWindowProcW : HWND → Z → Z → Z → World → Z * World.
Variable NtUserCreateWindowEx : CreateArgs → World → HWND * World.

(** What can happen in the process once the mod is loaded: the framework's
    three callbacks, a message reaching the default handler, a window being
    created, and anything else the system does in between, which may change
    the world but not the mod's statics. *)
Inductive Entry :=
| OnLoad
| OnLoadComplete
| OnUnload
| OnMessage (hWnd : HWND) (Msg wParam lParam : Z)
| OnCreate (args : CreateArgs)
| Elsewhere (f : World → World).

Definition run_entry (e : Entry) : M unit :=
  match e with
  | OnLoad => Wh_ModInit;; mret tt
  | OnLoadComplete => Wh_ModAfterInit
  | OnUnload => Wh_ModUninit
  | OnMessage hWnd Msg wParam lParam =>
      DefWindowProc_hook DefWindowProcW hWnd Msg wParam lParam;; mret tt
  | OnCreate args =>
      NtUserCreateWindowEx_hook NtUserCreateWindowEx args;; mret tt
  | Elsewhere f => change f
  end.

Fixpoint run_entries (es : list Entry) : M unit :=
  match es with
  | [] => mret tt
  | e :: rest => run_entry e;; run_entries rest
  end.

End Lifetime.

(** ** What the code decides, as predicates on the system *)

(** The decision [IsWindowEligible] computes (lines 129-148). *)
Definition eligible (y : System) (h : HWND) : bool :=
  negb (h =? 0)
  && is_live y h
  && negb (Z.land (window_long y h GWL_STYLE) WS_CAPTION =? 0)
  && (Z.land (window_long y h GWL_EXSTYLE) WS_EX_TOOLWINDOW =? 0)
  && (Z.land (window_long y h GWL_STYLE) WS_CHILD =? 0).

(** The two filters of [EnumWindowsProc] (lines 188-196). *)
Definition parent_is_desktop_or_absent (y : System) (h : HWND) : bool :=
  (parent_of y h =? 0) || (parent_of y h =? sys_desktop y).

Definition owned_by_current_process (y : System) (h : HWND) : bool :=
  negb ((thread_process_id y h).1 =? 0)
  && ((thread_process_id y h).2 =? sys_pid y).

Definition passes_enum_filter (y : System) (h : HWND) : bool :=
  parent_is_desktop_or_absent y h && owned_by_current_process y h.

(** An eligible top-level window of the current process. *)
Definition styling_target (y : System) (h : HWND) : bool :=
  passes_enum_filter y h && eligible y h.

(** The persisted preference was read (lines 49-57). *)
Definition preference_read (y : System) : option Z :=
  if (sys_RegOpenKeyExW y =? ERROR_SUCCESS)
     && ((sys_RegQueryValueExW y).1 =? ERROR_SUCCESS)
  then Some (sys_RegQueryValueExW y).2 else None.

(** Resolving the probe: [GetModuleHandleW] then [GetProcAddress] (lines
    66-71); 0 when either fails. *)
Definition resolve_probe (y : System) : Z :=
  let hUxtheme := sys_GetModuleHandleW y "uxtheme.dll" in
  if hUxtheme =? 0 then 0 else sys_GetProcAddress y hUxtheme (ByOrdinal 138).

(** A window has a title bar when its style includes [WS_CAPTION], which
    [winuser.h] defines as both [WS_BORDER] and [WS_DLGFRAME]. *)
Definition style_has_caption (style : Z) : bool :=
  Z.land style WS_CAPTION =? WS_CAPTION.

(** The pointer the fallback ends up calling through: the cached one, or
    the one it resolves when none is cached. *)
Definition available_probe (s : State) : Z :=
  if g_ShouldSystemUseDarkMode (globals s) =? 0
  then resolve_probe (sys (world s))
  else g_ShouldSystemUseDarkMode (globals s).

(** The lower-cased base name of the executable (lines 96-106). *)
Definition base_name (y : System) : list WCHAR :=
  let exePath := c_str (sys_GetModuleFileNameW y).2 in
  sys_towlower y <$> match wcsrchr exePath 92 with
                     | Some t => drop 1 t
                     | None => exePath
                     end.

Definition on_denylist (name : list WCHAR) (l : list (list WCHAR)) : bool :=
  existsb (λ e, wcscmp name e =? 0) l.

(** The value [isExcluded] takes when it is first computed. *)
Definition exclusion_decision (y : System) : Z :=
  if (sys_GetModuleFileNameW y).1 =? 0 then 0
  else Z.b2z (on_denylist (base_name y) excludedProcesses).

(** The attribute set succeeds on a window the sweep reaches. *)
Definition restyled (y : System) (h : HWND) : bool :=
  styling_target y h && SUCCEEDED (dwm_result y h).

(** The attribute store is already what a sweep with [b] makes of it. *)
Definition swept (b : BOOL) (s : State) : Prop :=
  ∀ h, bool_decide (h ∈ sys_toplevel (sys (world s)))
       && restyled (sys (world s)) h = true →
       dark_attr (world s) !! h = Some (attr_value (wrap32 b)).

(** ** The calls each function makes, as functions of the system *)

Definition eligibility_queries (y : System) (h : HWND) : list Event :=
  if h =? 0 then []
  else
    EvIsWindow h (Z.b2z (is_live y h))
    :: (if is_live y h
        then [EvGetWindowLongW h GWL_STYLE (window_long y h GWL_STYLE);
              EvGetWindowLongW h GWL_EXSTYLE (window_long y h GWL_EXSTYLE)]
        else []).

Definition styling_calls (y : System) (b : BOOL) (h : HWND) : list Event :=
  eligibility_queries y h
  ++ (if eligible y h then
        EvDwmSetWindowAttribute h DWMWA_USE_IMMERSIVE_DARK_MODE (attr_value b)
          (dwm_result y h)
        :: (if SUCCEEDED (dwm_result y h)
            then [EvSetWindowPos h redraw_flags;
                  EvWh_Log "Applied dark mode (%d) to window: %p"
                    [ArgInt b; ArgPtr h]]
            else [])
      else []).

Definition enum_filter_queries (y : System) (h : HWND) : list Event :=
  EvGetAncestor h (parent_of y h)
  :: (if parent_of y h =? 0 then [] else [EvGetDesktopWindow (sys_desktop y)])
  ++ (if parent_is_desktop_or_absent y h then
        EvGetWindowThreadProcessId h (thread_process_id y h).1
          (thread_process_id y h).2
        :: (if (thread_process_id y h).1 =? 0 then []
            else [EvGetCurrentProcessId (sys_pid y)])
      else []).

Definition enum_calls (y : System) (b : BOOL) (h : HWND) : list Event :=
  enum_filter_queries y h
  ++ (if passes_enum_filter y h then styling_calls y b h else []).

(** What [ApplyDarkMode] does to the world (lines 157-163): the attribute
    is stored, the frame redrawn and, [redraw_flags] holding no
    [SWP_NOACTIVATE], the window activated and raised. *)
Definition style_window (y : System) (b : BOOL) (h : HWND) (w : World) : World :=
  if eligible y h && SUCCEEDED (dwm_result y h)
  then activate h (add_frame_redraw h (set_dark_attr h (attr_value b) w))
  else w.

(** What [EnumWindowsProc] does to the world. *)
Definition enum_step (y : System) (b : BOOL) (w : World) (h : HWND) : World :=
  if passes_enum_filter y h then style_window y b h w else w.

(** ** Reading a trace *)

Definition attribute_set (ev : Event) : option (HWND * Z) :=
  match ev with
  | EvDwmSetWindowAttribute h _ value _ => Some (h, value)
  | _ => None
  end.

Definition attribute_sets (t : list Event) : list (HWND * Z) :=
  omap attribute_set t.

Definition is_log (ev : Event) : bool :=
  match ev with EvWh_Log _ _ => true | _ => false end.

Definition is_redraw (ev : Event) : bool :=
  match ev with EvSetWindowPos _ _ => true | _ => false end.

Definition is_probe_resolution (ev : Event) : bool :=
  match ev with
  | EvGetModuleHandleW name _ => bool_decide (name = "uxtheme.dll")
  | EvGetProcAddress _ (ByOrdinal 138) _ => true
  | _ => false
  end.

(** An attempt to resolve the probe starts by looking uxtheme up. *)
Definition is_probe_lookup (ev : Event) : bool :=
  match ev with
  | EvGetModuleHandleW name _ => bool_decide (name = "uxtheme.dll")
  | _ => false
  end.

Definition resolution_attempts (t : list Event) : nat :=
  length (filter (λ ev, is_probe_lookup ev = true) t).

Definition is_probe_call (ev : Event) : bool :=
  match ev with EvCallPointer _ _ => true | _ => false end.

Definition is_original_call (ev : Event) : bool :=
  match ev with
  | EvDefWindowProc_orig _ _ _ _ _ | EvNtUserCreateWindowEx_orig _ _ => true
  | _ => false
  end.

(** The window a call of [ApplyDarkMode] is about: its queries, its
    attribute set, its redraw and its log line all name the handle. *)
Definition styling_call_on (ev : Event) : option HWND :=
  match ev with
  | EvIsWindow h _ | EvGetWindowLongW h _ _
  | EvDwmSetWindowAttribute h _ _ _ | EvSetWindowPos h _ => Some h
  | EvWh_Log _ [ArgInt _; ArgPtr h] => Some h
  | _ => None
  end.

Definition is_registry_call (ev : Event) : bool :=
  match ev with
  | EvRegOpenKeyExW _ | EvRegQueryValueExW _ _ | EvRegCloseKey => true
  | _ => false
  end.

Definition is_file_name_query (ev : Event) : bool :=
  match ev with EvGetModuleFileNameW _ => true | _ => false end.

(** How many attribute-set calls a trace makes on the window [h]. *)
Definition attribute_set_calls_on (h : HWND) (t : list Event) : nat :=
  length (filter (λ c, c.1 = h) (attribute_sets t)).

(** ** Relations between the state before, the state after and the calls *)

(** A relation between the state before, the state after and the calls made
    in between that holds of doing nothing and composes along sequencing. *)
Class Stepwise (Q : State → State → list Event → Prop) := {
  stepwise_nil s : Q s s [];
  stepwise_app s1 s2 s3 t1 t2 : Q s1 s2 t1 → Q s2 s3 t2 → Q s1 s3 (t1 ++ t2)
}.

Definition respects (Q : State → State → list Event → Prop) {A} (m : M A)
    : Prop :=
  ∀ s, Q s (final m s) (trace m s).

(** Once the probe pointer is set it is kept and never resolved again; once
    the exclusion decision is taken it is kept and the file name is never
    asked for again. *)
Definition memoized (s s' : State) (t : list Event) : Prop :=
  (g_ShouldSystemUseDarkMode (globals s) ≠ 0 →
   g_ShouldSystemUseDarkMode (globals s') = g_ShouldSystemUseDarkMode (globals s)
   ∧ Forall (λ ev, is_probe_resolution ev = false) t)
  ∧ (isExcluded (globals s) ≠ -1 →
     isExcluded (globals s') = isExcluded (globals s)
     ∧ Forall (λ ev, is_file_name_query ev = false) t).

(** The world and the theme cache are as before, no attribute was set and
    no original was called. *)
Definition quiet (s s' : State) (t : list Event) : Prop :=
  world s' = world s
  ∧ g_isDarkMode (globals s') = g_isDarkMode (globals s)
  ∧ attribute_sets t = []
  ∧ Forall (λ ev, is_original_call ev = false) t.

(** The system with its Z order left out: every answer the mod reads but
    the order in which [EnumWindows] walks the windows. *)
Definition unordered (y : System) : System :=
  {| sys_windows := sys_windows y;
     sys_toplevel := [];
     sys_desktop := sys_desktop y; sys_pid := sys_pid y;
     sys_RegOpenKeyExW := sys_RegOpenKeyExW y;
     sys_RegQueryValueExW := sys_RegQueryValueExW y;
     sys_GetModuleHandleW := sys_GetModuleHandleW y;
     sys_GetProcAddress := sys_GetProcAddress y;
     sys_call := sys_call y;
     sys_GetModuleFileNameW := sys_GetModuleFileNameW y;
     sys_towlower := sys_towlower y;
     sys_DwmSetWindowAttribute := sys_DwmSetWindowAttribute y;
     sys_Wh_SetFunctionHook := sys_Wh_SetFunctionHook y |}.

(** The same system up to the Z order: the same answers, and the same
    top-level windows, maybe in another order. *)
Definition same_windows (y' y : System) : Prop :=
  unordered y' = unordered y
  ∧ (∀ h, h ∈ sys_toplevel y' ↔ h ∈ sys_toplevel y)
  ∧ (NoDup (sys_toplevel y) → NoDup (sys_toplevel y')).

(** The system is as before up to the Z order, the theme cache is as before
    and no original was called. *)
Definition inner (s s' : State) (t : list Event) : Prop :=
  same_windows (sys (world s')) (sys (world s))
  ∧ g_isDarkMode (globals s') = g_isDarkMode (globals s)
  ∧ Forall (λ ev, is_original_call ev = false) t.

Definition no_original (s s' : State) (t : list Event) : Prop :=
  Forall (λ ev, is_original_call ev = false) t.

(** ** Further readers and relations *)

(** Every call made satisfies [P]. *)
Definition calls_only (P : Event → bool) (s s' : State) (t : list Event)
    : Prop :=
  Forall (λ ev, P ev = true) t.

(** The hooks a trace asks the framework to install, in order. *)
Definition hook_attempts (t : list Event) : list HookTarget :=
  omap (λ ev, match ev with
              | EvWh_SetFunctionHook target _ => Some target
              | _ => None
              end) t.

(** The handles [EnumWindowsProc] was called with: each call starts by
    asking for the window's parent. *)
Definition visited (t : list Event) : list HWND :=
  omap (λ ev, match ev with EvGetAncestor h _ => Some h | _ => None end) t.

(** Registry keys opened with success, and keys closed. *)
Definition is_key_opened (ev : Event) : bool :=
  match ev with EvRegOpenKeyExW st => st =? ERROR_SUCCESS | _ => false end.

Definition is_key_closed (ev : Event) : bool :=
  match ev with EvRegCloseKey => true | _ => false end.

Definition keys_opened (t : list Event) : nat :=
  length (filter (λ ev, is_key_opened ev = true) t).

Definition keys_closed (t : list Event) : nat :=
  length (filter (λ ev, is_key_closed ev = true) t).

(** The calls the mod makes in an excluded process: the originals, and the
    log lines of [Wh_ModInit] with the process id they print. *)
Definition pass_through_call (ev : Event) : bool :=
  match ev with
  | EvDefWindowProc_orig _ _ _ _ _ | EvNtUserCreateWindowEx_orig _ _
  | EvWh_Log _ _ | EvGetCurrentProcessId _ => true
  | _ => false
  end.

(** The only attribute the mod sets is the immersive dark mode one, to 0 or
    1. *)
Definition tidy_call (ev : Event) : bool :=
  match ev with
  | EvDwmSetWindowAttribute _ attr value _ =>
      (attr =? DWMWA_USE_IMMERSIVE_DARK_MODE)
      && ((value =? FALSE) || (value =? TRUE))
  | _ => true
  end.

(** The theme cache holds a proper [BOOL]. *)
Definition cache_is_bool (s : State) : Prop :=
  g_isDarkMode (globals s) = FALSE ∨ g_isDarkMode (globals s) = TRUE.

(** Keys are closed as often as they are opened. *)
Definition keys_balanced (s s' : State) (t : list Event) : Prop :=
  keys_closed t = keys_opened t.

(** The registry calls of [IsSystemDarkMode] (lines 49-62). *)
Definition registry_calls (y : System) : list Event :=
  EvRegOpenKeyExW (sys_RegOpenKeyExW y)
  :: (if sys_RegOpenKeyExW y =? ERROR_SUCCESS
      then [EvRegQueryValueExW (sys_RegQueryValueExW y).1
              (sys_RegQueryValueExW y).2;
            EvRegCloseKey]
      else []).

(** A call [IsSystemDarkMode] makes to find the theme out: the registry
    read, the resolution of the probe, the call through it. *)
Definition is_theme_query (ev : Event) : bool :=
  is_registry_call ev || is_probe_resolution ev || is_probe_call ev.

(** What [NewWindowShown] asks about a window before it styles it (lines
    173-176). *)
Definition new_window_queries (y : System) (h : HWND) : list Event :=
  if h =? 0 then []
  else
    EvIsWindow h (Z.b2z (is_live y h))
    :: (if is_live y h then eligibility_queries y h else []).

(** A window [ApplyToAllWindows] reaches and styles: one [EnumWindows]
    yields, that passes the filters of [EnumWindowsProc] and of
    [IsWindowEligible], and whose attribute set succeeds. *)
Definition sweep_reaches (y : System) (h : HWND) : bool :=
  bool_decide (h ∈ sys_toplevel y) && restyled y h.

(** The address [Wh_ModInit] finds for the creation primitive (lines
    283-293): 0 when [win32u.dll] or the symbol is missing. *)
Definition creation_primitive (y : System) : Z :=
  let hWin32u := sys_GetModuleHandleW y "win32u.dll" in
  if hWin32u =? 0 then 0
  else sys_GetProcAddress y hWin32u (ByName "NtUserCreateWindowEx").

(** The hooks [Wh_ModInit] asks for in a process it is not excluded from. *)
Definition hooks_requested (y : System) : list HookTarget :=
  HookDefWindowProcW
  :: (if creation_primitive y =? 0 then [] else [HookNtUserCreateWindowEx]).

(** A log line that prints the process id. *)
Definition pid_log (y : System) (fmt : string) : list Event :=
  [EvGetCurrentProcessId (sys_pid y); EvWh_Log fmt [ArgInt (sys_pid y)]].

(** The calls of the second half of [Wh_ModInit] (lines 283-303). *)
Definition hook_creation_calls (y : System) : list Event :=
  let hWin32u := sys_GetModuleHandleW y "win32u.dll" in
  EvGetModuleHandleW "win32u.dll" hWin32u
  :: (if hWin32u =? 0
      then pid_log y "[Process %d] WARNING: Failed to get win32u.dll"
      else
        EvGetProcAddress hWin32u (ByName "NtUserCreateWindowEx")
          (creation_primitive y)
        :: (if creation_primitive y =? 0
            then pid_log y "[Process %d] WARNING: Failed to get NtUserCreateWindowEx"
            else
              EvWh_SetFunctionHook HookNtUserCreateWindowEx
                (sys_Wh_SetFunctionHook y HookNtUserCreateWindowEx)
              :: pid_log y
                   (if sys_Wh_SetFunctionHook y HookNtUserCreateWindowEx =? 0
                    then "[Process %d] ERROR: Failed to hook NtUserCreateWindowEx"
                    else "[Process %d] Successfully hooked NtUserCreateWindowEx")
              ++ pid_log y "[Process %d] Initialization complete"
              ++ [EvWh_Log banner []])).

(** The calls of [Wh_ModInit] once the theme is known (lines 271-303). *)
Definition init_hook_calls (y : System) (theme : BOOL) : list Event :=
  [EvGetCurrentProcessId (sys_pid y);
   EvWh_Log "[Process %d] Initial theme mode: %s"
     [ArgInt (sys_pid y); ArgText (if theme =? 0 then "LIGHT" else "DARK")];
   EvWh_SetFunctionHook HookDefWindowProcW
     (sys_Wh_SetFunctionHook y HookDefWindowProcW)]
  ++ pid_log y (if sys_Wh_SetFunctionHook y HookDefWindowProcW =? 0
                then "[Process %d] ERROR: Failed to hook DefWindowProcW"
                else "[Process %d] Successfully hooked DefWindowProcW")
  ++ hook_creation_calls y.

(** Any call but a request to install a hook. *)
Definition no_hook_call (ev : Event) : bool :=
  match ev with EvWh_SetFunctionHook _ _ => false | _ => true end.

(** ** Sample systems *)

Definition ascii_towlower (c : WCHAR) : WCHAR :=
  if (65 <=? c) && (c <=? 90) then c + 32 else c.

Definition mk_window (style exstyle : Z) (parent : HWND) (pid : Z) : Window :=
  {| wnd_style := style; wnd_exstyle := exstyle; wnd_parent := parent;
     wnd_thread := 7; wnd_pid := pid |}.

Definition WS_OVERLAPPEDWINDOW : Z := 0x00CF0000.
Definition WS_POPUP : Z := wrap32 0x80000000.
Definition E_FAIL : HRESULT := wrap32 0x80004005.

(** A process (id 42, [notepad.exe]) on a desktop (handle 10) with:
    100, a captioned main window of the process;
    101, a captioned window of another process;
    102, a bordered popup of the process with no title bar;
    103, a child window of 100;
    104, a captioned tool window of the process. *)
Definition demo_windows : gmap Z Window :=
  {[ 100 := mk_window WS_OVERLAPPEDWINDOW 0 10 42;
     101 := mk_window WS_OVERLAPPEDWINDOW 0 10 43;
     102 := mk_window (Z.lor WS_POPUP WS_BORDER) 0 10 42;
     103 := mk_window (Z.lor WS_CHILD WS_CAPTION) 0 100 42;
     104 := mk_window WS_OVERLAPPEDWINDOW WS_EX_TOOLWINDOW 10 42 ]}.

(** The preference reads as dark ([AppsUseLightTheme = 0]). *)
Definition demo_system : System :=
  {| sys_windows := demo_windows;
     sys_toplevel := [100; 101; 102; 104];
     sys_desktop := 10;
     sys_pid := 42;
     sys_RegOpenKeyExW := ERROR_SUCCESS;
     sys_RegQueryValueExW := (ERROR_SUCCESS, 0);
     sys_GetModuleHandleW := λ _, 0;
     sys_GetProcAddress := λ _ _, 0;
     sys_call := λ _, 0;
     sys_GetModuleFileNameW := (22, WSTR "C:\Windows\Notepad.EXE");
     sys_towlower := ascii_towlower;
     sys_DwmSetWindowAttribute := λ _, 0;
     sys_Wh_SetFunctionHook := λ _, TRUE |}.

(** A process with two captioned top-level windows of its own, 100 in front
    and 105 at the back, and the window 101 of another process between
    them. *)
Definition two_windows : System :=
  {| sys_windows :=
       {[ 100 := mk_window WS_OVERLAPPEDWINDOW 0 10 42;
          101 := mk_window WS_OVERLAPPEDWINDOW 0 10 43;
          105 := mk_window WS_OVERLAPPEDWINDOW 0 10 42 ]};
     sys_toplevel := [100; 101; 105];
     sys_desktop := sys_desktop demo_system; sys_pid := sys_pid demo_system;
     sys_RegOpenKeyExW := sys_RegOpenKeyExW demo_system;
     sys_RegQueryValueExW := sys_RegQueryValueExW demo_system;
     sys_GetModuleHandleW := sys_GetModuleHandleW demo_system;
     sys_GetProcAddress := sys_GetProcAddress demo_system;
     sys_call := sys_call demo_system;
     sys_GetModuleFileNameW := sys_GetModuleFileNameW demo_system;
     sys_towlower := sys_towlower demo_system;
     sys_DwmSetWindowAttribute := sys_DwmSetWindowAttribute demo_system;
     sys_Wh_SetFunctionHook := sys_Wh_SetFunctionHook demo_system |}.

(** The same system with the preference unreadable (no such key, status 2). *)
Definition no_preference (y : System) : System :=
  {| sys_windows := sys_windows y; sys_toplevel := sys_toplevel y;
     sys_desktop := sys_desktop y; sys_pid := sys_pid y;
     sys_RegOpenKeyExW := 2;
     sys_RegQueryValueExW := sys_RegQueryValueExW y;
     sys_GetModuleHandleW := sys_GetModuleHandleW y;
     sys_GetProcAddress := sys_GetProcAddress y;
     sys_call := sys_call y;
     sys_GetModuleFileNameW := sys_GetModuleFileNameW y;
     sys_towlower := sys_towlower y;
     sys_DwmSetWindowAttribute := sys_DwmSetWindowAttribute y;
     sys_Wh_SetFunctionHook := sys_Wh_SetFunctionHook y |}.

(** The same system with uxtheme loaded at 7000, its ordinal 138 at 7138,
    and that function answering [r]. *)
Definition with_probe (r : Z) (y : System) : System :=
  {| sys_windows := sys_windows y; sys_toplevel := sys_toplevel y;
     sys_desktop := sys_desktop y; sys_pid := sys_pid y;
     sys_RegOpenKeyExW := sys_RegOpenKeyExW y;
     sys_RegQueryValueExW := sys_RegQueryValueExW y;
     sys_GetModuleHandleW :=
       (λ name, if bool_decide (name = "uxtheme.dll") then 7000 else 0);
     sys_GetProcAddress :=
       (λ hmod name,
          match name with
          | ByOrdinal 138 => if hmod =? 7000 then 7138 else 0
          | _ => 0
          end);
     sys_call := (λ addr, if addr =? 7138 then r else 0);
     sys_GetModuleFileNameW := sys_GetModuleFileNameW y;
     sys_towlower := sys_towlower y;
     sys_DwmSetWindowAttribute := sys_DwmSetWindowAttribute y;
     sys_Wh_SetFunctionHook := sys_Wh_SetFunctionHook y |}.

(** The same system with the preference set to [v]. *)
Definition with_preference (v : Z) (y : System) : System :=
  {| sys_windows := sys_windows y; sys_toplevel := sys_toplevel y;
     sys_desktop := sys_desktop y; sys_pid := sys_pid y;
     sys_RegOpenKeyExW := ERROR_SUCCESS;
     sys_RegQueryValueExW := (ERROR_SUCCESS, v);
     sys_GetModuleHandleW := sys_GetModuleHandleW y;
     sys_GetProcAddress := sys_GetProcAddress y;
     sys_call := sys_call y;
     sys_GetModuleFileNameW := sys_GetModuleFileNameW y;
     sys_towlower := sys_towlower y;
     sys_DwmSetWindowAttribute := sys_DwmSetWindowAttribute y;
     sys_Wh_SetFunctionHook := sys_Wh_SetFunctionHook y |}.

(** The same system with the compositor refusing every attribute set. *)
Definition dwm_failing (y : System) : System :=
  {| sys_windows := sys_windows y; sys_toplevel := sys_toplevel y;
     sys_desktop := sys_desktop y; sys_pid := sys_pid y;
     sys_RegOpenKeyExW := sys_RegOpenKeyExW y;
     sys_RegQueryValueExW := sys_RegQueryValueExW y;
     sys_GetModuleHandleW := sys_GetModuleHandleW y;
     sys_GetProcAddress := sys_GetProcAddress y;
     sys_call := sys_call y;
     sys_GetModuleFileNameW := sys_GetModuleFileNameW y;
     sys_towlower := sys_towlower y;
     sys_DwmSetWindowAttribute := λ _, E_FAIL;
     sys_Wh_SetFunctionHook := sys_Wh_SetFunctionHook y |}.

(** The same system with the executable's file name unavailable. *)
Definition no_file_name (y : System) : System :=
  {| sys_windows := sys_windows y; sys_toplevel := sys_toplevel y;
     sys_desktop := sys_desktop y; sys_pid := sys_pid y;
     sys_RegOpenKeyExW := sys_RegOpenKeyExW y;
     sys_RegQueryValueExW := sys_RegQueryValueExW y;
     sys_GetModuleHandleW := sys_GetModuleHandleW y;
     sys_GetProcAddress := sys_GetProcAddress y;
     sys_call := sys_call y;
     sys_GetModuleFileNameW := (0, []);
     sys_towlower := sys_towlower y;
     sys_DwmSetWindowAttribute := sys_DwmSetWindowAttribute y;
     sys_Wh_SetFunctionHook := sys_Wh_SetFunctionHook y |}.

(** The same system seen from inside the Settings application. *)
Definition in_settings_app (y : System) : System :=
  {| sys_windows := sys_windows y; sys_toplevel := sys_toplevel y;
     sys_desktop := sys_desktop y; sys_pid := sys_pid y;
     sys_RegOpenKeyExW := sys_RegOpenKeyExW y;
     sys_RegQueryValueExW := sys_RegQueryValueExW y;
     sys_GetModuleHandleW := sys_GetModuleHandleW y;
     sys_GetProcAddress := sys_GetProcAddress y;
     sys_call := sys_call y;
     sys_GetModuleFileNameW :=
       (51, WSTR "C:\Windows\ImmersiveControlPanel\SystemSettings.exe");
     sys_towlower := sys_towlower y;
     sys_DwmSetWindowAttribute := sys_DwmSetWindowAttribute y;
     sys_Wh_SetFunctionHook := sys_Wh_SetFunctionHook y |}.

(** A freshly loaded mod in the system [y]: nothing styled yet. *)
Definition fresh (y : System) : State :=
  {| world := {| sys := y; dark_attr := ∅; frame_redraws := ∅;
                 active_window := 0 |};
     globals := initial_globals |}.

(** Sample originals: a default handler that answers 5, and a creation
    primitive that adds the captioned window 200 to the process's windows and
    returns its handle. *)
Definition sample_DefWindowProcW
    (hWnd : HWND) (Msg wParam lParam : Z) (w : World) : Z * World := (5, w).

Definition add_window (h : HWND) (x : Window) (y : System) : System :=
  {| sys_windows := <[h := x]> (sys_windows y);
     sys_toplevel := h :: sys_toplevel y;
     sys_desktop := sys_desktop y; sys_pid := sys_pid y;
     sys_RegOpenKeyExW := sys_RegOpenKeyExW y;
     sys_RegQueryValueExW := sys_RegQueryValueExW y;
     sys_GetModuleHandleW := sys_GetModuleHandleW y;
     sys_GetProcAddress := sys_GetProcAddress y;
     sys_call := sys_call y;
     sys_GetModuleFileNameW := sys_GetModuleFileNameW y;
     sys_towlower := sys_towlower y;
     sys_DwmSetWindowAttribute := sys_DwmSetWindowAttribute y;
     sys_Wh_SetFunctionHook := sys_Wh_SetFunctionHook y |}.

Definition sample_NtUserCreateWindowEx
    (args : CreateArgs) (w : World) : HWND * World :=
  (200,
   {| sys := add_window 200
               (mk_window (dwStyle args) (dwExStyle args) 10 (sys_pid (sys w)))
               (sys w);
      dark_attr := dark_attr w; frame_redraws := frame_redraws w;
      active_window := active_window w |}).

Definition sample_args : CreateArgs :=
  {| dwExStyle := 0; pClassName := 0; pWindowName := 0; pWindowNameU := 0;
     dwStyle := WS_OVERLAPPEDWINDOW; cx := 0; cy := 0; nWidth := 640;
     nHeight := 480; hWndParent := 0; hMenu := 0; hInstance := 0; lpParam := 0;
     dwShowMode := 0; dwUnknown1 := 0; dwUnknown2 := 0; qwUnknown3 := 0 |}.

(** * Facts *)

(** ** The monad's equations *)

Lemma result_bind {A B} (m : M A) (f : A → M B) s :
  result (m ≫= f) s = result (f (result m s)) (final m s).
Proof.
  unfold result, final, mbind, M_bind.
  destruct (m s) as [[a s1] t1]; simpl.
  by destruct (f a s1) as [[b s2] t2].
Qed.

Lemma final_bind {A B} (m : M A) (f : A → M B) s :
  final (m ≫= f) s = final (f (result m s)) (final m s).
Proof.
  unfold result, final, mbind, M_bind.
  destruct (m s) as [[a s1] t1]; simpl.
  by destruct (f a s1) as [[b s2] t2].
Qed.

Lemma trace_bind {A B} (m : M A) (f : A → M B) s :
  trace (m ≫= f) s = trace m s ++ trace (f (result m s)) (final m s).
Proof.
  unfold result, final, trace, mbind, M_bind.
  destruct (m s) as [[a s1] t1]; simpl.
  by destruct (f a s1) as [[b s2] t2].
Qed.

Lemma run_eta {A} (m : M A) s : m s = (result m s, final m s, trace m s).
Proof. unfold result, final, trace. by destruct (m s) as [[a s1] t1]. Qed.

(** ** Relations every step of a computation respects *)

Section Respects.
Context (Q : State → State → list Event → Prop) `{!Stepwise Q}.

Lemma respects_ret {A} (a : A) : respects Q (mret a).
Proof. intros s. apply stepwise_nil. Qed.

Lemma respects_bind {A B} (m : M A) (f : A → M B) :
  respects Q m → (∀ a, respects Q (f a)) → respects Q (m ≫= f).
Proof.
  intros Hm Hf s. rewrite final_bind, trace_bind.
  eapply stepwise_app; [apply Hm | apply Hf].
Qed.

Lemma respects_if {A} (c : bool) (m1 m2 : M A) :
  respects Q m1 → respects Q m2 → respects Q (if c then m1 else m2).
Proof. by destruct c. Qed.

Lemma respects_get {A} (f : Globals → A) : respects Q (get f).
Proof. intros s. apply stepwise_nil. Qed.

Lemma respects_repeat_call {A} n (m : M A) :
  respects Q m → respects Q (repeat_call n m).
Proof.
  intros Hm. induction n as [|n IH]; simpl.
  - apply respects_ret.
  - apply respects_bind; [done | by intros _].
Qed.

Lemma respects_walk (f : HWND → Z → M BOOL) hs lParam :
  (∀ h, respects Q (f h lParam)) → respects Q (EnumWindows_walk f hs lParam).
Proof.
  intros Hf. induction hs as [|h hs IH]; simpl.
  - apply respects_ret.
  - apply respects_bind; [done | intros r].
    apply respects_if; [apply respects_ret | done].
Qed.

End Respects.

Lemma respects_weaken (Q Q' : State → State → list Event → Prop) {A} (m : M A) :
  (∀ s s' t, Q s s' t → Q' s s' t) → respects Q m → respects Q' m.
Proof. intros HQ Hm s. apply HQ, Hm. Qed.

(** ** Proving that a function respects a relation *)

Create HintDb respects discriminated.

Ltac unfold_calls :=
  unfold Wh_Log, log_pid, RegOpenKeyExW, RegQueryValueExW, RegCloseKey,
    GetModuleHandleW, GetProcAddress, call_pointer, GetModuleFileNameW,
    GetCurrentProcessId, IsWindow, GetWindowLongW, GetAncestor_parent,
    GetDesktopWindow, GetWindowThreadProcessId, Wh_SetFunctionHook.

(** Walks a computation down to the calls it makes; [leaf] settles those. *)
Ltac respects_walk_down leaf :=
  unfold_calls;
  repeat first
    [ match goal with |- Stepwise _ => typeclasses eauto end
    | solve [eauto with respects]
    | apply respects_ret
    | apply respects_get
    | apply respects_bind; [..|intros ?]
    | apply respects_if
    | apply respects_repeat_call
    | apply respects_walk; [..|intros ?]
    | match goal with
      | |- respects _ (match ?x with _ => _ end) => destruct x
      end
    | solve [leaf] ].

(** ** The Theme Oracle, run *)

Ltac run_m :=
  unfold result, final, trace, mbind, M_bind, mret, M_ret, ask, emit, get, put,
    change; simpl.

Lemma uxtheme_fallback_run s :
  uxtheme_fallback s =
  (if available_probe s =? 0 then FALSE
   else Z.b2z (negb (sys_call (sys (world s)) (available_probe s) =? 0)),
   {| world := world s;
      globals := set_g_ShouldSystemUseDarkMode (available_probe s) (globals s) |},
   (if g_ShouldSystemUseDarkMode (globals s) =? 0 then
      EvGetModuleHandleW "uxtheme.dll"
        (sys_GetModuleHandleW (sys (world s)) "uxtheme.dll")
      :: (if sys_GetModuleHandleW (sys (world s)) "uxtheme.dll" =? 0 then []
          else [EvGetProcAddress (sys_GetModuleHandleW (sys (world s)) "uxtheme.dll")
                  (ByOrdinal 138) (resolve_probe (sys (world s)))])
    else [])
   ++ (if available_probe s =? 0 then []
       else [EvCallPointer (available_probe s)
               (sys_call (sys (world s)) (available_probe s))])).
Proof.
  destruct s as [w [p d x]].
  unfold uxtheme_fallback, available_probe, resolve_probe, GetModuleHandleW,
    GetProcAddress, call_pointer. run_m.
  destruct (p =? 0) eqn:Hp; simpl.
  - apply Z.eqb_eq in Hp as ->.
    destruct (sys_GetModuleHandleW (sys w) "uxtheme.dll" =? 0) eqn:Hm; simpl.
    + reflexivity.
    + unfold set_g_ShouldSystemUseDarkMode; simpl.
      destruct (sys_GetProcAddress _ _ _ =? 0) eqn:Ha; simpl; try reflexivity.
  - rewrite Hp. unfold set_g_ShouldSystemUseDarkMode; simpl. reflexivity.
Qed.

Lemma IsSystemDarkMode_read s v :
  preference_read (sys (world s)) = Some v →
  IsSystemDarkMode s =
  (Z.b2z (v =? 0), s,
   [EvRegOpenKeyExW ERROR_SUCCESS; EvRegQueryValueExW ERROR_SUCCESS v;
    EvRegCloseKey]).
Proof.
  unfold preference_read, IsSystemDarkMode, RegOpenKeyExW, RegQueryValueExW,
    RegCloseKey. run_m.
  destruct (sys_RegOpenKeyExW _ =? ERROR_SUCCESS) eqn:Ho; [|done].
  destruct (sys_RegQueryValueExW (sys (world s))) as [st x]; simpl.
  destruct (st =? ERROR_SUCCESS) eqn:Hq; [|done].
  apply Z.eqb_eq in Ho, Hq. rewrite Ho. subst st.
  intros [= ->]. by destruct s.
Qed.

Lemma IsSystemDarkMode_unread s :
  preference_read (sys (world s)) = None →
  ∃ pre,
    Forall (λ ev, is_registry_call ev = true) pre ∧
    IsSystemDarkMode s =
    (result uxtheme_fallback s, final uxtheme_fallback s,
     pre ++ trace uxtheme_fallback s).
Proof.
  unfold preference_read, IsSystemDarkMode, RegOpenKeyExW, RegQueryValueExW,
    RegCloseKey, ask, emit, mbind, M_bind, mret, M_ret, result, final, trace.
  simpl.
  destruct (sys_RegOpenKeyExW _ =? ERROR_SUCCESS) eqn:Ho; simpl.
  - destruct (sys_RegQueryValueExW (sys (world s))) as [st x]; simpl.
    destruct (st =? ERROR_SUCCESS) eqn:Hq; [done|]. intros _.
    exists [EvRegOpenKeyExW (sys_RegOpenKeyExW (sys (world s)));
            EvRegQueryValueExW st x; EvRegCloseKey].
    split; [by repeat constructor|].
    by destruct (uxtheme_fallback s) as [[b s'] t].
  - intros _. exists [EvRegOpenKeyExW (sys_RegOpenKeyExW (sys (world s)))].
    split; [by repeat constructor|].
    by destruct (uxtheme_fallback s) as [[b s'] t].
Qed.

Lemma IsSystemDarkMode_bool s :
  result IsSystemDarkMode s = 0 ∨ result IsSystemDarkMode s = 1.
Proof.
  destruct (preference_read (sys (world s))) as [v|] eqn:E.
  - unfold result. rewrite (IsSystemDarkMode_read s v E); simpl.
    destruct (v =? 0); auto.
  - destruct (IsSystemDarkMode_unread s E) as (pre & _ & R).
    unfold result at 1 2. rewrite R; simpl. unfold result.
    rewrite uxtheme_fallback_run; simpl.
    destruct (_ =? 0); [auto|]. destruct (_ =? 0); auto.
Qed.

(** ** The gate, run *)

Lemma IsProcessExcluded_scan_run name l s :
  IsProcessExcluded_scan name l s =
  (Z.b2z (on_denylist name l),
   {| world := world s;
      globals := set_isExcluded (Z.b2z (on_denylist name l)) (globals s) |},
   if on_denylist name l
   then [EvWh_Log "Process excluded: %s" [ArgWStr name]] else []).
Proof.
  induction l as [|e l IH]; simpl; [done|].
  destruct (wcscmp name e =? 0); simpl; [done|]. apply IH.
Qed.

Lemma IsProcessExcluded_run s :
  IsProcessExcluded s =
  if isExcluded (globals s) =? -1 then
    (exclusion_decision (sys (world s)),
     {| world := world s;
        globals := set_isExcluded (exclusion_decision (sys (world s))) (globals s) |},
     EvGetModuleFileNameW (sys_GetModuleFileNameW (sys (world s))).1
     :: (if exclusion_decision (sys (world s)) =? 1
         then [EvWh_Log "Process excluded: %s" [ArgWStr (base_name (sys (world s)))]]
         else []))
  else (Z.b2z (isExcluded (globals s) =? 1), s, []).
Proof.
  unfold IsProcessExcluded, GetModuleFileNameW, exclusion_decision.
  generalize excludedProcesses; intros l.
  unfold mbind, M_bind, get, ask, observe, put, mret, M_ret; simpl.
  destruct (isExcluded (globals s) =? -1); simpl; [|done].
  destruct (sys_GetModuleFileNameW (sys (world s))) as [n buf] eqn:E; simpl.
  destruct (n =? 0); simpl; [done|].
  rewrite IsProcessExcluded_scan_run; simpl.
  unfold base_name. rewrite E; simpl.
  by destruct (on_denylist _ _).
Qed.

(** ** The filter and the applicator, run *)

Lemma IsWindowEligible_run h s :
  IsWindowEligible h s =
  (Z.b2z (eligible (sys (world s)) h), s, eligibility_queries (sys (world s)) h).
Proof.
  unfold IsWindowEligible, eligible, eligibility_queries, IsWindow,
    GetWindowLongW.
  destruct (h =? 0); simpl; [done|].
  unfold mbind, M_bind, ask, mret, M_ret; simpl.
  destruct (is_live (sys (world s)) h); simpl; [|done].
  destruct (Z.land (window_long _ h GWL_STYLE) WS_CAPTION =? 0); simpl; [done|].
  destruct (Z.land (window_long _ h GWL_EXSTYLE) WS_EX_TOOLWINDOW =? 0);
    simpl; [|done].
  by destruct (Z.land (window_long _ h GWL_STYLE) WS_CHILD =? 0).
Qed.

Lemma eligible_live y h : eligible y h = true → is_live y h = true.
Proof.
  unfold eligible. destruct (is_live y h); [done|]. by rewrite andb_false_r.
Qed.

Lemma redraw_flags_frame_changed :
  negb (Z.land redraw_flags SWP_FRAMECHANGED =? 0) = true.
Proof. reflexivity. Qed.

Lemma ApplyDarkMode_run h b s :
  ApplyDarkMode h b s =
  (tt,
   {| world := style_window (sys (world s)) b h (world s); globals := globals s |},
   styling_calls (sys (world s)) b h).
Proof.
  unfold ApplyDarkMode, styling_calls, style_window.
  unfold mbind at 1, M_bind at 1. rewrite IsWindowEligible_run.
  destruct (eligible (sys (world s)) h) eqn:He; simpl.
  - unfold DwmSetWindowAttribute, SetWindowPos, Wh_Log, attr_value.
    unfold mbind, M_bind, emit, mret, M_ret; simpl.
    destruct (SUCCEEDED (dwm_result (sys (world s)) h)) eqn:Hr; simpl.
    + by rewrite (eligible_live _ _ He).
    + by destruct s.
  - unfold mret, M_ret. rewrite ?app_nil_r. by destruct s.
Qed.

(** *** The Z order *)

Lemma elem_of_place_below top h hs x :
  x ∈ place_below top h hs ↔ x = h ∨ x ∈ hs.
Proof.
  induction hs as [|a hs IH]; simpl.
  - rewrite list_elem_of_singleton, elem_of_nil. tauto.
  - destruct (top a); rewrite !elem_of_cons; [rewrite IH|]; tauto.
Qed.

Lemma NoDup_place_below top h hs :
  h ∉ hs → NoDup hs → NoDup (place_below top h hs).
Proof.
  intros Hh Hnd. induction Hnd as [|a hs Ha Hnd IH]; simpl.
  - apply NoDup_singleton.
  - rewrite not_elem_of_cons in Hh. destruct Hh as [Hne Hh].
    destruct (top a).
    + apply NoDup_cons. split; [|by apply IH].
      rewrite elem_of_place_below. intros [-> | ?]; done.
    + apply NoDup_cons. split; [|by apply NoDup_cons].
      rewrite elem_of_cons. intros [-> | ?]; done.
Qed.

Lemma elem_of_raised y h x : x ∈ raised y h ↔ x ∈ sys_toplevel y.
Proof.
  unfold raised. destruct (decide (h ∈ sys_toplevel y)) as [Hin|Hin].
  - rewrite (bool_decide_eq_true_2 _ Hin).
    assert (x = h ∨ x ∈ filter (λ a, a ≠ h) (sys_toplevel y)
            ↔ x ∈ sys_toplevel y) as Hx.
    { rewrite list_elem_of_filter. split.
      - intros [-> | [_ ?]]; done.
      - intros ?. destruct (decide (x = h)); auto. }
    destruct (is_topmost y h).
    + by rewrite elem_of_cons.
    + by rewrite elem_of_place_below.
  - by rewrite (bool_decide_eq_false_2 _ Hin).
Qed.

Lemma NoDup_raised y h : NoDup (sys_toplevel y) → NoDup (raised y h).
Proof.
  intros Hnd. unfold raised. destruct (bool_decide _); [|done].
  assert (Hh : h ∉ filter (λ a, a ≠ h) (sys_toplevel y)).
  { rewrite list_elem_of_filter. by intros [? _]. }
  assert (Hf : NoDup (filter (λ a, a ≠ h) (sys_toplevel y)))
    by (by apply NoDup_filter).
  destruct (is_topmost y h).
  - by apply NoDup_cons.
  - by apply NoDup_place_below.
Qed.

Lemma same_windows_refl y : same_windows y y.
Proof. by repeat split. Qed.

Lemma same_windows_trans y1 y2 y3 :
  same_windows y2 y1 → same_windows y3 y2 → same_windows y3 y1.
Proof.
  intros (U1 & E1 & N1) (U2 & E2 & N2). split; [congruence|]. split.
  - intros h. by rewrite E2.
  - auto.
Qed.

Lemma same_windows_raise h y : same_windows (raise_window h y) y.
Proof.
  split; [done|]. split.
  - intros x. apply elem_of_raised.
  - apply NoDup_raised.
Qed.

(** What the mod decides about a window does not depend on the Z order. *)
Lemma eligible_unordered y' y h :
  unordered y' = unordered y → eligible y' h = eligible y h.
Proof.
  intros H. change (eligible (unordered y') h = eligible (unordered y) h).
  by rewrite H.
Qed.

Lemma styling_target_unordered y' y h :
  unordered y' = unordered y → styling_target y' h = styling_target y h.
Proof.
  intros H.
  change (styling_target (unordered y') h = styling_target (unordered y) h).
  by rewrite H.
Qed.

Lemma restyled_unordered y' y h :
  unordered y' = unordered y → restyled y' h = restyled y h.
Proof.
  intros H. change (restyled (unordered y') h = restyled (unordered y) h).
  by rewrite H.
Qed.

Lemma sys_pid_unordered y' y :
  unordered y' = unordered y → sys_pid y' = sys_pid y.
Proof.
  intros H. change (sys_pid (unordered y') = sys_pid (unordered y)).
  by rewrite H.
Qed.

Lemma enum_step_unordered y' y b :
  unordered y' = unordered y → enum_step y' b = enum_step y b.
Proof.
  intros H. change (enum_step (unordered y') b = enum_step (unordered y) b).
  by rewrite H.
Qed.

Lemma enum_calls_unordered y' y b :
  unordered y' = unordered y → enum_calls y' b = enum_calls y b.
Proof.
  intros H. change (enum_calls (unordered y') b = enum_calls (unordered y) b).
  by rewrite H.
Qed.

Lemma sweep_reaches_same_windows y' y h :
  same_windows y' y → sweep_reaches y' h = sweep_reaches y h.
Proof.
  intros (U & E & _). unfold sweep_reaches.
  rewrite (restyled_unordered y' y h U). f_equal.
  apply bool_decide_ext, E.
Qed.

Lemma style_window_same_windows y b h w :
  same_windows (sys (style_window y b h w)) (sys w).
Proof.
  unfold style_window. destruct (_ && _); [|apply same_windows_refl].
  apply same_windows_raise.
Qed.

Lemma enum_step_same_windows y b w h :
  same_windows (sys (enum_step y b w h)) (sys w).
Proof.
  unfold enum_step. destruct (passes_enum_filter y h).
  - apply style_window_same_windows.
  - apply same_windows_refl.
Qed.

Lemma EnumWindowsProc_run h l s :
  EnumWindowsProc h l s =
  (TRUE,
   {| world := enum_step (sys (world s)) (wrap32 l) (world s) h;
      globals := globals s |},
   enum_calls (sys (world s)) (wrap32 l) h).
Proof.
  unfold EnumWindowsProc, enum_calls, enum_filter_queries, enum_step,
    passes_enum_filter, parent_is_desktop_or_absent, owned_by_current_process,
    GetAncestor_parent, GetDesktopWindow, GetWindowThreadProcessId,
    GetCurrentProcessId.
  unfold mbind, M_bind, ask, mret, M_ret; simpl.
  destruct (parent_of (sys (world s)) h =? 0) eqn:Hp; simpl.
  - destruct (thread_process_id (sys (world s)) h) as [tid pid]; simpl.
    destruct (tid =? 0); simpl; [by destruct s|].
    destruct (pid =? sys_pid (sys (world s))); simpl; [|by destruct s].
    rewrite ApplyDarkMode_run; simpl. by rewrite app_nil_r.
  - destruct (parent_of (sys (world s)) h =? sys_desktop (sys (world s)));
      simpl; [|by destruct s].
    destruct (thread_process_id (sys (world s)) h) as [tid pid]; simpl.
    destruct (tid =? 0); simpl; [by destruct s|].
    destruct (pid =? sys_pid (sys (world s))); simpl; [|by destruct s].
    rewrite ApplyDarkMode_run; simpl. by rewrite app_nil_r.
Qed.

Lemma sweep_same_windows y b hs w :
  same_windows (sys (foldl (enum_step y b) w hs)) (sys w).
Proof.
  revert w. induction hs as [|h hs IH]; intros w; simpl.
  - apply same_windows_refl.
  - eapply same_windows_trans; [apply enum_step_same_windows|apply IH].
Qed.

Lemma EnumWindows_walk_run hs l s :
  EnumWindows_walk EnumWindowsProc hs l s =
  (TRUE,
   {| world := foldl (enum_step (sys (world s)) (wrap32 l)) (world s) hs;
      globals := globals s |},
   hs ≫= enum_calls (sys (world s)) (wrap32 l)).
Proof.
  revert s. induction hs as [|h hs IH]; intros s; simpl.
  - by destruct s.
  - unfold mbind at 1, M_bind at 1. rewrite EnumWindowsProc_run; simpl.
    rewrite IH; simpl.
    destruct (enum_step_same_windows (sys (world s)) (wrap32 l) (world s) h)
      as (U & _).
    by rewrite (enum_step_unordered _ _ _ U), (enum_calls_unordered _ _ _ U).
Qed.

Lemma ApplyToAllWindows_run b s :
  ApplyToAllWindows b s =
  (tt,
   {| world := foldl (enum_step (sys (world s)) (wrap32 b)) (world s)
                 (sys_toplevel (sys (world s)));
      globals := globals s |},
   EvEnumWindows
   :: (sys_toplevel (sys (world s)) ≫= enum_calls (sys (world s)) (wrap32 b))).
Proof.
  unfold ApplyToAllWindows, EnumWindows.
  unfold mbind at 1 2, M_bind at 1 2. unfold ask at 1; simpl.
  rewrite EnumWindows_walk_run; simpl. by rewrite app_nil_r.
Qed.

(** What [IsWindowEligible] returns, spelled out on the window's record. *)
Lemma IsWindowEligible_true_iff h s :
  result (IsWindowEligible h) s = TRUE ↔
  ∃ x, h ≠ 0 ∧ sys_windows (sys (world s)) !! h = Some x
       ∧ Z.land (wnd_style x) WS_CAPTION ≠ 0
       ∧ Z.land (wnd_exstyle x) WS_EX_TOOLWINDOW = 0
       ∧ Z.land (wnd_style x) WS_CHILD = 0.
Proof.
  unfold result. rewrite IsWindowEligible_run; simpl.
  unfold eligible, is_live, window_long, window_at.
  destruct (Z.eqb_spec h 0) as [->|Hh]; simpl.
  { split; [done|]. by intros (x & ? & _). }
  destruct (sys_windows (sys (world s)) !! h) as [x|] eqn:E; simpl.
  2:{ try rewrite bool_decide_eq_false_2 by (by intros [? ?]). simpl.
      split; [done|]. by intros (x & _ & ? & _). }
  try rewrite bool_decide_eq_true_2 by eauto. simpl.
  destruct (Z.eqb_spec (Z.land (wnd_style x) WS_CAPTION) 0) as [Hc|Hc]; simpl.
  { split; [done|]. intros (x' & _ & [= <-] & ? & _). done. }
  destruct (Z.eqb_spec (Z.land (wnd_exstyle x) WS_EX_TOOLWINDOW) 0) as [Ht|Ht];
    simpl.
  2:{ split; [done|]. intros (x' & _ & [= <-] & _ & ? & _). done. }
  destruct (Z.eqb_spec (Z.land (wnd_style x) WS_CHILD) 0) as [Hk|Hk]; simpl.
  - split; [|done]. intros _. by exists x.
  - split; [done|]. intros (x' & _ & [= <-] & _ & _ & ?). done.
Qed.

(** A live window with exactly one of the two bits of [WS_CAPTION] has no
    caption and is accepted all the same. *)
Lemma IsWindowEligible_partial_caption h s x :
  h ≠ 0 →
  sys_windows (sys (world s)) !! h = Some x →
  Z.land (wnd_style x) WS_CAPTION = WS_BORDER
  ∨ Z.land (wnd_style x) WS_CAPTION = WS_DLGFRAME →
  Z.land (wnd_exstyle x) WS_EX_TOOLWINDOW = 0 →
  Z.land (wnd_style x) WS_CHILD = 0 →
  style_has_caption (wnd_style x) = false
  ∧ result (IsWindowEligible h) s = TRUE.
Proof.
  intros Hh Hx Hbit Htool Hchild. split.
  - unfold style_has_caption. by destruct Hbit as [-> | ->].
  - apply IsWindowEligible_true_iff. exists x.
    split; [done|split; [done|split; [|done]]].
    by destruct Hbit as [-> | ->].
Qed.

(** ** The originals, run *)

Lemma NtUserCreateWindowEx_orig_run C args s :
  NtUserCreateWindowEx_orig C args s =
  ((C args (world s)).1,
   {| world := (C args (world s)).2; globals := globals s |},
   [EvNtUserCreateWindowEx_orig args (C args (world s)).1]).
Proof. unfold NtUserCreateWindowEx_orig. by destruct (C args (world s)). Qed.

Lemma DefWindowProc_orig_run D h m w l s :
  DefWindowProc_orig D h m w l s =
  ((D h m w l (world s)).1,
   {| world := (D h m w l (world s)).2; globals := globals s |},
   [EvDefWindowProc_orig h m w l (D h m w l (world s)).1]).
Proof. unfold DefWindowProc_orig. by destruct (D h m w l (world s)). Qed.

Lemma attribute_sets_original D h m w l s :
  attribute_sets (trace (DefWindowProc_orig D h m w l) s) = [].
Proof.
  unfold trace, DefWindowProc_orig. by destruct (D h m w l (world s)).
Qed.

Lemma final_Wh_Log fmt args s : final (Wh_Log fmt args) s = s.
Proof. done. Qed.

Lemma final_log_pid fmt s : final (log_pid fmt) s = s.
Proof. done. Qed.

(** ** What each function leaves alone *)

(** *** What is memoized stays memoized *)

#[local] Instance memoized_stepwise : Stepwise memoized.
Proof.
  split; unfold memoized.
  - intros s. by split.
  - intros s1 s2 s3 t1 t2 [P1 X1] [P2 X2]. split.
    + intros Hp. destruct (P1 Hp) as [E1 F1]. rewrite <- E1 in Hp.
      destruct (P2 Hp) as [E2 F2]. split; [congruence|by apply Forall_app].
    + intros Hx. destruct (X1 Hx) as [E1 F1]. rewrite <- E1 in Hx.
      destruct (X2 Hx) as [E2 F2]. split; [congruence|by apply Forall_app].
Qed.

Ltac memoized_leaf :=
  intros [w [p d x]];
  unfold final, trace, ask, emit, put, change, DwmSetWindowAttribute,
    SetWindowPos, DefWindowProc_orig, NtUserCreateWindowEx_orig; simpl;
  repeat match goal with |- context [let '(_, _) := ?e in _] => destruct e end;
  simpl; split; intros ?; (split; [done | by repeat constructor]).

Lemma uxtheme_fallback_memoized : respects memoized uxtheme_fallback.
Proof.
  intros s. unfold final, trace. rewrite uxtheme_fallback_run; simpl.
  unfold available_probe. split.
  - intros Hp.
    destruct (Z.eqb_spec (g_ShouldSystemUseDarkMode (globals s)) 0); [done|].
    split; [done|]. simpl. destruct (_ =? 0); by repeat constructor.
  - intros _. split; [done|].
    apply Forall_app. split; repeat case_match; by repeat constructor.
Qed.
#[local] Hint Resolve uxtheme_fallback_memoized : respects.

Lemma IsSystemDarkMode_memoized : respects memoized IsSystemDarkMode.
Proof. unfold IsSystemDarkMode. respects_walk_down memoized_leaf. Qed.
#[local] Hint Resolve IsSystemDarkMode_memoized : respects.

Lemma IsProcessExcluded_memoized : respects memoized IsProcessExcluded.
Proof.
  intros s. unfold final, trace. rewrite IsProcessExcluded_run.
  destruct (Z.eqb_spec (isExcluded (globals s)) (-1)) as [Hx|Hx]; simpl.
  - split; [|done]. intros _. split; [done|].
    constructor; [done|]. destruct (exclusion_decision _ =? 1); by repeat constructor.
  - by repeat split.
Qed.
#[local] Hint Resolve IsProcessExcluded_memoized : respects.

Lemma IsWindowEligible_memoized h : respects memoized (IsWindowEligible h).
Proof. unfold IsWindowEligible. respects_walk_down memoized_leaf. Qed.
#[local] Hint Resolve IsWindowEligible_memoized : respects.

Lemma ApplyDarkMode_memoized h b : respects memoized (ApplyDarkMode h b).
Proof. unfold ApplyDarkMode. respects_walk_down memoized_leaf. Qed.
#[local] Hint Resolve ApplyDarkMode_memoized : respects.

Lemma NewWindowShown_memoized h : respects memoized (NewWindowShown h).
Proof. unfold NewWindowShown. respects_walk_down memoized_leaf. Qed.
#[local] Hint Resolve NewWindowShown_memoized : respects.

Lemma EnumWindowsProc_memoized h l : respects memoized (EnumWindowsProc h l).
Proof. unfold EnumWindowsProc. respects_walk_down memoized_leaf. Qed.
#[local] Hint Resolve EnumWindowsProc_memoized : respects.

Lemma ApplyToAllWindows_memoized b : respects memoized (ApplyToAllWindows b).
Proof. unfold ApplyToAllWindows, EnumWindows. respects_walk_down memoized_leaf. Qed.
#[local] Hint Resolve ApplyToAllWindows_memoized : respects.

Lemma theme_change_check_memoized m : respects memoized (theme_change_check m).
Proof. unfold theme_change_check. respects_walk_down memoized_leaf. Qed.
#[local] Hint Resolve theme_change_check_memoized : respects.

Lemma Wh_ModInit_memoized : respects memoized Wh_ModInit.
Proof.
  unfold Wh_ModInit, hook_window_creation. respects_walk_down memoized_leaf.
Qed.
#[local] Hint Resolve Wh_ModInit_memoized : respects.

Lemma Wh_ModAfterInit_memoized : respects memoized Wh_ModAfterInit.
Proof. unfold Wh_ModAfterInit. respects_walk_down memoized_leaf. Qed.
#[local] Hint Resolve Wh_ModAfterInit_memoized : respects.

Lemma Wh_ModUninit_memoized : respects memoized Wh_ModUninit.
Proof. unfold Wh_ModUninit. respects_walk_down memoized_leaf. Qed.
#[local] Hint Resolve Wh_ModUninit_memoized : respects.

Lemma run_entry_memoized D C e : respects memoized (run_entry D C e).
Proof.
  destruct e; simpl; unfold DefWindowProc_hook, NtUserCreateWindowEx_hook;
    respects_walk_down memoized_leaf.
Qed.
#[local] Hint Resolve run_entry_memoized : respects.

Lemma run_entries_memoized D C es : respects memoized (run_entries D C es).
Proof. induction es; simpl; respects_walk_down memoized_leaf. Qed.

(** *** Functions that leave the world and the theme cache alone *)

#[local] Instance quiet_stepwise : Stepwise quiet.
Proof.
  split; unfold quiet.
  - intros s. by repeat split.
  - intros s1 s2 s3 t1 t2 (W1 & G1 & A1 & O1) (W2 & G2 & A2 & O2).
    repeat split; [congruence | congruence | | by apply Forall_app].
    unfold attribute_sets in *. by rewrite omap_app, A1, A2.
Qed.

Ltac quiet_leaf :=
  intros [w [p d x]]; unfold quiet, final, trace, ask, emit, put; simpl;
  repeat split; by repeat constructor.

Lemma uxtheme_fallback_quiet : respects quiet uxtheme_fallback.
Proof. unfold uxtheme_fallback. respects_walk_down quiet_leaf. Qed.
#[local] Hint Resolve uxtheme_fallback_quiet : respects.

Lemma IsSystemDarkMode_quiet : respects quiet IsSystemDarkMode.
Proof. unfold IsSystemDarkMode. respects_walk_down quiet_leaf. Qed.
#[local] Hint Resolve IsSystemDarkMode_quiet : respects.

Lemma IsProcessExcluded_quiet : respects quiet IsProcessExcluded.
Proof.
  intros s. unfold final, trace. rewrite IsProcessExcluded_run.
  destruct (isExcluded (globals s) =? -1); simpl.
  - repeat split; [by destruct (_ =? 1)|].
    constructor; [done|]. destruct (_ =? 1); by repeat constructor.
  - by repeat split.
Qed.
#[local] Hint Resolve IsProcessExcluded_quiet : respects.

Lemma IsWindowEligible_quiet h : respects quiet (IsWindowEligible h).
Proof. unfold IsWindowEligible. respects_walk_down quiet_leaf. Qed.
#[local] Hint Resolve IsWindowEligible_quiet : respects.

(** *** Functions that leave the theme cache alone and call no original *)

#[local] Instance inner_stepwise : Stepwise inner.
Proof.
  split; unfold inner.
  - intros s. split; [apply same_windows_refl|by split].
  - intros s1 s2 s3 t1 t2 (W1 & G1 & O1) (W2 & G2 & O2).
    split; [by eapply same_windows_trans|].
    split; [congruence | by apply Forall_app].
Qed.

Lemma quiet_inner {A} (m : M A) : respects quiet m → respects inner m.
Proof.
  apply respects_weaken. intros s s' t (W & G & _ & O).
  split; [rewrite W; apply same_windows_refl|by split].
Qed.
#[local] Hint Resolve quiet_inner : respects.

Ltac inner_leaf :=
  intros [w [p d x]];
  unfold inner, final, trace, ask, emit, put, DwmSetWindowAttribute,
    SetWindowPos; simpl;
  (split; [|split]);
  repeat case_match;
  first [ done
        | apply same_windows_refl
        | apply same_windows_raise
        | by repeat constructor ].

Lemma SetWindowPos_inner h flags : respects inner (SetWindowPos h flags).
Proof.
  intros s. unfold inner, final, trace, SetWindowPos; simpl.
  split; [|split; [done|by repeat constructor]].
  destruct (is_live (sys (world s)) h); simpl; [|apply same_windows_refl].
  destruct (Z.land flags SWP_NOACTIVATE =? 0);
    destruct (Z.land flags SWP_NOZORDER =? 0);
    destruct (negb (Z.land flags SWP_FRAMECHANGED =? 0)); simpl;
    eauto using same_windows_refl, same_windows_raise, same_windows_trans.
Qed.
#[local] Hint Resolve SetWindowPos_inner : respects.

Lemma ApplyDarkMode_inner h b : respects inner (ApplyDarkMode h b).
Proof. unfold ApplyDarkMode. respects_walk_down inner_leaf. Qed.
#[local] Hint Resolve ApplyDarkMode_inner : respects.

Lemma NewWindowShown_inner h : respects inner (NewWindowShown h).
Proof. unfold NewWindowShown. respects_walk_down inner_leaf. Qed.
#[local] Hint Resolve NewWindowShown_inner : respects.

Lemma EnumWindowsProc_inner h l : respects inner (EnumWindowsProc h l).
Proof. unfold EnumWindowsProc. respects_walk_down inner_leaf. Qed.
#[local] Hint Resolve EnumWindowsProc_inner : respects.

Lemma ApplyToAllWindows_inner b : respects inner (ApplyToAllWindows b).
Proof. unfold ApplyToAllWindows, EnumWindows. respects_walk_down inner_leaf. Qed.
#[local] Hint Resolve ApplyToAllWindows_inner : respects.

Lemma hook_window_creation_inner : respects inner hook_window_creation.
Proof. unfold hook_window_creation. respects_walk_down inner_leaf. Qed.
#[local] Hint Resolve hook_window_creation_inner : respects.

Lemma Wh_ModAfterInit_inner : respects inner Wh_ModAfterInit.
Proof. unfold Wh_ModAfterInit. respects_walk_down inner_leaf. Qed.

Lemma Wh_ModUninit_inner : respects inner Wh_ModUninit.
Proof. unfold Wh_ModUninit. respects_walk_down inner_leaf. Qed.

(** *** No inner function calls an original *)

#[local] Instance no_original_stepwise : Stepwise no_original.
Proof.
  split; unfold no_original.
  - by intros s.
  - intros s1 s2 s3 t1 t2 O1 O2. by apply Forall_app.
Qed.

Lemma inner_no_original {A} (m : M A) : respects inner m → respects no_original m.
Proof. apply respects_weaken. by intros s s' t (_ & _ & O). Qed.
#[local] Hint Resolve inner_no_original : respects.

Ltac no_original_leaf :=
  intros [w [p d x]]; unfold no_original, final, trace, ask, emit, put; simpl;
  by repeat constructor.

Lemma theme_change_check_no_original m :
  respects no_original (theme_change_check m).
Proof. unfold theme_change_check. respects_walk_down no_original_leaf. Qed.

(** ** The sweep over the top-level windows *)

Lemma enum_step_unfold y b w h :
  enum_step y b w h =
  if restyled y h
  then activate h (add_frame_redraw h (set_dark_attr h (attr_value b) w))
  else w.
Proof.
  unfold enum_step, style_window, restyled, styling_target.
  destruct (passes_enum_filter y h); simpl; [|done].
  by destruct (eligible y h).
Qed.

Lemma dark_attr_sweep y b hs w h :
  dark_attr (foldl (enum_step y b) w hs) !! h =
  if bool_decide (h ∈ hs) && restyled y h then Some (attr_value b)
  else dark_attr w !! h.
Proof.
  revert w. induction hs as [|x hs IH]; intros w; simpl; [done|].
  rewrite IH, enum_step_unfold.
  destruct (decide (h ∈ hs)) as [Hin|Hin].
  - rewrite (bool_decide_eq_true_2 _ Hin).
    rewrite (bool_decide_eq_true_2 (h ∈ x :: hs)) by (by right).
    simpl. destruct (restyled y h) eqn:Hr; [done|].
    destruct (restyled y x) eqn:Hx; simpl; [|done].
    rewrite lookup_insert_ne; [done|]. intros ->. congruence.
  - rewrite (bool_decide_eq_false_2 _ Hin). simpl.
    destruct (decide (h = x)) as [->|Hne].
    + rewrite (bool_decide_eq_true_2 (x ∈ x :: hs)) by (by left). simpl.
      destruct (restyled y x); simpl; [|done]. by rewrite lookup_insert_eq.
    + rewrite (bool_decide_eq_false_2 (h ∈ x :: hs)).
      2:{ rewrite elem_of_cons. by intros [?|?]. }
      simpl. destruct (restyled y x); simpl; [|done].
      by rewrite lookup_insert_ne.
Qed.

Lemma frame_redraws_sweep_other y b hs w h :
  bool_decide (h ∈ hs) && restyled y h = false →
  frame_redraws (foldl (enum_step y b) w hs) !! h = frame_redraws w !! h.
Proof.
  revert w. induction hs as [|x hs IH]; intros w Hh; simpl; [done|].
  rewrite IH, enum_step_unfold.
  - destruct (restyled y x) eqn:Hx; simpl; [|done].
    rewrite lookup_insert_ne; [done|]. intros ->.
    rewrite Hx, andb_true_r in Hh. apply bool_decide_eq_false in Hh.
    apply Hh. by left.
  - destruct (restyled y h); [|by rewrite andb_false_r].
    rewrite andb_true_r in *. apply bool_decide_eq_false in Hh.
    apply bool_decide_eq_false. intros Hin. apply Hh. by right.
Qed.

Lemma attribute_sets_app t1 t2 :
  attribute_sets (t1 ++ t2) = attribute_sets t1 ++ attribute_sets t2.
Proof. apply omap_app. Qed.

Lemma attribute_sets_eligibility_queries y h :
  attribute_sets (eligibility_queries y h) = [].
Proof.
  unfold eligibility_queries. destruct (h =? 0); [done|].
  by destruct (is_live y h).
Qed.

Lemma attribute_sets_enum_filter_queries y h :
  attribute_sets (enum_filter_queries y h) = [].
Proof.
  unfold enum_filter_queries. unfold attribute_sets; simpl.
  rewrite omap_app.
  destruct (parent_of y h =? 0); simpl;
    destruct (parent_is_desktop_or_absent y h); simpl; try done;
    by destruct (_ =? 0).
Qed.

Lemma attribute_sets_enum_calls y b h :
  attribute_sets (enum_calls y b h) =
  if styling_target y h then [(h, attr_value b)] else [].
Proof.
  unfold enum_calls, styling_calls, styling_target.
  rewrite attribute_sets_app, attribute_sets_enum_filter_queries; simpl.
  destruct (passes_enum_filter y h); simpl; [|done].
  rewrite attribute_sets_app, attribute_sets_eligibility_queries; simpl.
  destruct (eligible y h); simpl; [|done].
  by destruct (SUCCEEDED _).
Qed.

Lemma attribute_sets_sweep y b hs :
  attribute_sets (hs ≫= enum_calls y b) =
  (λ h, (h, attr_value b)) <$> filter (λ h, styling_target y h = true) hs.
Proof.
  induction hs as [|x hs IH]; [done|].
  rewrite bind_cons, attribute_sets_app, attribute_sets_enum_calls, IH.
  destruct (styling_target y x) eqn:Hx; simpl.
  - by rewrite filter_cons_True.
  - rewrite filter_cons_False; [done|]. by rewrite Hx.
Qed.

Lemma calls_on_filtered (P : HWND → bool) (v : Z) (hs : list HWND) (h : HWND) :
  NoDup hs →
  length (filter (λ c : HWND * Z, c.1 = h)
            ((λ x, (x, v)) <$> filter (λ x, P x = true) hs))
  = if bool_decide (h ∈ hs) && P h then 1%nat else 0%nat.
Proof.
  induction 1 as [|x hs Hx Hnd IH]; [done|].
  destruct (P x) eqn:Px.
  - rewrite filter_cons_True by done. rewrite fmap_cons.
    destruct (decide (x = h)) as [->|Hne].
    + rewrite filter_cons_True by done. simpl. rewrite IH.
      rewrite (bool_decide_eq_false_2 _ Hx).
      rewrite (bool_decide_eq_true_2 (h ∈ h :: hs)) by (by left).
      by rewrite Px.
    + rewrite filter_cons_False by done. rewrite IH.
      destruct (decide (h ∈ hs)) as [Hin|Hin].
      * rewrite (bool_decide_eq_true_2 _ Hin).
        by rewrite (bool_decide_eq_true_2 (h ∈ x :: hs)) by (by right).
      * rewrite (bool_decide_eq_false_2 _ Hin).
        rewrite (bool_decide_eq_false_2 (h ∈ x :: hs)); [done|].
        rewrite elem_of_cons. by intros [?|?].
  - rewrite filter_cons_False by (by rewrite Px). rewrite IH.
    destruct (decide (h = x)) as [->|Hne].
    + rewrite Px, !andb_false_r. done.
    + destruct (decide (h ∈ hs)) as [Hin|Hin].
      * rewrite (bool_decide_eq_true_2 _ Hin).
        by rewrite (bool_decide_eq_true_2 (h ∈ x :: hs)) by (by right).
      * rewrite (bool_decide_eq_false_2 _ Hin).
        rewrite (bool_decide_eq_false_2 (h ∈ x :: hs)); [done|].
        rewrite elem_of_cons. by intros [?|?].
Qed.

Lemma ApplyToAllWindows_swept b s : swept b (final (ApplyToAllWindows b) s).
Proof.
  intros h. unfold final. rewrite ApplyToAllWindows_run; simpl.
  change (bool_decide (h ∈ sys_toplevel ?y) && restyled ?y h)
    with (sweep_reaches y h).
  rewrite (sweep_reaches_same_windows _ _ h (sweep_same_windows _ _ _ _)).
  unfold sweep_reaches. rewrite dark_attr_sweep. by intros ->.
Qed.

Lemma ApplyToAllWindows_on_swept b s :
  swept b s →
  dark_attr (world (final (ApplyToAllWindows b) s)) = dark_attr (world s)
  ∧ same_windows (sys (world (final (ApplyToAllWindows b) s))) (sys (world s)).
Proof.
  intros Hs. unfold final. rewrite ApplyToAllWindows_run; simpl.
  split; [|apply sweep_same_windows].
  apply map_eq. intros h. rewrite dark_attr_sweep.
  destruct (_ && _) eqn:E; [|done]. symmetry. by apply Hs.
Qed.

Lemma swept_same_windows b s s' :
  same_windows (sys (world s')) (sys (world s)) →
  dark_attr (world s') = dark_attr (world s) →
  swept b s → swept b s'.
Proof.
  intros Hy Hd Hs h. rewrite Hd.
  change (bool_decide (h ∈ sys_toplevel ?y) && restyled ?y h)
    with (sweep_reaches y h).
  rewrite (sweep_reaches_same_windows _ _ h Hy). apply Hs.
Qed.

Lemma repeat_sweep_on_swept b n s :
  swept b s →
  dark_attr (world (final (repeat_call n (ApplyToAllWindows b)) s))
  = dark_attr (world s).
Proof.
  revert s. induction n as [|n IH]; intros s Hs; [done|].
  simpl. rewrite final_bind.
  destruct (ApplyToAllWindows_on_swept b s Hs) as [Hd Hy].
  rewrite IH; [done|]. by apply (swept_same_windows b s).
Qed.

Lemma styling_call_on_filter_queries y x ev :
  ev ∈ enum_filter_queries y x → styling_call_on ev = None.
Proof.
  unfold enum_filter_queries. rewrite elem_of_cons, elem_of_app.
  intros [-> | [H | H]]; [done | |].
  - destruct (parent_of y x =? 0); [by apply elem_of_nil in H|].
    by apply list_elem_of_singleton in H as ->.
  - destruct (parent_is_desktop_or_absent y x); [|by apply elem_of_nil in H].
    apply elem_of_cons in H as [-> | H]; [done|].
    destruct (_ =? 0); [by apply elem_of_nil in H|].
    by apply list_elem_of_singleton in H as ->.
Qed.

Lemma styling_call_on_styling_calls y b x ev :
  ev ∈ styling_calls y b x → styling_call_on ev = Some x.
Proof.
  unfold styling_calls, eligibility_queries. rewrite elem_of_app.
  intros [H | H].
  - destruct (x =? 0); [by apply elem_of_nil in H|].
    apply elem_of_cons in H as [-> | H]; [done|].
    destruct (is_live y x); [|by apply elem_of_nil in H].
    apply elem_of_cons in H as [-> | H]; [done|].
    by apply list_elem_of_singleton in H as ->.
  - destruct (eligible y x); [|by apply elem_of_nil in H].
    apply elem_of_cons in H as [-> | H]; [done|].
    destruct (SUCCEEDED _); [|by apply elem_of_nil in H].
    apply elem_of_cons in H as [-> | H]; [done|].
    by apply list_elem_of_singleton in H as ->.
Qed.

Lemma restyled_owned y h :
  restyled y h = true →
  parent_is_desktop_or_absent y h = true ∧ owned_by_current_process y h = true.
Proof.
  unfold restyled, styling_target, passes_enum_filter.
  rewrite !andb_true_iff. tauto.
Qed.

(** ** The theme-change check, run *)

Lemma attr_value_wrap32_bool b : b = 0 ∨ b = 1 → attr_value (wrap32 b) = b.
Proof. by intros [-> | ->]. Qed.

(** The calls of [theme_change_check] on a theme-change message in a
    process the gate lets through. *)
Lemma theme_change_check_run Msg s :
  result IsProcessExcluded s = FALSE →
  is_theme_message Msg = true →
  let s0 := final IsProcessExcluded s in
  let theme := result IsSystemDarkMode s0 in
  let s1 := final IsSystemDarkMode s0 in
  let s2 := {| world := world s1; globals := set_g_isDarkMode theme (globals s1) |} in
  theme_change_check Msg s =
  if theme =? g_isDarkMode (globals s) then
    (tt, s1, trace IsProcessExcluded s ++ trace IsSystemDarkMode s0)
  else
    (tt, final (ApplyToAllWindows theme) s2,
     trace IsProcessExcluded s ++ trace IsSystemDarkMode s0
     ++ [EvGetCurrentProcessId (sys_pid (sys (world s)));
         EvWh_Log "[Process %d] Theme changed to %s mode"
           [ArgInt (sys_pid (sys (world s)));
            ArgText (if theme =? 0 then "LIGHT" else "DARK")]]
     ++ trace (ApplyToAllWindows theme) s2).
Proof.
  intros Hex Hmsg s0 theme s1 s2.
  assert (Hc : g_isDarkMode (globals s1) = g_isDarkMode (globals s)).
  { destruct (IsSystemDarkMode_quiet s0) as (_ & G1 & _).
    destruct (IsProcessExcluded_quiet s) as (_ & G0 & _).
    subst s1 s0. congruence. }
  assert (Hw : world s1 = world s).
  { destruct (IsSystemDarkMode_quiet s0) as (W1 & _).
    destruct (IsProcessExcluded_quiet s) as (W0 & _).
    subst s1 s0. congruence. }
  unfold theme_change_check.
  unfold mbind at 1, M_bind at 1.
  rewrite (run_eta IsProcessExcluded s), Hex, Hmsg; simpl.
  unfold mbind at 1, M_bind at 1.
  rewrite (run_eta IsSystemDarkMode (final IsProcessExcluded s)).
  fold s0. fold theme. fold s1.
  unfold mbind at 1, M_bind at 1. unfold get at 1. simpl.
  rewrite Hc.
  destruct (theme =? g_isDarkMode (globals s)); simpl.
  - by rewrite !app_nil_r.
  - unfold GetCurrentProcessId, Wh_Log.
    unfold mbind, M_bind, put, ask, emit, get; simpl. fold s2.
    rewrite (run_eta (ApplyToAllWindows theme) s2). rewrite Hw. simpl.
    by destruct (result (ApplyToAllWindows theme) s2).
Qed.

Lemma NtUserCreateWindowEx_hook_cache C args s :
  g_isDarkMode (globals (final (NtUserCreateWindowEx_hook C args) s))
  = g_isDarkMode (globals s).
Proof.
  unfold NtUserCreateWindowEx_hook. rewrite !final_bind.
  unfold final at 1; simpl.
  set (h := result (NtUserCreateWindowEx_orig C args) s).
  assert (E : g_isDarkMode (globals (final (NtUserCreateWindowEx_orig C args) s))
              = g_isDarkMode (globals s)).
  { unfold final. by rewrite NtUserCreateWindowEx_orig_run. }
  destruct (h =? 0); simpl; [done|].
  destruct (NewWindowShown_inner h (final (NtUserCreateWindowEx_orig C args) s))
    as (_ & G & _).
  congruence.
Qed.

Lemma Wh_ModInit_cache s :
  g_isDarkMode (globals (final Wh_ModInit s))
  = if result IsProcessExcluded s =? 0
    then result IsSystemDarkMode (final IsProcessExcluded s)
    else g_isDarkMode (globals s).
Proof.
  unfold Wh_ModInit.
  rewrite final_bind, final_Wh_Log, final_bind, final_log_pid, final_bind.
  destruct (result IsProcessExcluded s =? 0); simpl.
  - rewrite final_bind.
    set (s0 := final IsProcessExcluded s).
    set (theme := result IsSystemDarkMode s0).
    rewrite final_bind.
    set (s2 := final (put (set_g_isDarkMode theme)) (final IsSystemDarkMode s0)).
    assert (E : g_isDarkMode (globals s2) = theme) by done.
    rewrite <- E.
    assert (respects inner
              (pid ← GetCurrentProcessId;
               dark ← get g_isDarkMode;
               Wh_Log "[Process %d] Initial theme mode: %s"
                 [ArgInt pid; ArgText (if dark =? 0 then "LIGHT" else "DARK")];;
               ok ← Wh_SetFunctionHook HookDefWindowProcW;
               (if ok =? 0
                then log_pid "[Process %d] ERROR: Failed to hook DefWindowProcW"
                else log_pid "[Process %d] Successfully hooked DefWindowProcW");;
               hook_window_creation)) as Hrest
      by respects_walk_down inner_leaf.
    by destruct (Hrest s2) as (_ & G & _).
  - rewrite final_bind, final_log_pid, final_bind, final_Wh_Log.
    unfold final at 1; simpl. apply IsProcessExcluded_quiet.
Qed.

Lemma theme_change_check_cache Msg s :
  g_isDarkMode (globals (final (theme_change_check Msg) s))
  = let theme := result IsSystemDarkMode (final IsProcessExcluded s) in
    if (result IsProcessExcluded s =? 0) && is_theme_message Msg
       && negb (theme =? g_isDarkMode (globals s))
    then theme else g_isDarkMode (globals s).
Proof.
  simpl.
  destruct (Z.eqb_spec (result IsProcessExcluded s) 0) as [Hex|Hex]; simpl.
  - destruct (is_theme_message Msg) eqn:Hm; simpl.
    + pose proof (theme_change_check_run Msg s Hex Hm) as Hrun.
      cbv zeta in Hrun. unfold final at 1. rewrite Hrun.
      destruct (_ =? g_isDarkMode _); simpl.
      * destruct (IsSystemDarkMode_quiet (final IsProcessExcluded s))
          as (_ & G1 & _).
        destruct (IsProcessExcluded_quiet s) as (_ & G0 & _). congruence.
      * match goal with
        | |- context [final (ApplyToAllWindows ?b) ?s2] =>
            destruct (ApplyToAllWindows_inner b s2) as (_ & G & _)
        end.
        by rewrite G.
    + unfold theme_change_check. rewrite final_bind.
      apply Z.eqb_eq in Hex. rewrite Hex, Hm. simpl.
      unfold final at 1; simpl. apply IsProcessExcluded_quiet.
  - unfold theme_change_check. rewrite final_bind.
    apply Z.eqb_neq in Hex. rewrite Hex. simpl.
    unfold final at 1; simpl. apply IsProcessExcluded_quiet.
Qed.

Lemma resolution_attempts_app t1 t2 :
  resolution_attempts (t1 ++ t2)
  = (resolution_attempts t1 + resolution_attempts t2)%nat.
Proof. unfold resolution_attempts. by rewrite filter_app, length_app. Qed.

Lemma resolution_attempts_registry pre :
  Forall (λ ev, is_registry_call ev = true) pre → resolution_attempts pre = 0%nat.
Proof.
  unfold resolution_attempts. induction 1 as [|ev pre Hev _ IH]; [done|].
  rewrite filter_cons_False; [done|]. by destruct ev.
Qed.

Lemma resolution_attempts_fallback s :
  resolution_attempts (trace uxtheme_fallback s)
  = if g_ShouldSystemUseDarkMode (globals s) =? 0 then 1%nat else 0%nat.
Proof.
  unfold trace. rewrite uxtheme_fallback_run; simpl.
  rewrite resolution_attempts_app.
  replace (resolution_attempts
             (if available_probe s =? 0 then []
              else [EvCallPointer (available_probe s)
                      (sys_call (sys (world s)) (available_probe s))]))
    with 0%nat by (by destruct (_ =? 0)).
  destruct (_ =? 0); [|done].
  unfold resolution_attempts. rewrite filter_cons_True by done.
  by destruct (_ =? 0).
Qed.

(** * The claims *)

(** C1: on a theme-change message in a process that is not excluded, the
    default-message hook asks the Theme Oracle again; when the answer is the
    cached theme it sets no attribute, and when it differs it stores the
    answer and sets the attribute, to the new theme, once on each eligible
    top-level window of the process. *)
Theorem theme_change_restyles_each_window_once
    (D : HWND → Z → Z → Z → World → Z * World)
    (s : State) (hWnd : HWND) (Msg wParam lParam : Z) :
  result IsProcessExcluded s = FALSE →
  Msg = WM_DWMCOLORIZATIONCOLORCHANGED ∨ Msg = WM_SETTINGCHANGE →
  let y := sys (world s) in
  let s0 := final IsProcessExcluded s in
  let theme := result IsSystemDarkMode s0 in
  let hook := DefWindowProc_hook D hWnd Msg wParam lParam in
  (∃ rest, trace hook s
           = trace IsProcessExcluded s ++ trace IsSystemDarkMode s0 ++ rest)
  ∧ (theme = g_isDarkMode (globals s) →
     attribute_sets (trace hook s) = []
     ∧ g_isDarkMode (globals (final hook s)) = g_isDarkMode (globals s))
  ∧ (theme ≠ g_isDarkMode (globals s) →
     g_isDarkMode (globals (final hook s)) = theme
     ∧ attribute_sets (trace hook s)
       = (λ h, (h, theme))
           <$> filter (λ h, styling_target y h = true) (sys_toplevel y)
     ∧ (NoDup (sys_toplevel y) →
        ∀ h, attribute_set_calls_on h (trace hook s)
             = if bool_decide (h ∈ sys_toplevel y) && styling_target y h
               then 1%nat else 0%nat)).
Proof.
  intros Hex Hmsg y s0 theme hook.
  assert (Hm : is_theme_message Msg = true).
  { unfold is_theme_message. by destruct Hmsg as [-> | ->]. }
  pose proof (theme_change_check_run Msg s Hex Hm) as Hrun.
  cbv zeta in Hrun. fold s0 in Hrun. fold theme in Hrun.
  destruct (IsSystemDarkMode_quiet s0) as (W1 & G1 & A1 & _).
  destruct (IsProcessExcluded_quiet s) as (W0 & G0 & A0 & _).
  fold s0 in W0, G0.
  set (s1 := final IsSystemDarkMode s0) in *.
  set (s2 := {| world := world s1;
                globals := set_g_isDarkMode theme (globals s1) |}) in *.
  assert (Hy : sys (world s2) = y) by (simpl; subst y; congruence).
  assert (Ht : trace hook s
               = trace (theme_change_check Msg) s
                 ++ trace (DefWindowProc_orig D hWnd Msg wParam lParam)
                      (final (theme_change_check Msg) s)).
  { unfold hook, DefWindowProc_hook. by rewrite trace_bind. }
  assert (Hf : globals (final hook s)
               = globals (final (theme_change_check Msg) s)).
  { unfold hook, DefWindowProc_hook. rewrite final_bind.
    unfold final at 1, DefWindowProc_orig.
    by destruct (D hWnd Msg wParam lParam _). }
  destruct (Z.eqb_spec theme (g_isDarkMode (globals s))) as [Heq|Hne].
  - assert (Etr : trace (theme_change_check Msg) s
                  = trace IsProcessExcluded s ++ trace IsSystemDarkMode s0)
      by (unfold trace at 1; by rewrite Hrun).
    assert (Efin : final (theme_change_check Msg) s = s1)
      by (unfold final at 1; by rewrite Hrun).
    split; [|split; [|done]].
    + rewrite Ht, Etr. eexists. by rewrite <- !app_assoc.
    + intros _. split.
      * rewrite Ht, attribute_sets_app, attribute_sets_original, app_nil_r.
        by rewrite Etr, attribute_sets_app, A0, A1.
      * rewrite Hf, Efin. congruence.
  - assert (Etr : trace (theme_change_check Msg) s
                  = trace IsProcessExcluded s ++ trace IsSystemDarkMode s0
                    ++ [EvGetCurrentProcessId (sys_pid (sys (world s)));
                        EvWh_Log "[Process %d] Theme changed to %s mode"
                          [ArgInt (sys_pid (sys (world s)));
                           ArgText (if theme =? 0 then "LIGHT" else "DARK")]]
                    ++ trace (ApplyToAllWindows theme) s2)
      by (unfold trace at 1; by rewrite Hrun).
    assert (Efin : final (theme_change_check Msg) s
                   = final (ApplyToAllWindows theme) s2)
      by (unfold final at 1; by rewrite Hrun).
    split; [|split; [done|]].
    + rewrite Ht, Etr. eexists. by rewrite <- !app_assoc.
    + intros _.
      assert (Hsets : attribute_sets (trace hook s)
                = (λ h, (h, theme)) <$>
                    filter (λ h, styling_target y h = true) (sys_toplevel y)).
      { rewrite Ht, attribute_sets_app, attribute_sets_original, app_nil_r.
        rewrite Etr, !attribute_sets_app, A0, A1; simpl.
        unfold trace. rewrite ApplyToAllWindows_run; simpl.
        change (attribute_sets (EvEnumWindows :: ?t)) with (attribute_sets t).
        rewrite attribute_sets_sweep, W1, W0.
        rewrite attr_value_wrap32_bool by apply IsSystemDarkMode_bool.
        done. }
      split; [|split; [done|]].
      * rewrite Hf, Efin.
        destruct (ApplyToAllWindows_inner theme s2) as (_ & G2 & _).
        by rewrite G2.
      * intros Hnd h. unfold attribute_set_calls_on. rewrite Hsets.
        by apply calls_on_filtered.
Qed.

Lemma theme_change_restyles_each_window_once_witness :
  result IsProcessExcluded (fresh demo_system) = FALSE
  ∧ attribute_sets
      (trace (DefWindowProc_hook sample_DefWindowProcW 100 WM_SETTINGCHANGE 0 0)
         (fresh demo_system))
    = [(100, 1); (102, 1)].
Proof.
  split; [reflexivity|].
  destruct (theme_change_restyles_each_window_once sample_DefWindowProcW
              (fresh demo_system) 100 WM_SETTINGCHANGE 0 0
              eq_refl (or_intror eq_refl)) as (_ & _ & H).
  destruct H as (_ & H & _); [by vm_compute|].
  rewrite H. by vm_compute.
Defined.

(** C2: [IsSystemDarkMode] answers dark when the preference is read as 0 and
    light when it is read as anything else, in both cases without resolving
    or calling the probe; when the preference cannot be read it answers what
    the probe answers (dark for any non-zero value), and light when there is
    no probe to call. *)
Theorem IsSystemDarkMode_cases (s : State) :
  let y := sys (world s) in
  let t := trace IsSystemDarkMode s in
  (preference_read y = Some 0 → result IsSystemDarkMode s = TRUE) ∧
  (∀ v, v ≠ 0 → preference_read y = Some v →
        result IsSystemDarkMode s = FALSE) ∧
  (∀ v, preference_read y = Some v →
        Forall (λ ev, is_probe_resolution ev = false
                      ∧ is_probe_call ev = false) t) ∧
  (preference_read y = None → available_probe s ≠ 0 →
     result IsSystemDarkMode s
       = Z.b2z (negb (sys_call y (available_probe s) =? 0)) ∧
     EvCallPointer (available_probe s) (sys_call y (available_probe s)) ∈ t) ∧
  (preference_read y = None → available_probe s = 0 →
     result IsSystemDarkMode s = FALSE).
Proof.
  intros y t; subst y t. repeat split.
  - intros H. unfold result. by rewrite (IsSystemDarkMode_read s 0 H).
  - intros v Hv H. unfold result. rewrite (IsSystemDarkMode_read s v H); simpl.
    by destruct (Z.eqb_spec v 0).
  - intros v H. unfold trace. rewrite (IsSystemDarkMode_read s v H); simpl.
    by repeat constructor.
  - destruct (IsSystemDarkMode_unread s H) as (pre & _ & E).
    unfold result. rewrite E; simpl. unfold result.
    rewrite uxtheme_fallback_run; simpl.
    by destruct (Z.eqb_spec (available_probe s) 0).
  - destruct (IsSystemDarkMode_unread s H) as (pre & _ & E).
    unfold trace at 1. rewrite E; simpl. unfold trace.
    rewrite uxtheme_fallback_run; simpl.
    destruct (Z.eqb_spec (available_probe s) 0); [done|].
    rewrite !elem_of_app. right. right. by left.
  - intros H H0. destruct (IsSystemDarkMode_unread s H) as (pre & _ & E).
    unfold result. rewrite E; simpl. unfold result.
    rewrite uxtheme_fallback_run; simpl. by rewrite H0.
Qed.

Lemma IsSystemDarkMode_cases_witness :
  result IsSystemDarkMode (fresh demo_system) = TRUE
  ∧ result IsSystemDarkMode (fresh (with_preference 1 demo_system)) = FALSE
  ∧ result IsSystemDarkMode (fresh (with_probe 1 (no_preference demo_system)))
    = TRUE
  ∧ result IsSystemDarkMode (fresh (no_preference demo_system)) = FALSE.
Proof.
  split; [|split; [|split]].
  - by apply (IsSystemDarkMode_cases (fresh demo_system)).
  - by apply (IsSystemDarkMode_cases
             (fresh (with_preference 1 demo_system))) with 1.
  - by apply (IsSystemDarkMode_cases
             (fresh (with_probe 1 (no_preference demo_system)))).
  - by apply (IsSystemDarkMode_cases (fresh (no_preference demo_system))).
Defined.

(** C3: a bordered popup of the process (window 102: [WS_POPUP | WS_BORDER],
    no [WS_DLGFRAME]) has no caption in its style, yet [IsWindowEligible]
    answers [TRUE] for it and [ApplyDarkMode] sets its attribute: the test of
    line 137 lets a style through as soon as it has one of the two bits of
    [WS_CAPTION]. *)
Theorem IsWindowEligible_accepts_uncaptioned_window :
  style_has_caption (window_long demo_system 102 GWL_STYLE) = false
  ∧ result (IsWindowEligible 102) (fresh demo_system) = TRUE
  ∧ dark_attr (world (fresh demo_system)) !! 102 = None
  ∧ dark_attr (world (final (ApplyDarkMode 102 TRUE) (fresh demo_system))) !! 102
    = Some TRUE.
Proof. by vm_compute. Qed.

(** C4: a second [ApplyToAllWindows] with the same argument leaves every
    window's attribute as the first left it, but it is not invisible: the
    redraw call of [ApplyDarkMode] asks to keep the Z order ([SWP_NOZORDER])
    and holds no [SWP_NOACTIVATE], so each window it restyles is activated and
    raised again.  In a process with the two captioned windows 100 and 105,
    the first sweep leaves 105 active and in front; the second leaves 100
    active and in front. *)
Theorem repeated_sweep_activates_and_reorders :
  let s1 := final (ApplyToAllWindows TRUE) (fresh two_windows) in
  let s2 := final (ApplyToAllWindows TRUE) s1 in
  Z.land redraw_flags SWP_NOZORDER = SWP_NOZORDER
  ∧ Z.land redraw_flags SWP_NOACTIVATE = 0
  ∧ style_has_caption (window_long two_windows 100 GWL_STYLE) = true
  ∧ style_has_caption (window_long two_windows 105 GWL_STYLE) = true
  ∧ dark_attr (world s2) = dark_attr (world s1)
  ∧ sys_toplevel (sys (world s1)) = [105; 100; 101]
  ∧ active_window (world s1) = 105
  ∧ sys_toplevel (sys (world s2)) = [100; 105; 101]
  ∧ active_window (world s2) = 100.
Proof. by vm_compute. Qed.

(** C5: [EnumWindowsProc] hands a window to [ApplyDarkMode] exactly when its
    parent is the desktop or absent and its process id is the current one;
    every call a sweep makes about a window is about such a window, and a
    window of another process keeps its attribute and its redraw count. *)
Theorem sweep_touches_only_own_top_level_windows (s : State) (b : BOOL) :
  let y := sys (world s) in
  let s' := final (ApplyToAllWindows b) s in
  (∀ h l,
     EnumWindowsProc h l s =
     if parent_is_desktop_or_absent y h && owned_by_current_process y h
     then (TRUE, final (ApplyDarkMode h (wrap32 l)) s,
           enum_filter_queries y h ++ trace (ApplyDarkMode h (wrap32 l)) s)
     else (TRUE, s, enum_filter_queries y h))
  ∧ (∀ h ev, ev ∈ enum_filter_queries y h → styling_call_on ev = None)
  ∧ (∀ ev h,
       ev ∈ trace (ApplyToAllWindows b) s → styling_call_on ev = Some h →
       h ∈ sys_toplevel y
       ∧ parent_is_desktop_or_absent y h = true
       ∧ owned_by_current_process y h = true)
  ∧ (∀ h, owned_by_current_process y h = false →
       dark_attr (world s') !! h = dark_attr (world s) !! h
       ∧ frame_redraws (world s') !! h = frame_redraws (world s) !! h).
Proof.
  intros y s'. split; [|split; [|split]].
  - intros h l. rewrite EnumWindowsProc_run. unfold enum_calls, enum_step.
    fold y. change (passes_enum_filter y h)
      with (parent_is_desktop_or_absent y h && owned_by_current_process y h).
    destruct (_ && _).
    + unfold final, trace. by rewrite ApplyDarkMode_run.
    + rewrite app_nil_r. by destruct s.
  - intros h ev. apply styling_call_on_filter_queries.
  - intros ev h. unfold trace. rewrite ApplyToAllWindows_run; simpl. fold y.
    rewrite elem_of_cons. intros [-> | Hev]; [done|].
    apply list_elem_of_bind in Hev as (x & Hev & Hx).
    unfold enum_calls in Hev. apply elem_of_app in Hev as [Hev | Hev].
    + by rewrite (styling_call_on_filter_queries _ _ _ Hev).
    + destruct (passes_enum_filter y x) eqn:Hp; [|by apply elem_of_nil in Hev].
      rewrite (styling_call_on_styling_calls _ _ _ _ Hev). intros [= <-].
      unfold passes_enum_filter in Hp. by apply andb_true_iff in Hp as [? ?].
  - intros h Hh. subst s'. unfold final. rewrite ApplyToAllWindows_run; simpl.
    fold y. assert (restyled y h = false) as Hr.
    { destruct (restyled y h) eqn:E; [|done].
      apply restyled_owned in E as [_ E]. congruence. }
    rewrite dark_attr_sweep, frame_redraws_sweep_other;
      rewrite Hr, andb_false_r; done.
Qed.

Lemma sweep_touches_only_own_top_level_windows_witness :
  owned_by_current_process demo_system 100 = true
  ∧ dark_attr (world (final (ApplyToAllWindows TRUE) (fresh demo_system))) !! 101
    = None.
Proof.
  pose proof (sweep_touches_only_own_top_level_windows (fresh demo_system) TRUE)
    as (_ & _ & Hcalls & Hother).
  split.
  - apply (Hcalls (EvDwmSetWindowAttribute 100 DWMWA_USE_IMMERSIVE_DARK_MODE
                     TRUE 0) 100); [|done].
    vm_compute. do 8 right. by left.
  - by apply (Hother 101).
Defined.

(** C6: both hooks are transparent.  The creation hook calls the original
    first, once, with the arguments it was given and returns the handle the
    original returned; the message hook ends by calling the original, once,
    with the arguments it was given and returns what it returned; in an
    excluded process the original runs on the world the hook found. *)
Theorem hooks_are_transparent
    (D : HWND → Z → Z → Z → World → Z * World)
    (C : CreateArgs → World → HWND * World) (s : State) :
  (∀ args,
     let hook := NtUserCreateWindowEx_hook C args in
     result hook s = (C args (world s)).1
     ∧ ∃ rest,
         trace hook s
         = EvNtUserCreateWindowEx_orig args (C args (world s)).1 :: rest
         ∧ Forall (λ ev, is_original_call ev = false) rest)
  ∧ (∀ hWnd Msg wParam lParam,
       let hook := DefWindowProc_hook D hWnd Msg wParam lParam in
       let before := theme_change_check Msg in
       let original := D hWnd Msg wParam lParam (world (final before s)) in
       result hook s = original.1
       ∧ world (final hook s) = original.2
       ∧ trace hook s
         = trace before s
           ++ [EvDefWindowProc_orig hWnd Msg wParam lParam original.1]
       ∧ Forall (λ ev, is_original_call ev = false) (trace before s)
       ∧ (result IsProcessExcluded s ≠ FALSE →
          world (final before s) = world s)).
Proof.
  split.
  - intros args hook. subst hook. unfold NtUserCreateWindowEx_hook.
    rewrite result_bind, trace_bind.
    unfold result at 2, final at 1, trace at 1.
    rewrite NtUserCreateWindowEx_orig_run; simpl.
    split; [by rewrite result_bind|].
    eexists. split; [done|].
    rewrite trace_bind. apply Forall_app. split; [|by constructor].
    destruct (_ =? 0); simpl; [by constructor|].
    apply inner_no_original. apply NewWindowShown_inner.
  - intros hWnd Msg wParam lParam hook before original.
    subst hook. unfold DefWindowProc_hook.
    rewrite result_bind, final_bind, trace_bind. fold before.
    assert (E : DefWindowProc_orig D hWnd Msg wParam lParam (final before s)
                = (original.1,
                   {| world := original.2; globals := globals (final before s) |},
                   [EvDefWindowProc_orig hWnd Msg wParam lParam original.1]))
      by apply DefWindowProc_orig_run.
    unfold result, final, trace in *. rewrite E; simpl.
    split; [done|split; [done|split; [done|split]]].
    + apply theme_change_check_no_original.
    + intros Hex. subst before. fold (final (theme_change_check Msg) s).
      unfold theme_change_check. rewrite final_bind.
      destruct (Z.eqb_spec (result IsProcessExcluded s) 0); [done|]. simpl.
      unfold final at 1; simpl. apply IsProcessExcluded_quiet.
Qed.

Lemma hooks_are_transparent_witness :
  result (NtUserCreateWindowEx_hook sample_NtUserCreateWindowEx sample_args)
    (fresh demo_system) = 200
  ∧ result (DefWindowProc_hook sample_DefWindowProcW 100 WM_SETTINGCHANGE 0 0)
      (fresh (in_settings_app demo_system)) = 5
  ∧ world (final (theme_change_check WM_SETTINGCHANGE)
             (fresh (in_settings_app demo_system)))
    = world (fresh (in_settings_app demo_system)).
Proof.
  split; [|split].
  - apply (hooks_are_transparent sample_DefWindowProcW
             sample_NtUserCreateWindowEx (fresh demo_system)).
  - apply (hooks_are_transparent sample_DefWindowProcW
             sample_NtUserCreateWindowEx (fresh (in_settings_app demo_system))).
  - apply (hooks_are_transparent sample_DefWindowProcW
             sample_NtUserCreateWindowEx (fresh (in_settings_app demo_system))
          ); [exact 0 | exact 0 | exact 0 | by vm_compute].
Defined.

(** C7, as the code has it: the probe is looked up the first time the
    preference cannot be read, and the pointer is kept when the lookup
    succeeds: from then on nothing in the process resolves it again.  When
    the lookup fails the pointer stays null, and the next call that cannot
    read the preference looks it up again. *)
Theorem probe_is_memoized_once_resolved
    (D : HWND → Z → Z → Z → World → Z * World)
    (C : CreateArgs → World → HWND * World) (s : State) :
  let y := sys (world s) in
  let s' := final IsSystemDarkMode s in
  let attempts := resolution_attempts (trace IsSystemDarkMode s) in
  (g_ShouldSystemUseDarkMode (globals s) = 0 → preference_read y = None →
     attempts = 1%nat
     ∧ g_ShouldSystemUseDarkMode (globals s') = resolve_probe y)
  ∧ (∀ v, preference_read y = Some v →
       attempts = 0%nat
       ∧ g_ShouldSystemUseDarkMode (globals s')
         = g_ShouldSystemUseDarkMode (globals s))
  ∧ (g_ShouldSystemUseDarkMode (globals s) ≠ 0 →
     ∀ es,
       g_ShouldSystemUseDarkMode (globals (final (run_entries D C es) s))
       = g_ShouldSystemUseDarkMode (globals s)
       ∧ Forall (λ ev, is_probe_resolution ev = false)
           (trace (run_entries D C es) s))
  ∧ (g_ShouldSystemUseDarkMode (globals s) = 0 → preference_read y = None →
     resolve_probe y = 0 →
     g_ShouldSystemUseDarkMode (globals s') = 0
     ∧ resolution_attempts (trace IsSystemDarkMode s') = 1%nat).
Proof.
  intros y s' attempts.
  assert (Hunread : g_ShouldSystemUseDarkMode (globals s) = 0 →
            preference_read y = None →
            attempts = 1%nat
            ∧ g_ShouldSystemUseDarkMode (globals s') = resolve_probe y
            ∧ world s' = world s).
  { intros Hp Hread. subst attempts s'.
    destruct (IsSystemDarkMode_unread s Hread) as (pre & Hpre & E).
    unfold trace at 1, final. rewrite E; simpl.
    rewrite resolution_attempts_app, (resolution_attempts_registry _ Hpre).
    rewrite resolution_attempts_fallback, Hp; simpl.
    split; [done|]. unfold final. rewrite uxtheme_fallback_run; simpl.
    unfold available_probe. by rewrite Hp. }
  split; [|split; [|split]].
  - intros Hp Hread. by destruct (Hunread Hp Hread) as (? & ? & _).
  - intros v Hread. subst attempts s'. unfold trace, final.
    by rewrite (IsSystemDarkMode_read s v Hread).
  - intros Hp es. by apply (run_entries_memoized D C es s).
  - intros Hp Hread Hfail.
    destruct (Hunread Hp Hread) as (_ & Hg & Hw). rewrite Hfail in Hg.
    split; [done|].
    assert (Hread' : preference_read (sys (world s')) = None) by (by rewrite Hw).
    destruct (IsSystemDarkMode_unread s' Hread') as (pre & Hpre & E).
    unfold trace at 1. rewrite E; simpl.
    rewrite resolution_attempts_app, (resolution_attempts_registry _ Hpre).
    by rewrite resolution_attempts_fallback, Hg.
Qed.

Lemma probe_is_memoized_once_resolved_witness :
  (* the first call resolves the probe, the second does not *)
  g_ShouldSystemUseDarkMode
    (globals (final IsSystemDarkMode
                (fresh (with_probe 1 (no_preference demo_system))))) = 7138
  ∧ Forall (λ ev, is_probe_resolution ev = false)
      (trace (run_entries sample_DefWindowProcW sample_NtUserCreateWindowEx
                [OnMessage 100 WM_SETTINGCHANGE 0 0; OnUnload])
         (final IsSystemDarkMode
            (fresh (with_probe 1 (no_preference demo_system))))).
Proof.
  split.
  - by apply (probe_is_memoized_once_resolved sample_DefWindowProcW
             sample_NtUserCreateWindowEx
             (fresh (with_probe 1 (no_preference demo_system)))).
  - by apply (probe_is_memoized_once_resolved sample_DefWindowProcW
             sample_NtUserCreateWindowEx
             (final IsSystemDarkMode
                (fresh (with_probe 1 (no_preference demo_system))))).
Defined.

(** C7, as stated, fails: with the preference unreadable and uxtheme not
    loaded, the first call of [IsSystemDarkMode] fails to resolve the probe
    and leaves the pointer null, and the second call looks uxtheme up
    again. *)
Lemma failed_probe_resolution_is_retried :
  let s := fresh (no_preference demo_system) in
  let s' := final IsSystemDarkMode s in
  trace IsSystemDarkMode s
  = [EvRegOpenKeyExW 2; EvGetModuleHandleW "uxtheme.dll" 0]
  ∧ g_ShouldSystemUseDarkMode (globals s') = 0
  ∧ trace IsSystemDarkMode s'
    = [EvRegOpenKeyExW 2; EvGetModuleHandleW "uxtheme.dll" 0]
  ∧ resolution_attempts (trace (repeat_call 2 IsSystemDarkMode) s) = 2%nat.
Proof. by vm_compute. Qed.

(** C8, as the code has it: when the attribute-set call of [ApplyDarkMode]
    fails, the call leaves the whole state as it found it (no attribute
    stored, no redraw requested), does not try again, and writes no log
    line. *)
Theorem ApplyDarkMode_failure_changes_nothing
    (s : State) (hWnd : HWND) (useDarkMode : BOOL) (h : HWND) (attr value : Z)
    (hr : HRESULT) :
  EvDwmSetWindowAttribute h attr value hr
    ∈ trace (ApplyDarkMode hWnd useDarkMode) s →
  SUCCEEDED hr = false →
  final (ApplyDarkMode hWnd useDarkMode) s = s
  ∧ attribute_sets (trace (ApplyDarkMode hWnd useDarkMode) s)
    = [(hWnd, attr_value useDarkMode)]
  ∧ Forall (λ ev, is_log ev = false ∧ is_redraw ev = false)
      (trace (ApplyDarkMode hWnd useDarkMode) s).
Proof.
  unfold final, trace. rewrite ApplyDarkMode_run; simpl.
  unfold styling_calls, style_window. set (y := sys (world s)).
  intros Hev Hhr.
  assert (Hq : Forall (λ ev, is_log ev = false ∧ is_redraw ev = false)
                 (eligibility_queries y hWnd)).
  { unfold eligibility_queries. destruct (hWnd =? 0); [by constructor|].
    destruct (is_live y hWnd); by repeat constructor. }
  apply elem_of_app in Hev as [Hev | Hev].
  { exfalso. revert Hev. unfold eligibility_queries.
    destruct (hWnd =? 0); [by intros ?%elem_of_nil|].
    rewrite elem_of_cons. intros [? | Hev]; [done|].
    destruct (is_live y hWnd); [|by apply elem_of_nil in Hev].
    apply elem_of_cons in Hev as [? | Hev]; [done|].
    by apply list_elem_of_singleton in Hev. }
  destruct (eligible y hWnd); [|by apply elem_of_nil in Hev]. simpl.
  destruct (SUCCEEDED (dwm_result y hWnd)) eqn:Hok.
  - exfalso. apply elem_of_cons in Hev as [[= -> -> -> ->] | Hev]; [congruence|].
    apply elem_of_cons in Hev as [? | Hev]; [done|].
    by apply list_elem_of_singleton in Hev.
  - split; [by destruct s|]. split.
    + by rewrite attribute_sets_app, attribute_sets_eligibility_queries.
    + apply Forall_app. split; [done|]. by repeat constructor.
Qed.

Lemma ApplyDarkMode_failure_changes_nothing_witness :
  final (ApplyDarkMode 100 TRUE) (fresh (dwm_failing demo_system))
  = fresh (dwm_failing demo_system).
Proof.
  apply (ApplyDarkMode_failure_changes_nothing
           (fresh (dwm_failing demo_system)) 100 TRUE
           100 DWMWA_USE_IMMERSIVE_DARK_MODE 1 E_FAIL).
  - vm_compute. do 3 right. by left.
  - reflexivity.
Defined.

(** C8, as stated, fails: window 100 is eligible and the compositor refuses
    the attribute ([E_FAIL]); [ApplyDarkMode] makes its one attempt and
    writes nothing to the log. *)
Lemma ApplyDarkMode_failure_is_not_logged :
  trace (ApplyDarkMode 100 TRUE) (fresh (dwm_failing demo_system))
  = [EvIsWindow 100 1;
     EvGetWindowLongW 100 GWL_STYLE WS_OVERLAPPEDWINDOW;
     EvGetWindowLongW 100 GWL_EXSTYLE 0;
     EvDwmSetWindowAttribute 100 DWMWA_USE_IMMERSIVE_DARK_MODE 1 E_FAIL]
  ∧ SUCCEEDED E_FAIL = false
  ∧ filter (λ ev, is_log ev = true)
      (trace (ApplyDarkMode 100 TRUE) (fresh (dwm_failing demo_system))) = [].
Proof. by vm_compute. Qed.

(** C9: when the file name of the executable cannot be had on the first call
    of [IsProcessExcluded], the call answers that the process is not excluded
    and stores that decision; whatever happens in the process afterwards, the
    decision stays, the file name is not asked for again, and a call of
    [IsProcessExcluded] answers not-excluded without making any call. *)
Theorem file_name_failure_is_cached_as_not_excluded
    (D : HWND → Z → Z → Z → World → Z * World)
    (C : CreateArgs → World → HWND * World) (s : State) :
  isExcluded (globals s) = -1 →
  (sys_GetModuleFileNameW (sys (world s))).1 = 0 →
  let s1 := final IsProcessExcluded s in
  result IsProcessExcluded s = FALSE
  ∧ isExcluded (globals s1) = 0
  ∧ ∀ es,
      let s2 := final (run_entries D C es) s1 in
      Forall (λ ev, is_file_name_query ev = false)
        (trace (run_entries D C es) s1)
      ∧ IsProcessExcluded s2 = (FALSE, s2, []).
Proof.
  intros Hx Hq s1.
  assert (E : IsProcessExcluded s
              = (FALSE,
                 {| world := world s; globals := set_isExcluded 0 (globals s) |},
                 [EvGetModuleFileNameW 0])).
  { rewrite IsProcessExcluded_run, Hx; simpl.
    unfold exclusion_decision. by rewrite Hq. }
  assert (H1 : isExcluded (globals s1) = 0).
  { subst s1. unfold final. by rewrite E. }
  split; [unfold result; by rewrite E|]. split; [done|].
  intros es s2.
  destruct (run_entries_memoized D C es s1) as [_ Hm].
  destruct Hm as [Hkeep Hquery]; [by rewrite H1|].
  split; [done|].
  rewrite IsProcessExcluded_run. fold s2 in Hkeep. by rewrite Hkeep, H1.
Qed.

Lemma file_name_failure_is_cached_as_not_excluded_witness :
  result IsProcessExcluded (fresh (no_file_name demo_system)) = FALSE
  ∧ result IsProcessExcluded
      (final (run_entries sample_DefWindowProcW sample_NtUserCreateWindowEx
                [OnLoad; OnCreate sample_args])
         (final IsProcessExcluded (fresh (no_file_name demo_system))))
    = FALSE.
Proof.
  destruct (file_name_failure_is_cached_as_not_excluded
              sample_DefWindowProcW sample_NtUserCreateWindowEx
              (fresh (no_file_name demo_system)) eq_refl eq_refl)
    as (H0 & _ & H).
  split; [exact H0|].
  destruct (H [OnLoad; OnCreate sample_args]) as [_ E].
  unfold result. by rewrite E.
Defined.

(** C10: the theme cache [g_isDarkMode] has two writers.  [Wh_ModInit]
    stores the Theme Oracle's answer in it when the process is not excluded,
    and the default-message hook stores the re-queried theme in it on a
    theme-change message when that theme differs from the cached one.  Every
    other function of the mod, the creation hook included, leaves it as it
    was. *)
Theorem g_isDarkMode_has_two_writers
    (D : HWND → Z → Z → Z → World → Z * World)
    (C : CreateArgs → World → HWND * World) (s : State) :
  let cache (x : State) := g_isDarkMode (globals x) in
  (∀ h b, cache (final (ApplyDarkMode h b) s) = cache s)
  ∧ (∀ b, cache (final (ApplyToAllWindows b) s) = cache s)
  ∧ (∀ h, cache (final (NewWindowShown h) s) = cache s)
  ∧ (∀ args, cache (final (NtUserCreateWindowEx_hook C args) s) = cache s)
  ∧ (∀ h l, cache (final (EnumWindowsProc h l) s) = cache s)
  ∧ (∀ h, cache (final (IsWindowEligible h) s) = cache s)
  ∧ cache (final IsSystemDarkMode s) = cache s
  ∧ cache (final IsProcessExcluded s) = cache s
  ∧ cache (final Wh_ModAfterInit s) = cache s
  ∧ cache (final Wh_ModUninit s) = cache s
  ∧ cache (final Wh_ModInit s)
    = (if result IsProcessExcluded s =? 0
       then result IsSystemDarkMode (final IsProcessExcluded s)
       else cache s)
  ∧ (∀ hWnd Msg wParam lParam,
       cache (final (DefWindowProc_hook D hWnd Msg wParam lParam) s)
       = let theme := result IsSystemDarkMode (final IsProcessExcluded s) in
         if (result IsProcessExcluded s =? 0) && is_theme_message Msg
            && negb (theme =? cache s)
         then theme else cache s).
Proof.
  intros cache. subst cache. simpl.
  repeat match goal with |- _ ∧ _ => split end.
  - intros h b. apply ApplyDarkMode_inner.
  - intros b. apply ApplyToAllWindows_inner.
  - intros h. apply NewWindowShown_inner.
  - intros args. apply NtUserCreateWindowEx_hook_cache.
  - intros h l. apply EnumWindowsProc_inner.
  - intros h. apply IsWindowEligible_quiet.
  - apply IsSystemDarkMode_quiet.
  - apply IsProcessExcluded_quiet.
  - apply Wh_ModAfterInit_inner.
  - apply Wh_ModUninit_inner.
  - apply Wh_ModInit_cache.
  - intros hWnd Msg wParam lParam. unfold DefWindowProc_hook.
    rewrite final_bind. unfold final at 1.
    rewrite DefWindowProc_orig_run; simpl.
    apply (theme_change_check_cache Msg s).
Qed.

(** * Further properties *)

(** ** The process-exclusion gate *)

Lemma wcscmp_eq a b : wcscmp a b = 0 ↔ a = b.
Proof.
  revert b. induction a as [|x a IH]; intros [|y b]; simpl; try done.
  destruct (Z.eqb_spec x y) as [->|Hne].
  - rewrite IH. split; [by intros ->|by intros [= ->]].
  - destruct (x <? y); split; try done; by intros [= -> _].
Qed.

Lemma on_denylist_elem_of name l :
  on_denylist name l = bool_decide (name ∈ l).
Proof.
  unfold on_denylist. induction l as [|e l IH]; simpl; [done|].
  rewrite IH. destruct (Z.eqb_spec (wcscmp name e) 0) as [H|H]; simpl.
  - apply wcscmp_eq in H as ->. symmetry. apply bool_decide_eq_true_2. by left.
  - destruct (decide (name ∈ l)) as [Hin|Hin].
    + rewrite !bool_decide_eq_true_2; [done | by right | done].
    + rewrite !bool_decide_eq_false_2; [done | | done].
      rewrite elem_of_cons. intros [-> | ?]; [|done].
      apply H. by apply wcscmp_eq.
Qed.

Lemma c_str_no_nul buf : 0 ∉ buf → c_str buf = buf.
Proof.
  induction buf as [|c buf IH]; simpl; [done|]. intros H.
  destruct (Z.eqb_spec c 0) as [->|_]; [exfalso; apply H; by left|].
  rewrite IH; [done|]. intros ?. apply H. by right.
Qed.

Lemma wcsrchr_absent s c : c ∉ s → wcsrchr s c = None.
Proof.
  induction s as [|x s IH]; simpl; [done|]. intros H.
  rewrite IH by (intros ?; apply H; by right).
  destruct (Z.eqb_spec x c) as [->|_]; [exfalso; apply H; by left|done].
Qed.

Lemma wcsrchr_last dir name c :
  c ∉ name → wcsrchr (dir ++ c :: name) c = Some (c :: name).
Proof.
  intros H. induction dir as [|x dir IH]; simpl.
  - by rewrite wcsrchr_absent, Z.eqb_refl.
  - by rewrite IH.
Qed.

Lemma ascii_towlower_not_nul c : c ≠ 0 → ascii_towlower c ≠ 0.
Proof.
  intros Hc. unfold ascii_towlower.
  destruct (Z.leb_spec 65 c); simpl; [destruct (Z.leb_spec c 90)|]; lia.
Qed.

Lemma exclusion_decision_bool y :
  exclusion_decision y = 0 ∨ exclusion_decision y = 1.
Proof.
  unfold exclusion_decision. destruct (_ =? 0); [by left|].
  destruct (on_denylist _ _); auto.
Qed.

(** X1: the first call of [IsProcessExcluded] looks only at what follows the
    last backslash of the executable's path, lower-cased: it answers [TRUE],
    stores 1 and logs the name exactly when that is one of the two excluded
    names, and answers [FALSE] and stores 0 otherwise.  The path is the text
    [GetModuleFileNameW] wrote, and [towlower] maps no character to NUL. *)
Theorem gate_decides_by_base_name
    (s : State) (n : Z) (prefix name : list WCHAR) :
  isExcluded (globals s) = -1 →
  sys_GetModuleFileNameW (sys (world s)) = (n, prefix ++ name) →
  n ≠ 0 →
  prefix = [] ∨ (∃ dir, prefix = dir ++ [92]) →
  0 ∉ prefix ++ name →
  92 ∉ name →
  (∀ c, c ≠ 0 → sys_towlower (sys (world s)) c ≠ 0) →
  let lower := sys_towlower (sys (world s)) <$> name in
  let hit := bool_decide (lower = WSTR "systemsettings.exe"
                          ∨ lower = WSTR "applicationframehost.exe") in
  IsProcessExcluded s
  = (Z.b2z hit,
     {| world := world s; globals := set_isExcluded (Z.b2z hit) (globals s) |},
     EvGetModuleFileNameW n
     :: (if hit then [EvWh_Log "Process excluded: %s" [ArgWStr lower]]
         else [])).
Proof.
  intros Hx Hq Hn Hprefix Hnul Hname _ lower hit.
  assert (Hbase : base_name (sys (world s)) = lower).
  { unfold base_name. rewrite Hq; simpl. rewrite c_str_no_nul by done.
    destruct Hprefix as [-> | [dir ->]]; simpl.
    - by rewrite wcsrchr_absent.
    - rewrite <- app_assoc; simpl. by rewrite (wcsrchr_last dir name 92 Hname). }
  assert (Hhit : on_denylist lower excludedProcesses = hit).
  { rewrite on_denylist_elem_of. subst hit. unfold excludedProcesses.
    apply bool_decide_ext. rewrite !elem_of_cons, elem_of_nil. tauto. }
  assert (Hd : exclusion_decision (sys (world s)) = Z.b2z hit).
  { unfold exclusion_decision. rewrite Hbase, Hhit, Hq.
    by destruct (Z.eqb_spec (n, prefix ++ name).1 0). }
  rewrite IsProcessExcluded_run, Hx, Hd, Hbase, Hq.
  by destruct hit.
Qed.

Lemma gate_decides_by_base_name_witness :
  result IsProcessExcluded (fresh (in_settings_app demo_system)) = TRUE
  ∧ result IsProcessExcluded (fresh demo_system) = FALSE.
Proof.
  split.
  - unfold result.
    rewrite (gate_decides_by_base_name (fresh (in_settings_app demo_system)) 51
               (WSTR "C:\Windows\ImmersiveControlPanel\")
               (WSTR "SystemSettings.exe")); try done.
    + right. by exists (WSTR "C:\Windows\ImmersiveControlPanel").
    + compute_done.
    + compute_done.
    + apply ascii_towlower_not_nul.
  - unfold result.
    rewrite (gate_decides_by_base_name (fresh demo_system) 22
               (WSTR "C:\Windows\") (WSTR "Notepad.EXE")); try done.
    + right. by exists (WSTR "C:\Windows").
    + compute_done.
    + compute_done.
    + apply ascii_towlower_not_nul.
Defined.

Lemma IsProcessExcluded_decided s :
  isExcluded (globals s) ≠ -1 →
  IsProcessExcluded s = (Z.b2z (isExcluded (globals s) =? 1), s, []).
Proof.
  intros Hx. rewrite IsProcessExcluded_run.
  by destruct (Z.eqb_spec (isExcluded (globals s)) (-1)).
Qed.

Lemma IsProcessExcluded_decides s :
  isExcluded (globals (final IsProcessExcluded s)) ≠ -1
  ∧ result IsProcessExcluded s
    = Z.b2z (isExcluded (globals (final IsProcessExcluded s)) =? 1).
Proof.
  unfold final, result. rewrite IsProcessExcluded_run.
  destruct (Z.eqb_spec (isExcluded (globals s)) (-1)); simpl; [|done].
  by destruct (exclusion_decision_bool (sys (world s))) as [-> | ->].
Qed.

(** X2: the answer of the first call of [IsProcessExcluded] stands for the
    rest of the process: it is [FALSE] or [TRUE], and after anything that
    happens in the process a further call gives the same answer without
    making any call or changing any state. *)
Theorem gate_first_answer_stands
    (D : HWND → Z → Z → Z → World → Z * World)
    (C : CreateArgs → World → HWND * World) (s : State) (es : list Entry) :
  let answer := result IsProcessExcluded s in
  let s1 := final IsProcessExcluded s in
  let s2 := final (run_entries D C es) s1 in
  (answer = FALSE ∨ answer = TRUE)
  ∧ IsProcessExcluded s2 = (answer, s2, [])
  ∧ Forall (λ ev, is_file_name_query ev = false)
      (trace (run_entries D C es) s1).
Proof.
  intros answer s1 s2.
  destruct (IsProcessExcluded_decides s) as [Hd Ha]. fold s1 in Hd, Ha.
  fold answer in Ha.
  destruct (run_entries_memoized D C es s1) as [_ Hm].
  destruct (Hm Hd) as [Hkeep Hq]. fold s2 in Hkeep.
  split; [|split; [|done]].
  - rewrite Ha. destruct (_ =? 1); auto.
  - rewrite IsProcessExcluded_decided by (by rewrite Hkeep).
    by rewrite Hkeep, Ha.
Qed.

(** ** An excluded process *)

Lemma IsProcessExcluded_when_excluded s :
  isExcluded (globals s) = 1 → IsProcessExcluded s = (TRUE, s, []).
Proof. intros Hx. rewrite IsProcessExcluded_decided; by rewrite Hx. Qed.

Lemma theme_change_check_when_excluded Msg s :
  isExcluded (globals s) = 1 → theme_change_check Msg s = (tt, s, []).
Proof.
  intros Hx. unfold theme_change_check, mbind, M_bind.
  by rewrite IsProcessExcluded_when_excluded.
Qed.

Lemma NewWindowShown_when_excluded h s :
  isExcluded (globals s) = 1 → NewWindowShown h s = (tt, s, []).
Proof.
  intros Hx. unfold NewWindowShown, mbind, M_bind.
  by rewrite IsProcessExcluded_when_excluded.
Qed.

Lemma Wh_ModAfterInit_when_excluded s :
  isExcluded (globals s) = 1 → Wh_ModAfterInit s = (tt, s, []).
Proof.
  intros Hx. unfold Wh_ModAfterInit, mbind, M_bind.
  by rewrite IsProcessExcluded_when_excluded.
Qed.

Lemma Wh_ModUninit_when_excluded s :
  isExcluded (globals s) = 1 → Wh_ModUninit s = (tt, s, []).
Proof.
  intros Hx. unfold Wh_ModUninit, mbind, M_bind.
  by rewrite IsProcessExcluded_when_excluded.
Qed.

Lemma Wh_ModInit_when_excluded s :
  isExcluded (globals s) = 1 →
  Wh_ModInit s =
  (TRUE, s,
   [EvWh_Log banner [];
    EvGetCurrentProcessId (sys_pid (sys (world s)));
    EvWh_Log "[Process %d] Initializing Auto Dark Titlebar mod"
      [ArgInt (sys_pid (sys (world s)))];
    EvGetCurrentProcessId (sys_pid (sys (world s)));
    EvWh_Log "[Process %d] Process is excluded, skipping initialization"
      [ArgInt (sys_pid (sys (world s)))];
    EvWh_Log banner []]).
Proof.
  intros Hx. unfold Wh_ModInit, log_pid, Wh_Log, GetCurrentProcessId.
  unfold mbind, M_bind, emit, ask; simpl.
  by rewrite IsProcessExcluded_when_excluded.
Qed.

Lemma run_entry_when_excluded D C e s :
  isExcluded (globals s) = 1 →
  globals (final (run_entry D C e) s) = globals s
  ∧ Forall (λ ev, pass_through_call ev = true) (trace (run_entry D C e) s).
Proof.
  intros Hx. unfold final, trace.
  destruct e as [| | |hWnd Msg wParam lParam|args|f]; simpl.
  - unfold mbind, M_bind. rewrite Wh_ModInit_when_excluded by done. simpl.
    split; [done|]. by repeat constructor.
  - by rewrite Wh_ModAfterInit_when_excluded.
  - by rewrite Wh_ModUninit_when_excluded.
  - unfold DefWindowProc_hook, mbind, M_bind.
    rewrite theme_change_check_when_excluded by done.
    rewrite DefWindowProc_orig_run; simpl.
    split; [done|]. by repeat constructor.
  - unfold NtUserCreateWindowEx_hook, mbind, M_bind.
    rewrite NtUserCreateWindowEx_orig_run.
    destruct (_ =? 0); simpl.
    + split; [done|]. by repeat constructor.
    + rewrite NewWindowShown_when_excluded by done. simpl.
      split; [done|]. by repeat constructor.
  - split; [done|]. by constructor.
Qed.

(** X3: in a process the gate has excluded, whatever happens, the mod never
    changes any of its statics and makes no call but the two originals and
    the log lines of [Wh_ModInit]: it installs no hook, reads no theme,
    queries no window, sets no attribute and requests no redraw. *)
Theorem excluded_process_is_passed_through
    (D : HWND → Z → Z → Z → World → Z * World)
    (C : CreateArgs → World → HWND * World) (s : State) (es : list Entry) :
  isExcluded (globals s) = 1 →
  globals (final (run_entries D C es) s) = globals s
  ∧ Forall (λ ev, pass_through_call ev = true) (trace (run_entries D C es) s)
  ∧ attribute_sets (trace (run_entries D C es) s) = []
  ∧ hook_attempts (trace (run_entries D C es) s) = [].
Proof.
  intros Hx.
  assert (H : globals (final (run_entries D C es) s) = globals s
              ∧ Forall (λ ev, pass_through_call ev = true)
                  (trace (run_entries D C es) s)).
  { revert s Hx. induction es as [|e es IH]; intros s Hx; simpl.
    - split; [done|]. by constructor.
    - rewrite final_bind, trace_bind.
      destruct (run_entry_when_excluded D C e s Hx) as [Hg Ht].
      destruct (IH (final (run_entry D C e) s)) as [Hg' Ht'];
        [by rewrite Hg|].
      split; [congruence|]. by apply Forall_app. }
  destruct H as [Hg Ht]. split; [done|split; [done|]].
  induction Ht as [|ev t Hev _ [IH1 IH2]]; [done|].
  destruct ev; try done; (split; [apply IH1 | apply IH2]).
Qed.

Lemma excluded_process_is_passed_through_witness :
  attribute_sets
    (trace (run_entries sample_DefWindowProcW sample_NtUserCreateWindowEx
              [OnLoad; OnLoadComplete; OnCreate sample_args;
               OnMessage 100 WM_SETTINGCHANGE 0 0; OnUnload])
       (final IsProcessExcluded (fresh (in_settings_app demo_system))))
  = [].
Proof.
  by apply (excluded_process_is_passed_through sample_DefWindowProcW
              sample_NtUserCreateWindowEx
              (final IsProcessExcluded (fresh (in_settings_app demo_system)))).
Defined.

(** ** Across the life of the process *)

#[local] Instance calls_only_stepwise P : Stepwise (calls_only P).
Proof.
  split; unfold calls_only.
  - by intros s.
  - intros s1 s2 s3 t1 t2 H1 H2. by apply Forall_app.
Qed.

Ltac tidy_leaf :=
  intros [w [p d x]];
  unfold calls_only, final, trace, ask, emit, put, change,
    DwmSetWindowAttribute, SetWindowPos, DefWindowProc_orig,
    NtUserCreateWindowEx_orig, attr_value; simpl;
  repeat match goal with |- context [let '(_, _) := ?e in _] => destruct e end;
  simpl; repeat case_match; by repeat constructor.

Lemma IsProcessExcluded_tidy : respects (calls_only tidy_call) IsProcessExcluded.
Proof.
  intros s. unfold calls_only, trace. rewrite IsProcessExcluded_run.
  repeat case_match; by repeat constructor.
Qed.
#[local] Hint Resolve IsProcessExcluded_tidy : respects.

Lemma IsSystemDarkMode_tidy : respects (calls_only tidy_call) IsSystemDarkMode.
Proof.
  unfold IsSystemDarkMode, uxtheme_fallback. respects_walk_down tidy_leaf.
Qed.
#[local] Hint Resolve IsSystemDarkMode_tidy : respects.

Lemma ApplyDarkMode_tidy h b : respects (calls_only tidy_call) (ApplyDarkMode h b).
Proof.
  unfold ApplyDarkMode, IsWindowEligible. respects_walk_down tidy_leaf.
Qed.
#[local] Hint Resolve ApplyDarkMode_tidy : respects.

Lemma ApplyToAllWindows_tidy b :
  respects (calls_only tidy_call) (ApplyToAllWindows b).
Proof.
  unfold ApplyToAllWindows, EnumWindows.
  respects_walk_down tidy_leaf.
Qed.
#[local] Hint Resolve ApplyToAllWindows_tidy : respects.

Lemma run_entry_tidy D C e : respects (calls_only tidy_call) (run_entry D C e).
Proof.
  destruct e; simpl;
    unfold Wh_ModInit, hook_window_creation, Wh_ModAfterInit, Wh_ModUninit,
      DefWindowProc_hook, theme_change_check, NtUserCreateWindowEx_hook,
      NewWindowShown, IsWindowEligible;
    respects_walk_down tidy_leaf.
Qed.
#[local] Hint Resolve run_entry_tidy : respects.

(** X4: whatever happens in the process, the only window attribute the mod
    ever sets is [DWMWA_USE_IMMERSIVE_DARK_MODE], and the only values it ever
    gives it are 0 and 1, whatever the theme cache or the argument of a sweep
    holds. *)
Theorem mod_only_sets_dark_mode_attribute
    (D : HWND → Z → Z → Z → World → Z * World)
    (C : CreateArgs → World → HWND * World) (s : State) (es : list Entry) :
  Forall (λ ev, tidy_call ev = true) (trace (run_entries D C es) s).
Proof.
  revert s.
  change (respects (calls_only tidy_call) (run_entries D C es)).
  induction es; simpl; respects_walk_down tidy_leaf.
Qed.

Lemma IsSystemDarkMode_trace s :
  trace IsSystemDarkMode s
  = registry_calls (sys (world s))
    ++ match preference_read (sys (world s)) with
       | Some _ => []
       | None => trace uxtheme_fallback s
       end.
Proof.
  unfold preference_read, registry_calls, IsSystemDarkMode, RegOpenKeyExW,
    RegQueryValueExW, RegCloseKey, ask, emit, mbind, M_bind, mret, M_ret,
    trace.
  simpl.
  destruct (sys_RegOpenKeyExW _ =? ERROR_SUCCESS); simpl.
  - destruct (sys_RegQueryValueExW (sys (world s))) as [st x]; simpl.
    destruct (st =? ERROR_SUCCESS); [done|].
    by destruct (uxtheme_fallback s) as [[b s'] t].
  - by destruct (uxtheme_fallback s) as [[b s'] t].
Qed.

Lemma uxtheme_fallback_no_registry :
  respects (calls_only (λ ev, negb (is_registry_call ev))) uxtheme_fallback.
Proof. unfold uxtheme_fallback. respects_walk_down tidy_leaf. Qed.

Lemma keys_closed_app t1 t2 :
  keys_closed (t1 ++ t2) = (keys_closed t1 + keys_closed t2)%nat.
Proof. unfold keys_closed. by rewrite filter_app, length_app. Qed.

Lemma keys_opened_app t1 t2 :
  keys_opened (t1 ++ t2) = (keys_opened t1 + keys_opened t2)%nat.
Proof. unfold keys_opened. by rewrite filter_app, length_app. Qed.

Lemma keys_none t :
  Forall (λ ev, negb (is_registry_call ev) = true) t →
  keys_closed t = 0%nat ∧ keys_opened t = 0%nat.
Proof.
  unfold keys_closed, keys_opened.
  induction 1 as [|ev t Hev _ [IH1 IH2]]; [done|].
  rewrite !filter_cons_False; [done| |]; by destruct ev.
Qed.

#[local] Instance keys_balanced_stepwise : Stepwise keys_balanced.
Proof.
  split; unfold keys_balanced.
  - by intros s.
  - intros s1 s2 s3 t1 t2 H1 H2.
    by rewrite keys_closed_app, keys_opened_app, H1, H2.
Qed.

Ltac keys_leaf :=
  intros [w [p d x]];
  unfold keys_balanced, final, trace, ask, emit, put, change,
    DwmSetWindowAttribute, SetWindowPos, DefWindowProc_orig,
    NtUserCreateWindowEx_orig; simpl;
  repeat match goal with |- context [let '(_, _) := ?e in _] => destruct e end;
  simpl; repeat case_match; done.

Lemma IsSystemDarkMode_keys : respects keys_balanced IsSystemDarkMode.
Proof.
  intros s. unfold keys_balanced. rewrite IsSystemDarkMode_trace.
  rewrite keys_closed_app, keys_opened_app.
  assert (keys_closed (registry_calls (sys (world s)))
          = keys_opened (registry_calls (sys (world s)))) as ->.
  { unfold registry_calls, keys_closed, keys_opened.
    destruct (sys_RegOpenKeyExW (sys (world s)) =? ERROR_SUCCESS) eqn:E.
    - rewrite filter_cons_False by done.
      rewrite (filter_cons_True (λ ev, is_key_opened ev = true)) by done.
      done.
    - rewrite filter_cons_False by done.
      rewrite (filter_cons_False (λ ev, is_key_opened ev = true)); [done|].
      simpl. by rewrite E. }
  f_equal. destruct (preference_read _); [done|].
  destruct (keys_none _ (uxtheme_fallback_no_registry s)). congruence.
Qed.
#[local] Hint Resolve IsSystemDarkMode_keys : respects.

Lemma IsProcessExcluded_keys : respects keys_balanced IsProcessExcluded.
Proof.
  intros s. unfold keys_balanced, trace. rewrite IsProcessExcluded_run.
  repeat case_match; done.
Qed.
#[local] Hint Resolve IsProcessExcluded_keys : respects.

Lemma ApplyToAllWindows_keys b : respects keys_balanced (ApplyToAllWindows b).
Proof. unfold ApplyToAllWindows, EnumWindows. respects_walk_down keys_leaf. Qed.
#[local] Hint Resolve ApplyToAllWindows_keys : respects.

Lemma run_entry_keys D C e : respects keys_balanced (run_entry D C e).
Proof.
  destruct e; simpl;
    unfold Wh_ModInit, hook_window_creation, Wh_ModAfterInit, Wh_ModUninit,
      DefWindowProc_hook, theme_change_check, NtUserCreateWindowEx_hook,
      NewWindowShown, ApplyDarkMode, IsWindowEligible;
    respects_walk_down keys_leaf.
Qed.
#[local] Hint Resolve run_entry_keys : respects.

(** X5: [IsSystemDarkMode] starts with its registry calls, and closes the
    key exactly when it opened it, after the query and before any use of the
    probe; whatever happens in the process, the mod has closed as many keys
    as it has opened. *)
Theorem registry_keys_are_closed
    (D : HWND → Z → Z → Z → World → Z * World)
    (C : CreateArgs → World → HWND * World) (s : State) (es : list Entry) :
  (∃ rest,
     trace IsSystemDarkMode s = registry_calls (sys (world s)) ++ rest
     ∧ Forall (λ ev, is_registry_call ev = false) rest)
  ∧ keys_closed (trace (run_entries D C es) s)
    = keys_opened (trace (run_entries D C es) s).
Proof.
  split.
  - exists (match preference_read (sys (world s)) with
            | Some _ => []
            | None => trace uxtheme_fallback s
            end).
    split; [exact (IsSystemDarkMode_trace s)|].
    destruct (preference_read _); [by constructor|].
    eapply Forall_impl; [apply (uxtheme_fallback_no_registry s)|].
    intros ev. simpl. by destruct (is_registry_call ev).
  - revert s. change (respects keys_balanced (run_entries D C es)).
    induction es; simpl; respects_walk_down keys_leaf.
Qed.

(** X6: [IsSystemDarkMode] answers 0 or 1 and leaves the world, the theme
    cache and the exclusion decision as they were; of the mod's statics it
    can only write the probe pointer, and only from null to what the lookup
    gave. *)
Theorem IsSystemDarkMode_only_caches_the_probe (s : State) :
  let s' := final IsSystemDarkMode s in
  (result IsSystemDarkMode s = FALSE ∨ result IsSystemDarkMode s = TRUE)
  ∧ world s' = world s
  ∧ g_isDarkMode (globals s') = g_isDarkMode (globals s)
  ∧ isExcluded (globals s') = isExcluded (globals s)
  ∧ (g_ShouldSystemUseDarkMode (globals s')
       = g_ShouldSystemUseDarkMode (globals s)
     ∨ (g_ShouldSystemUseDarkMode (globals s) = 0
        ∧ preference_read (sys (world s)) = None
        ∧ g_ShouldSystemUseDarkMode (globals s')
          = resolve_probe (sys (world s)))).
Proof.
  intros s'. split; [apply IsSystemDarkMode_bool|].
  subst s'. unfold final.
  destruct (preference_read (sys (world s))) as [v|] eqn:E.
  - rewrite (IsSystemDarkMode_read s v E); simpl. repeat split; auto.
  - destruct (IsSystemDarkMode_unread s E) as (pre & _ & ->). simpl.
    unfold final. rewrite uxtheme_fallback_run; simpl.
    repeat split. unfold available_probe.
    destruct (Z.eqb_spec (g_ShouldSystemUseDarkMode (globals s)) 0); auto.
Qed.

(** *** The theme cache stays a proper [BOOL] *)

Lemma theme_change_check_cache_bool Msg s :
  cache_is_bool s → cache_is_bool (final (theme_change_check Msg) s).
Proof.
  unfold cache_is_bool. rewrite theme_change_check_cache. cbv zeta.
  intros H. destruct (_ && _); [apply IsSystemDarkMode_bool|done].
Qed.

Lemma final_then_ret {A} (m : M A) s : final (m;; mret tt) s = final m s.
Proof. by rewrite final_bind. Qed.

Lemma globals_DefWindowProc_orig D h m w l s :
  globals (final (DefWindowProc_orig D h m w l) s) = globals s.
Proof. unfold final. by rewrite DefWindowProc_orig_run. Qed.

Lemma run_entry_cache_bool D C e s :
  cache_is_bool s → cache_is_bool (final (run_entry D C e) s).
Proof.
  unfold cache_is_bool. intros H.
  destruct e as [| | |hWnd Msg wParam lParam|args|f]; simpl.
  - rewrite final_then_ret, Wh_ModInit_cache.
    destruct (_ =? 0); [apply IsSystemDarkMode_bool|done].
  - destruct (Wh_ModAfterInit_inner s) as (_ & -> & _). done.
  - destruct (Wh_ModUninit_inner s) as (_ & -> & _). done.
  - rewrite final_then_ret. unfold DefWindowProc_hook.
    rewrite final_bind, !globals_DefWindowProc_orig.
    by apply theme_change_check_cache_bool.
  - by rewrite final_then_ret, NtUserCreateWindowEx_hook_cache.
  - done.
Qed.

(** X7: the theme cache is a proper [BOOL] for the whole life of the
    process: if [g_isDarkMode] is 0 or 1, as it is when the mod is loaded, it
    is 0 or 1 after anything that happens in the process. *)
Theorem theme_cache_stays_bool
    (D : HWND → Z → Z → Z → World → Z * World)
    (C : CreateArgs → World → HWND * World) (s : State) (es : list Entry) :
  cache_is_bool s → cache_is_bool (final (run_entries D C es) s).
Proof.
  revert s. induction es as [|e es IH]; intros s H; simpl; [done|].
  rewrite final_bind. by apply IH, run_entry_cache_bool.
Qed.

Lemma theme_cache_stays_bool_witness :
  cache_is_bool
    (final (run_entries sample_DefWindowProcW sample_NtUserCreateWindowEx
              [OnLoad; OnLoadComplete; OnMessage 100 WM_SETTINGCHANGE 0 0])
       (fresh demo_system)).
Proof.
  apply (theme_cache_stays_bool sample_DefWindowProcW
           sample_NtUserCreateWindowEx (fresh demo_system)).
  by left.
Defined.

(** ** The Styling Applicator *)

Lemma IsWindowEligible_result h s :
  result (IsWindowEligible h) s = Z.b2z (eligible (sys (world s)) h).
Proof. unfold result. by rewrite IsWindowEligible_run. Qed.

Lemma eligible_of_result h s :
  result (IsWindowEligible h) s = TRUE → eligible (sys (world s)) h = true.
Proof. rewrite IsWindowEligible_result. by destruct (eligible _ _). Qed.

Lemma not_eligible_of_result h s :
  result (IsWindowEligible h) s = FALSE → eligible (sys (world s)) h = false.
Proof. rewrite IsWindowEligible_result. by destruct (eligible _ _). Qed.

(** X8: on a handle [IsWindowEligible] rejects, the null handle and a stale
    one included, [ApplyDarkMode] is a no-op: the state is as before and the
    only calls made are the filter's own queries. *)
Theorem ApplyDarkMode_skips_ineligible (s : State) (hWnd : HWND) (b : BOOL) :
  result (IsWindowEligible hWnd) s = FALSE →
  ApplyDarkMode hWnd b s = (tt, s, trace (IsWindowEligible hWnd) s)
  ∧ attribute_sets (trace (IsWindowEligible hWnd) s) = []
  ∧ Forall (λ ev, is_redraw ev = false ∧ is_log ev = false)
      (trace (IsWindowEligible hWnd) s).
Proof.
  intros H%not_eligible_of_result. rewrite ApplyDarkMode_run.
  unfold styling_calls, style_window, trace.
  rewrite IsWindowEligible_run, H; simpl. rewrite app_nil_r.
  split; [by destruct s|]. split; [apply attribute_sets_eligibility_queries|].
  unfold eligibility_queries. destruct (hWnd =? 0); [by constructor|].
  destruct (is_live _ _); by repeat constructor.
Qed.

Lemma ApplyDarkMode_skips_ineligible_witness :
  ApplyDarkMode 0 TRUE (fresh demo_system) = (tt, fresh demo_system, [])
  ∧ final (ApplyDarkMode 999 TRUE) (fresh demo_system) = fresh demo_system
  ∧ final (ApplyDarkMode 104 TRUE) (fresh demo_system) = fresh demo_system.
Proof.
  split; [|split].
  - by apply (ApplyDarkMode_skips_ineligible (fresh demo_system) 0 TRUE).
  - unfold final.
    by rewrite (proj1 (ApplyDarkMode_skips_ineligible (fresh demo_system)
                         999 TRUE eq_refl)).
  - unfold final.
    by rewrite (proj1 (ApplyDarkMode_skips_ineligible (fresh demo_system)
                         104 TRUE eq_refl)).
Defined.

(** X9: on an eligible window whose attribute set succeeds, [ApplyDarkMode]
    stores 1 for any non-zero argument and 0 for zero, asks for one frame
    redraw of that window and writes one log line, in that order after the
    filter's queries; every other window keeps its attribute and its redraw
    count, and the mod's statics are untouched.  The redraw call holds no
    [SWP_NOACTIVATE]: it leaves the window active and may change the Z order,
    and nothing else of what the system answers. *)
Theorem ApplyDarkMode_styles_one_window (s : State) (hWnd : HWND) (b : BOOL) :
  result (IsWindowEligible hWnd) s = TRUE →
  SUCCEEDED (dwm_result (sys (world s)) hWnd) = true →
  let s' := final (ApplyDarkMode hWnd b) s in
  let value := if decide (b = 0) then 0 else 1 in
  dark_attr (world s') = <[hWnd := value]> (dark_attr (world s))
  ∧ frame_redraws (world s')
    = <[hWnd := S (default 0%nat (frame_redraws (world s) !! hWnd))]>
        (frame_redraws (world s))
  ∧ active_window (world s') = hWnd
  ∧ same_windows (sys (world s')) (sys (world s))
  ∧ globals s' = globals s
  ∧ trace (ApplyDarkMode hWnd b) s
    = trace (IsWindowEligible hWnd) s
      ++ [EvDwmSetWindowAttribute hWnd DWMWA_USE_IMMERSIVE_DARK_MODE value
            (dwm_result (sys (world s)) hWnd);
          EvSetWindowPos hWnd redraw_flags;
          EvWh_Log "Applied dark mode (%d) to window: %p"
            [ArgInt b; ArgPtr hWnd]].
Proof.
  intros He%eligible_of_result Hok s' value. subst s'.
  unfold final, trace. rewrite ApplyDarkMode_run, IsWindowEligible_run; simpl.
  unfold style_window, styling_calls. rewrite He, Hok; simpl.
  assert (attr_value b = value) as ->.
  { unfold attr_value. subst value.
    destruct (Z.eqb_spec b 0); by destruct (decide (b = 0)). }
  split; [done|]. split; [done|]. split; [done|].
  split; [apply same_windows_raise|done].
Qed.

Lemma ApplyDarkMode_styles_one_window_witness :
  dark_attr (world (final (ApplyDarkMode 100 5) (fresh demo_system)))
  = {[ 100 := 1 ]}.
Proof.
  by rewrite (proj1 (ApplyDarkMode_styles_one_window (fresh demo_system)
                       100 5 eq_refl eq_refl)).
Defined.

Lemma frame_redraws_sweep y b hs w h :
  NoDup hs →
  frame_redraws (foldl (enum_step y b) w hs) !! h =
  if bool_decide (h ∈ hs) && restyled y h
  then Some (S (default 0%nat (frame_redraws w !! h)))
  else frame_redraws w !! h.
Proof.
  intros Hnd. revert w. induction Hnd as [|x hs Hx Hnd IH]; intros w; [done|].
  simpl. rewrite IH, enum_step_unfold.
  destruct (decide (h = x)) as [->|Hne].
  - rewrite (bool_decide_eq_false_2 _ Hx).
    rewrite (bool_decide_eq_true_2 (x ∈ x :: hs)) by (by left). simpl.
    destruct (restyled y x); simpl; [|done]. by rewrite lookup_insert_eq.
  - assert (bool_decide (h ∈ x :: hs) = bool_decide (h ∈ hs)) as ->.
    { apply bool_decide_ext. rewrite elem_of_cons. split; [by intros [?|?]|by right]. }
    destruct (restyled y x); simpl; [|done].
    by rewrite lookup_insert_ne.
Qed.

Lemma wrap32_int (z : Z) : - 2 ^ 31 ≤ z < 2 ^ 31 → wrap32 z = z.
Proof. intros Hz. unfold wrap32. rewrite Z.mod_small; lia. Qed.

(** X10: after [ApplyToAllWindows(b)], every window the sweep reaches (an
    enumerated window that passes the filters of [EnumWindowsProc] and of
    [IsWindowEligible] and whose attribute set succeeds) holds 1 if [b] is
    non-zero and 0 otherwise, and every other handle's attribute is what it
    was; with no handle enumerated twice, each of those windows got exactly
    one more redraw and no other window any.  The [BOOL] survives its trip
    through [LPARAM].  The mod's statics are as before, and so is what the
    system answers, up to the Z order the redraw calls may change. *)
Theorem ApplyToAllWindows_postcondition (s : State) (b : BOOL) (h : HWND) :
  let y := sys (world s) in
  let s' := final (ApplyToAllWindows b) s in
  dark_attr (world s') !! h
  = (if sweep_reaches y h then Some (attr_value (wrap32 b))
     else dark_attr (world s) !! h)
  ∧ (- 2 ^ 31 ≤ b < 2 ^ 31 →
     attr_value (wrap32 b) = if bool_decide (b = 0) then 0 else 1)
  ∧ (NoDup (sys_toplevel y) →
     frame_redraws (world s') !! h
     = if sweep_reaches y h
       then Some (S (default 0%nat (frame_redraws (world s) !! h)))
       else frame_redraws (world s) !! h)
  ∧ same_windows (sys (world s')) y
  ∧ globals s' = globals s.
Proof.
  intros y s'. subst s'. unfold final, sweep_reaches.
  rewrite ApplyToAllWindows_run; simpl. fold y.
  split; [apply dark_attr_sweep|]. split.
  { intros Hb. rewrite (wrap32_int b Hb). unfold attr_value.
    destruct (Z.eqb_spec b 0) as [->|Hne]; [done|].
    by rewrite bool_decide_eq_false_2. }
  split; [apply frame_redraws_sweep|].
  split; [apply sweep_same_windows|done].
Qed.

Lemma ApplyToAllWindows_postcondition_witness :
  frame_redraws
    (world (final (ApplyToAllWindows TRUE) (fresh demo_system))) !! 100
  = Some 1%nat.
Proof.
  destruct (ApplyToAllWindows_postcondition (fresh demo_system) TRUE 100)
    as (_ & _ & H & _).
  rewrite H; [done|]. compute_done.
Defined.

Lemma elem_of_attribute_sets_sweep y b hs c :
  c ∈ attribute_sets (hs ≫= enum_calls y b)
  ↔ c.2 = attr_value b ∧ c.1 ∈ hs ∧ styling_target y c.1 = true.
Proof.
  rewrite attribute_sets_sweep, list_elem_of_fmap. split.
  - intros (h & -> & Hh). apply list_elem_of_filter in Hh as [? ?]. done.
  - intros (Hv & Hin & Ht). exists c.1. split.
    + destruct c as [h v]. simpl in *. by rewrite Hv.
    + by apply list_elem_of_filter.
Qed.

(** X18: a second [ApplyToAllWindows] with the same argument, and any number
    of further ones, leaves every window's attribute as the first left it and
    the mod's statics as they were; it sets the attribute on the same windows
    to the same value again, and the only redraw counts that can grow are
    those of windows it restyles.  What the system answers is the same after
    it, up to the Z order. *)
Theorem repeated_sweep_keeps_attributes (s : State) (b : BOOL) :
  let s1 := final (ApplyToAllWindows b) s in
  let s2 := final (ApplyToAllWindows b) s1 in
  dark_attr (world s2) = dark_attr (world s1)
  ∧ same_windows (sys (world s2)) (sys (world s1))
  ∧ globals s2 = globals s1
  ∧ (∀ c, c ∈ attribute_sets (trace (ApplyToAllWindows b) s1)
          ↔ c ∈ attribute_sets (trace (ApplyToAllWindows b) s))
  ∧ (∀ h, frame_redraws (world s2) !! h ≠ frame_redraws (world s1) !! h →
          h ∈ sys_toplevel (sys (world s))
          ∧ styling_target (sys (world s)) h = true)
  ∧ (∀ n, dark_attr (world (final (repeat_call n (ApplyToAllWindows b)) s1))
          = dark_attr (world s1)).
Proof.
  intros s1 s2.
  assert (Hy : same_windows (sys (world s1)) (sys (world s))).
  { subst s1. unfold final. rewrite ApplyToAllWindows_run; simpl.
    apply sweep_same_windows. }
  destruct Hy as (U & E & Hnd).
  split; [|split; [|split; [|split; [|split]]]].
  - apply ApplyToAllWindows_on_swept, ApplyToAllWindows_swept.
  - apply ApplyToAllWindows_on_swept, ApplyToAllWindows_swept.
  - subst s2 s1. unfold final. by rewrite !ApplyToAllWindows_run.
  - intros c. unfold trace. rewrite !ApplyToAllWindows_run; simpl.
    change (attribute_sets (EvEnumWindows :: ?t)) with (attribute_sets t).
    rewrite !elem_of_attribute_sets_sweep.
    by rewrite (styling_target_unordered _ _ c.1 U), (E c.1).
  - subst s2. unfold final at 1. rewrite ApplyToAllWindows_run; simpl.
    intros h Hh.
    destruct (sweep_reaches (sys (world s1)) h) eqn:Hr.
    + rewrite (sweep_reaches_same_windows _ (sys (world s)) h) in Hr
        by (by split).
      unfold sweep_reaches in Hr. apply andb_true_iff in Hr as [Hin Hr].
      apply bool_decide_eq_true in Hin. split; [done|].
      unfold restyled in Hr. by apply andb_true_iff in Hr as [? _].
    + by rewrite frame_redraws_sweep_other in Hh.
  - intros n. apply repeat_sweep_on_swept, ApplyToAllWindows_swept.
Qed.

Lemma visited_app t1 t2 : visited (t1 ++ t2) = visited t1 ++ visited t2.
Proof. apply omap_app. Qed.

Lemma visited_styling_calls y b h : visited (styling_calls y b h) = [].
Proof.
  unfold styling_calls, eligibility_queries. rewrite visited_app.
  destruct (h =? 0); simpl.
  - destruct (eligible y h); [|done]. by destruct (SUCCEEDED _).
  - destruct (is_live y h); simpl;
      (destruct (eligible y h); [|done]); by destruct (SUCCEEDED _).
Qed.

Lemma visited_enum_calls y b h : visited (enum_calls y b h) = [h].
Proof.
  unfold enum_calls, enum_filter_queries. rewrite visited_app.
  assert (visited (if passes_enum_filter y h then styling_calls y b h else [])
          = []) as ->
    by (destruct (passes_enum_filter y h); [apply visited_styling_calls|done]).
  rewrite app_nil_r. unfold visited; simpl. rewrite omap_app.
  destruct (parent_of y h =? 0); simpl;
    destruct (parent_is_desktop_or_absent y h); simpl; try done;
    by destruct (_ =? 0).
Qed.

(** X11: a sweep is never cut short: [EnumWindowsProc] always answers
    [TRUE], so [ApplyToAllWindows] calls it on every top-level window
    [EnumWindows] has to offer, once each and in order, however many of them
    are skipped or fail. *)
Theorem sweep_visits_every_window (s : State) (b : BOOL) :
  (∀ h l, result (EnumWindowsProc h l) s = TRUE)
  ∧ visited (trace (ApplyToAllWindows b) s) = sys_toplevel (sys (world s)).
Proof.
  split.
  - intros h l. unfold result. by rewrite EnumWindowsProc_run.
  - unfold trace. rewrite ApplyToAllWindows_run; simpl.
    change (visited (EvEnumWindows :: ?t)) with (visited t).
    induction (sys_toplevel (sys (world s))) as [|x hs IH]; [done|].
    by rewrite bind_cons, visited_app, visited_enum_calls, IH.
Qed.

(** X12: a handle that has gone stale by the time [EnumWindowsProc] gets it
    is dropped by the process-id filter: with no parent and no thread to
    report, the callback asks two questions, touches nothing and lets the
    enumeration go on. *)
Theorem EnumWindowsProc_drops_stale_handle (s : State) (h : HWND) (l : Z) :
  is_live (sys (world s)) h = false →
  EnumWindowsProc h l s
  = (TRUE, s, [EvGetAncestor h 0; EvGetWindowThreadProcessId h 0 0]).
Proof.
  intros Hdead. rewrite EnumWindowsProc_run.
  assert (Hw : window_at (sys (world s)) h = None).
  { unfold is_live in Hdead. apply bool_decide_eq_false in Hdead.
    destruct (window_at _ h); [|done]. exfalso. apply Hdead. eauto. }
  unfold enum_calls, enum_filter_queries, enum_step, passes_enum_filter,
    parent_is_desktop_or_absent, owned_by_current_process, parent_of,
    thread_process_id.
  rewrite Hw; simpl. by destruct s.
Qed.

Lemma EnumWindowsProc_drops_stale_handle_witness :
  final (EnumWindowsProc 999 1) (fresh demo_system) = fresh demo_system.
Proof.
  unfold final.
  by rewrite (EnumWindowsProc_drops_stale_handle (fresh demo_system) 999 1
                eq_refl).
Defined.

(** ** The Interception Layer *)

Lemma is_live_null y : is_live y 0 = false.
Proof. done. Qed.

Lemma eligible_not_null y h : eligible y h = true → (h =? 0) = false.
Proof. unfold eligible. by destruct (h =? 0). Qed.

(** [NewWindowShown] in a process the gate has let through. *)
Lemma NewWindowShown_run h s :
  isExcluded (globals s) = 0 →
  let y := sys (world s) in
  let dark := g_isDarkMode (globals s) in
  NewWindowShown h s =
  (tt,
   {| world := style_window y dark h (world s); globals := globals s |},
   new_window_queries y h
   ++ (if eligible y h
       then EvWh_Log "New window detected: %p, applying dark mode: %d"
              [ArgPtr h; ArgInt dark]
            :: styling_calls y dark h
       else [])).
Proof.
  intros Hx y dark. unfold NewWindowShown, new_window_queries.
  unfold mbind at 1, M_bind at 1.
  rewrite IsProcessExcluded_decided by (by rewrite Hx). rewrite Hx; simpl.
  destruct (h =? 0) eqn:Hh; simpl.
  - unfold style_window, eligible. rewrite Hh; simpl. by destruct s.
  - unfold IsWindow. unfold mbind at 1, M_bind at 1. unfold ask at 1; simpl.
    fold y. destruct (is_live y h) eqn:Hl; simpl.
    + unfold mbind at 1, M_bind at 1. rewrite IsWindowEligible_run; simpl.
      fold y. destruct (eligible y h) eqn:He; simpl.
      * unfold Wh_Log, mbind, M_bind, get, emit; simpl.
        rewrite ApplyDarkMode_run; simpl. fold y dark.
        done.
      * unfold style_window. fold y. rewrite He; simpl.
        rewrite !app_nil_r. by destruct s.
    + assert (He : eligible y h = false).
      { apply not_true_iff_false. intros He. apply eligible_live in He.
        congruence. }
      unfold style_window. rewrite He; simpl. by destruct s.
Qed.

Lemma dark_attr_style_window y b h w h' :
  dark_attr (style_window y b h w) !! h'
  = if bool_decide (h' = h) && eligible y h && SUCCEEDED (dwm_result y h)
    then Some (attr_value b) else dark_attr w !! h'.
Proof.
  unfold style_window. rewrite <- andb_assoc.
  destruct (eligible y h && SUCCEEDED (dwm_result y h)); simpl.
  - destruct (decide (h' = h)) as [->|Hne].
    + by rewrite bool_decide_eq_true_2, lookup_insert_eq.
    + by rewrite bool_decide_eq_false_2, lookup_insert_ne.
  - by rewrite andb_false_r.
Qed.

Lemma frame_redraws_style_window_other y b h w h' :
  h' ≠ h → frame_redraws (style_window y b h w) !! h' = frame_redraws w !! h'.
Proof.
  intros Hne. unfold style_window. destruct (_ && _); simpl; [|done].
  by rewrite lookup_insert_ne.
Qed.

Lemma no_theme_query_eligibility y h :
  Forall (λ ev, is_theme_query ev = false) (eligibility_queries y h).
Proof.
  unfold eligibility_queries. destruct (h =? 0); [done|].
  destruct (is_live y h); repeat constructor.
Qed.

Lemma no_theme_query_styling y b h :
  Forall (λ ev, is_theme_query ev = false) (styling_calls y b h).
Proof.
  unfold styling_calls. apply Forall_app. split.
  - apply no_theme_query_eligibility.
  - destruct (eligible y h); [|done].
    destruct (SUCCEEDED _); repeat constructor.
Qed.

Lemma no_theme_query_new_window y h :
  Forall (λ ev, is_theme_query ev = false) (new_window_queries y h).
Proof.
  unfold new_window_queries. destruct (h =? 0); [done|].
  constructor; [done|].
  destruct (is_live y h); [apply no_theme_query_eligibility|done].
Qed.

(** The creation hook in a process the gate has let through. *)
Lemma NtUserCreateWindowEx_hook_run C args s :
  isExcluded (globals s) = 0 →
  let h := (C args (world s)).1 in
  let w := (C args (world s)).2 in
  let dark := g_isDarkMode (globals s) in
  NtUserCreateWindowEx_hook C args s =
  (h,
   {| world := style_window (sys w) dark h w; globals := globals s |},
   EvNtUserCreateWindowEx_orig args h
   :: new_window_queries (sys w) h
   ++ (if eligible (sys w) h
       then EvWh_Log "New window detected: %p, applying dark mode: %d"
              [ArgPtr h; ArgInt dark]
            :: styling_calls (sys w) dark h
       else [])).
Proof.
  intros Hx h w dark. unfold NtUserCreateWindowEx_hook.
  unfold mbind at 1, M_bind at 1.
  rewrite NtUserCreateWindowEx_orig_run. fold h w. simpl.
  set (s0 := {| world := w; globals := globals s |}).
  destruct (h =? 0) eqn:Hh; simpl.
  - apply Z.eqb_eq in Hh. rewrite Hh.
    assert (He : eligible (sys w) 0 = false) by done.
    unfold style_window, new_window_queries. by rewrite He.
  - unfold mbind, M_bind.
    rewrite (NewWindowShown_run h s0 Hx); simpl. fold dark.
    by rewrite app_nil_r.
Qed.

(** X13: in a process the gate has let through, the creation hook styles
    the window the original has just created, and only that one, with the
    cached theme: if the new window is eligible in the world the original
    leaves and the attribute set succeeds, its attribute becomes 1 when
    [g_isDarkMode] is non-zero and 0 otherwise; every other window keeps its
    attribute and its redraw count; the statics are untouched and the theme
    is not asked for again.  When the original returns no handle the hook
    makes no call of its own. *)
Theorem new_window_gets_cached_theme
    (C : CreateArgs → World → HWND * World) (s : State) (args : CreateArgs) :
  isExcluded (globals s) = 0 →
  let h := (C args (world s)).1 in
  let w := (C args (world s)).2 in
  let dark := g_isDarkMode (globals s) in
  let s' := final (NtUserCreateWindowEx_hook C args) s in
  let t := trace (NtUserCreateWindowEx_hook C args) s in
  result (NtUserCreateWindowEx_hook C args) s = h
  ∧ (∀ h', dark_attr (world s') !! h'
           = if bool_decide (h' = h) && eligible (sys w) h
                && SUCCEEDED (dwm_result (sys w) h)
             then Some (attr_value dark) else dark_attr w !! h')
  ∧ (∀ h', h' ≠ h → frame_redraws (world s') !! h' = frame_redraws w !! h')
  ∧ same_windows (sys (world s')) (sys w)
  ∧ globals s' = globals s
  ∧ Forall (λ ev, is_theme_query ev = false) t
  ∧ (h = 0 → s' = {| world := w; globals := globals s |}
             ∧ t = [EvNtUserCreateWindowEx_orig args 0]).
Proof.
  intros Hx h w dark s' t. subst s' t.
  unfold result, final, trace.
  rewrite (NtUserCreateWindowEx_hook_run C args s Hx). fold h w dark. simpl.
  split; [done|]. split; [apply dark_attr_style_window|].
  split; [intros h'; apply frame_redraws_style_window_other|].
  split; [apply style_window_same_windows|]. split; [done|].
  split.
  - constructor; [done|]. apply Forall_app. split.
    + apply no_theme_query_new_window.
    + destruct (eligible (sys w) h); [|done].
      constructor; [done|apply no_theme_query_styling].
  - intros ->. done.
Qed.

Lemma new_window_gets_cached_theme_witness :
  dark_attr
    (world (final (NtUserCreateWindowEx_hook sample_NtUserCreateWindowEx
                     sample_args)
              (final Wh_ModInit (fresh demo_system)))) !! 200
  = Some 1.
Proof.
  destruct (new_window_gets_cached_theme sample_NtUserCreateWindowEx
              (final Wh_ModInit (fresh demo_system)) sample_args eq_refl)
    as (_ & H & _).
  by rewrite H.
Defined.

(** X14: a message other than the two theme messages costs the gate's
    check and nothing else: the hook asks for no theme, styles no window and
    hands the message to the original on the world as it found it.  Of the
    statics only the exclusion decision can change, and once that is taken
    the call of the original is the hook's only call. *)
Theorem other_messages_only_reach_the_original
    (D : HWND → Z → Z → Z → World → Z * World)
    (s : State) (hWnd : HWND) (Msg wParam lParam : Z) :
  Msg ≠ WM_DWMCOLORIZATIONCOLORCHANGED →
  Msg ≠ WM_SETTINGCHANGE →
  let s0 := final IsProcessExcluded s in
  let r := D hWnd Msg wParam lParam (world s) in
  DefWindowProc_hook D hWnd Msg wParam lParam s
  = (r.1, {| world := r.2; globals := globals s0 |},
     trace IsProcessExcluded s
     ++ [EvDefWindowProc_orig hWnd Msg wParam lParam r.1])
  ∧ g_isDarkMode (globals s0) = g_isDarkMode (globals s)
  ∧ g_ShouldSystemUseDarkMode (globals s0)
    = g_ShouldSystemUseDarkMode (globals s)
  ∧ (isExcluded (globals s) ≠ -1 →
     globals s0 = globals s ∧ trace IsProcessExcluded s = []).
Proof.
  intros H1 H2 s0 r.
  assert (Hm : is_theme_message Msg = false).
  { unfold is_theme_message.
    apply Z.eqb_neq in H1, H2. by rewrite H1, H2. }
  assert (Hw0 : world s0 = world s) by apply IsProcessExcluded_quiet.
  split; [|split; [|split]].
  - unfold DefWindowProc_hook, theme_change_check.
    unfold mbind at 1 2, M_bind at 1 2.
    rewrite (run_eta IsProcessExcluded s). fold s0.
    rewrite Hm, andb_false_r. simpl.
    rewrite DefWindowProc_orig_run; simpl. rewrite Hw0. fold r.
    by rewrite app_nil_r.
  - apply IsProcessExcluded_quiet.
  - subst s0. unfold final. rewrite IsProcessExcluded_run.
    by destruct (_ =? -1).
  - intros Hx. subst s0. unfold final, trace.
    by rewrite (IsProcessExcluded_decided s Hx).
Qed.

Lemma other_messages_only_reach_the_original_witness :
  trace (DefWindowProc_hook sample_DefWindowProcW 100 15 0 0)
    (final Wh_ModInit (fresh demo_system))
  = [EvDefWindowProc_orig 100 15 0 0 5].
Proof.
  unfold trace.
  by rewrite (proj1 (other_messages_only_reach_the_original
                       sample_DefWindowProcW
                       (final Wh_ModInit (fresh demo_system)) 100 15 0 0
                       ltac:(done) ltac:(done))).
Defined.

(** ** Lifecycle callbacks *)

Lemma hook_window_creation_run s :
  hook_window_creation s = (TRUE, s, hook_creation_calls (sys (world s))).
Proof.
  unfold hook_window_creation, hook_creation_calls, creation_primitive,
    pid_log, log_pid, Wh_Log, GetCurrentProcessId, Wh_SetFunctionHook,
    GetModuleHandleW, GetProcAddress.
  unfold mbind, M_bind, emit, ask, mret, M_ret; simpl.
  destruct (sys_GetModuleHandleW _ _ =? 0); simpl; [done|].
  destruct (sys_GetProcAddress _ _ _ =? 0); simpl; [done|].
  by destruct (sys_Wh_SetFunctionHook _ _ =? 0).
Qed.

Lemma Wh_ModInit_run s :
  let y := sys (world s) in
  let s0 := final IsProcessExcluded s in
  let theme := result IsSystemDarkMode s0 in
  let s1 := final IsSystemDarkMode s0 in
  Wh_ModInit s =
  if result IsProcessExcluded s =? 0 then
    (TRUE,
     {| world := world s1; globals := set_g_isDarkMode theme (globals s1) |},
     EvWh_Log banner []
     :: pid_log y "[Process %d] Initializing Auto Dark Titlebar mod"
     ++ trace IsProcessExcluded s ++ trace IsSystemDarkMode s0
     ++ init_hook_calls y theme)
  else
    (TRUE, s0,
     EvWh_Log banner []
     :: pid_log y "[Process %d] Initializing Auto Dark Titlebar mod"
     ++ trace IsProcessExcluded s
     ++ pid_log y "[Process %d] Process is excluded, skipping initialization"
     ++ [EvWh_Log banner []]).
Proof.
  intros y s0 theme s1.
  assert (Hw0 : world s0 = world s) by apply IsProcessExcluded_quiet.
  assert (Hw1 : world s1 = world s).
  { subst s1. rewrite <- Hw0. apply IsSystemDarkMode_quiet. }
  unfold Wh_ModInit.
  unfold mbind at 1 2 3, M_bind at 1 2 3.
  unfold Wh_Log at 1, emit at 1.
  unfold log_pid at 1, GetCurrentProcessId at 1, Wh_Log at 1.
  unfold mbind at 1, M_bind at 1, ask at 1, emit at 1.
  rewrite (run_eta IsProcessExcluded s). fold s0. fold y.
  destruct (result IsProcessExcluded s =? 0); simpl.
  - unfold mbind at 1, M_bind at 1.
    rewrite (run_eta IsSystemDarkMode s0). fold theme s1.
    pose proof hook_window_creation_run as Hc. revert Hc.
    generalize hook_window_creation; intros hwc Hc.
    unfold init_hook_calls, pid_log, log_pid, Wh_Log, GetCurrentProcessId,
      Wh_SetFunctionHook.
    unfold mbind, M_bind, ask, emit, put, get, mret, M_ret; simpl.
    rewrite Hw1. fold y.
    destruct (sys_Wh_SetFunctionHook y HookDefWindowProcW =? 0); simpl;
      rewrite Hc; simpl; rewrite ?Hw1; done.
  - unfold pid_log, log_pid, Wh_Log, GetCurrentProcessId.
    unfold mbind, M_bind, ask, emit, mret, M_ret; simpl.
    by rewrite Hw0.
Qed.

Lemma hook_attempts_app t1 t2 :
  hook_attempts (t1 ++ t2) = hook_attempts t1 ++ hook_attempts t2.
Proof. apply omap_app. Qed.

Lemma hook_attempts_none t :
  Forall (λ ev, no_hook_call ev = true) t → hook_attempts t = [].
Proof. induction 1 as [|ev t Hev _ IH]; [done|]. by destruct ev. Qed.

Lemma IsProcessExcluded_no_hook :
  respects (calls_only no_hook_call) IsProcessExcluded.
Proof.
  intros s. unfold calls_only, trace. rewrite IsProcessExcluded_run.
  repeat case_match; by repeat constructor.
Qed.

Lemma IsSystemDarkMode_no_hook :
  respects (calls_only no_hook_call) IsSystemDarkMode.
Proof.
  unfold IsSystemDarkMode, uxtheme_fallback. respects_walk_down tidy_leaf.
Qed.

Lemma hook_attempts_creation y :
  hook_attempts (hook_creation_calls y)
  = if creation_primitive y =? 0 then [] else [HookNtUserCreateWindowEx].
Proof.
  unfold hook_creation_calls, creation_primitive.
  destruct (sys_GetModuleHandleW y "win32u.dll" =? 0); [done|].
  by destruct (sys_GetProcAddress y _ _ =? 0).
Qed.

Lemma attribute_sets_creation y : attribute_sets (hook_creation_calls y) = [].
Proof.
  unfold hook_creation_calls.
  destruct (sys_GetModuleHandleW y "win32u.dll" =? 0); [done|].
  by destruct (creation_primitive y =? 0).
Qed.

(** X15: [Wh_ModInit] reports success whatever happens: in an excluded
    process, when a hook cannot be installed, when [win32u.dll] or
    [NtUserCreateWindowEx] cannot be found.  It styles no window and leaves
    the world as it was.  In an excluded process it asks for no hook; in any
    other it asks for the hook on [DefWindowProcW] and then, whether or not
    that one was installed, for the hook on [NtUserCreateWindowEx] if its
    address was found. *)
Theorem Wh_ModInit_always_succeeds (s : State) :
  result Wh_ModInit s = TRUE
  ∧ world (final Wh_ModInit s) = world s
  ∧ attribute_sets (trace Wh_ModInit s) = []
  ∧ hook_attempts (trace Wh_ModInit s)
    = if result IsProcessExcluded s =? 0
      then hooks_requested (sys (world s)) else [].
Proof.
  pose proof (IsProcessExcluded_quiet s) as (Hw0 & _ & Ha0 & _).
  pose proof (IsSystemDarkMode_quiet (final IsProcessExcluded s))
    as (Hw1 & _ & Ha1 & _).
  pose proof (hook_attempts_none _ (IsProcessExcluded_no_hook s)) as Hh0.
  pose proof (hook_attempts_none _
                (IsSystemDarkMode_no_hook (final IsProcessExcluded s))) as Hh1.
  pose proof (Wh_ModInit_run s) as Hrun. cbv zeta in Hrun.
  unfold result at 1, final at 1, trace at 1 2. rewrite Hrun.
  destruct (result IsProcessExcluded s =? 0); simpl.
  - split; [done|]. split; [congruence|].
    change (EvWh_Log banner [] :: EvGetCurrentProcessId ?p :: ?e :: ?t)
      with ([EvWh_Log banner []; EvGetCurrentProcessId p; e] ++ t).
    rewrite !attribute_sets_app, !hook_attempts_app, Ha0, Ha1, Hh0, Hh1.
    unfold init_hook_calls.
    rewrite !attribute_sets_app, !hook_attempts_app, attribute_sets_creation,
      hook_attempts_creation.
    split; reflexivity.
  - split; [done|]. split; [done|].
    change (EvWh_Log banner [] :: EvGetCurrentProcessId ?p :: ?e :: ?t)
      with ([EvWh_Log banner []; EvGetCurrentProcessId p; e] ++ t).
    rewrite !attribute_sets_app, !hook_attempts_app, Ha0, Hh0.
    split; reflexivity.
Qed.

(** *** Loading and unloading *)

Lemma Wh_ModAfterInit_final s :
  result IsProcessExcluded s = FALSE →
  final Wh_ModAfterInit s
  = final (ApplyToAllWindows (g_isDarkMode (globals s)))
      (final IsProcessExcluded s).
Proof.
  intros Hex. unfold Wh_ModAfterInit.
  rewrite final_bind, Hex; simpl.
  rewrite final_bind, final_log_pid, final_bind. unfold final at 2; simpl.
  unfold result at 1; simpl. rewrite final_bind, final_log_pid.
  change (final (get g_isDarkMode) ?x) with x.
  change ((IsProcessExcluded s).1.2) with (final IsProcessExcluded s).
  by destruct (IsProcessExcluded_quiet s) as (_ & -> & _).
Qed.

Lemma Wh_ModUninit_run s :
  result IsProcessExcluded s = FALSE →
  let y := sys (world s) in
  let s0 := final IsProcessExcluded s in
  Wh_ModUninit s =
  (tt, final (ApplyToAllWindows FALSE) s0,
   trace IsProcessExcluded s
   ++ pid_log y "[Process %d] Uninitializing Auto Dark Titlebar mod"
   ++ trace (ApplyToAllWindows FALSE) s0
   ++ pid_log y "[Process %d] Cleanup complete").
Proof.
  intros Hex y s0.
  assert (Hw0 : world s0 = world s) by apply IsProcessExcluded_quiet.
  unfold Wh_ModUninit. unfold mbind at 1, M_bind at 1.
  rewrite (run_eta IsProcessExcluded s), Hex. fold s0. simpl.
  unfold mbind at 1, M_bind at 1.
  unfold log_pid at 1, GetCurrentProcessId at 1, Wh_Log at 1.
  unfold mbind at 1, M_bind at 1, ask at 1, emit at 1.
  unfold mbind at 1, M_bind at 1.
  rewrite (run_eta (ApplyToAllWindows FALSE) s0).
  assert (Hy : sys_pid (sys (world (final (ApplyToAllWindows FALSE) s0)))
               = sys_pid y).
  { destruct (ApplyToAllWindows_inner FALSE s0) as ((U & _) & _).
    rewrite (sys_pid_unordered _ _ U). by rewrite Hw0. }
  unfold pid_log, log_pid, GetCurrentProcessId, Wh_Log.
  unfold mbind, M_bind, ask, emit; simpl. by rewrite Hy, Hw0.
Qed.

Lemma dark_attr_ApplyToAllWindows b s h :
  dark_attr (world (final (ApplyToAllWindows b) s)) !! h
  = if sweep_reaches (sys (world s)) h then Some (attr_value (wrap32 b))
    else dark_attr (world s) !! h.
Proof.
  unfold final, sweep_reaches. rewrite ApplyToAllWindows_run; simpl.
  apply dark_attr_sweep.
Qed.

(** X16: in a process the gate lets through, once the mod is loaded
    ([Wh_ModInit], then [Wh_ModAfterInit]) the theme cache holds the Theme
    Oracle's answer and so does the attribute of every window the sweep
    reaches; the attribute of any other window is what it was, and so is
    what the system answers, up to the Z order. *)
Theorem load_styles_existing_windows (s : State) :
  result IsProcessExcluded s = FALSE →
  let y := sys (world s) in
  let theme := result IsSystemDarkMode (final IsProcessExcluded s) in
  let s' := final (Wh_ModInit;; Wh_ModAfterInit) s in
  g_isDarkMode (globals s') = theme
  ∧ same_windows (sys (world s')) y
  ∧ ∀ h, dark_attr (world s') !! h
         = if sweep_reaches y h then Some theme else dark_attr (world s) !! h.
Proof.
  intros Hex y theme s'. subst s'. rewrite final_bind.
  set (s0 := final IsProcessExcluded s).
  set (s1 := final IsSystemDarkMode s0).
  assert (HI : final Wh_ModInit s
               = {| world := world s1;
                    globals := set_g_isDarkMode theme (globals s1) |}).
  { unfold final at 1. pose proof (Wh_ModInit_run s) as Hrun.
    cbv zeta in Hrun. rewrite Hrun, Hex. done. }
  rewrite HI. set (sI := {| world := world s1; globals := _ |}).
  assert (Hw : world sI = world s).
  { simpl. subst s1.
    destruct (IsSystemDarkMode_quiet s0) as (-> & _).
    apply IsProcessExcluded_quiet. }
  destruct (IsProcessExcluded_decides s) as [Hd Hr]. fold s0 in Hd, Hr.
  assert (Hx1 : isExcluded (globals s1) = isExcluded (globals s0)).
  { destruct (IsSystemDarkMode_memoized s0) as [_ Hm]. by apply Hm. }
  assert (HgI : IsProcessExcluded sI = (FALSE, sI, [])).
  { rewrite IsProcessExcluded_decided; simpl; rewrite Hx1; [|done].
    by rewrite <- Hr, Hex. }
  rewrite Wh_ModAfterInit_final by (unfold result; by rewrite HgI).
  unfold final at 2 4 6. rewrite HgI; simpl.
  assert (Hv : attr_value (wrap32 theme) = theme)
    by apply attr_value_wrap32_bool, IsSystemDarkMode_bool.
  split; [|split].
  - by destruct (ApplyToAllWindows_inner theme sI) as (_ & -> & _).
  - destruct (ApplyToAllWindows_inner theme sI) as (Hy & _). by rewrite Hw in Hy.
  - intros h. rewrite dark_attr_ApplyToAllWindows, Hv, Hw. done.
Qed.

Lemma load_styles_existing_windows_witness :
  dark_attr
    (world (final (Wh_ModInit;; Wh_ModAfterInit) (fresh demo_system))) !! 100
  = Some 1.
Proof.
  destruct (load_styles_existing_windows (fresh demo_system) eq_refl)
    as (_ & _ & H).
  by rewrite H.
Defined.

(** X17: in a process the gate lets through, [Wh_ModUninit] turns the
    attribute off on every window the sweep reaches, whatever the theme, and
    leaves every other window's attribute and the theme cache as they were;
    its attribute-set calls are one with value 0 for each enumerated window
    that passes the filters.  What the system answers is as before, up to
    the Z order. *)
Theorem unload_turns_dark_mode_off (s : State) :
  result IsProcessExcluded s = FALSE →
  let y := sys (world s) in
  let s' := final Wh_ModUninit s in
  (∀ h, dark_attr (world s') !! h
        = if sweep_reaches y h then Some FALSE else dark_attr (world s) !! h)
  ∧ same_windows (sys (world s')) y
  ∧ g_isDarkMode (globals s') = g_isDarkMode (globals s)
  ∧ attribute_sets (trace Wh_ModUninit s)
    = (λ h, (h, FALSE)) <$> filter (λ h, styling_target y h = true)
                              (sys_toplevel y).
Proof.
  intros Hex y s'. subst s'. unfold final at 1 2 3, trace.
  pose proof (Wh_ModUninit_run s Hex) as Hrun. cbv zeta in Hrun.
  rewrite Hrun; simpl.
  set (s0 := final IsProcessExcluded s).
  destruct (IsProcessExcluded_quiet s) as (Hw0 & Hc0 & Ha0 & _).
  fold s0 in Hw0, Hc0.
  split; [|split; [|split]].
  - intros h. by rewrite dark_attr_ApplyToAllWindows, Hw0.
  - destruct (ApplyToAllWindows_inner FALSE s0) as (Hy & _).
    by rewrite Hw0 in Hy.
  - destruct (ApplyToAllWindows_inner FALSE s0) as (_ & -> & _). done.
  - rewrite !attribute_sets_app, Ha0. unfold trace.
    rewrite ApplyToAllWindows_run; simpl.
    change (attribute_sets (EvEnumWindows :: ?t)) with (attribute_sets t).
    rewrite attribute_sets_app, Hw0, attribute_sets_sweep.
    apply app_nil_r.
Qed.

Lemma unload_turns_dark_mode_off_witness :
  dark_attr
    (world (final Wh_ModUninit
              (final (Wh_ModInit;; Wh_ModAfterInit) (fresh demo_system))))
    !! 100
  = Some 0.
Proof.
  assert (Hex : result IsProcessExcluded
                  (final (Wh_ModInit;; Wh_ModAfterInit) (fresh demo_system))
                = FALSE) by (vm_compute; reflexivity).
  destruct (unload_turns_dark_mode_off _ Hex) as (H & _).
  rewrite H. by vm_compute.
Defined.
